(** * Lemming BGP reconciler: policy translation and reconciliation

    A shallow embedding of the [bgp] package of the lemming device
    simulator: the routing-policy translator (OpenConfig model to the GoBGP
    policy model), the config translator [intendedToGoBGP], the single
    entry point [updateAppliedState] for the applied-state tree, the
    peer-event callback and the [reconcile] state machine.

    Conventions.  Go strings are [string]; Go unsigned integers are [Z]
    in their range; a Go pointer field is an [option]; a generated getter
    [GetX] returns the zero value through a nil receiver or a nil field; a
    Go [map[string]T] is a [gmap string T]; iteration over a Go map is a
    traversal of a list of its entries in the order the runtime picked. *)

From Stdlib Require Import ZArith Ascii String List Lia DecimalString DecimalN.
From stdpp Require Import base option list strings gmap sorting.

Local Open Scope Z_scope.

(** ** Strings *)

Module GoString.

(** [strconv.FormatUint(n, 10)]. *)
Definition FormatUint (n : Z) : string :=
  NilEmpty.string_of_uint (N.to_uint (Z.to_N n)).

(** [strings.ToLower] on the ASCII range. *)
Definition lower_ascii (c : ascii) : ascii :=
  let n := nat_of_ascii c in
  if ((65 <=? n) && (n <=? 90))%nat then ascii_of_nat (n + 32) else c.

Fixpoint ToLower (s : string) : string :=
  match s with
  | EmptyString => EmptyString
  | String c r => String (lower_ascii c) (ToLower r)
  end.

(** [strings.IndexByte]-style membership of a byte in a string. *)
Fixpoint contains (c : ascii) (s : string) : bool :=
  match s with
  | EmptyString => false
  | String d r => if Ascii.eqb c d then true else contains c r
  end.

(** [strings.Cut(s, sep)] for a one-byte separator: the text before and
    after the first occurrence of [c], if there is one. *)
Fixpoint cut (c : ascii) (s : string) : option (string * string) :=
  match s with
  | EmptyString => None
  | String d r =>
      if Ascii.eqb c d then Some (EmptyString, r)
      else match cut c r with
           | Some (a, b) => Some (String d a, b)
           | None => None
           end
  end.

(** The text before and after the last occurrence of [c]. *)
Fixpoint cut_last (c : ascii) (s : string) : option (string * string) :=
  match s with
  | EmptyString => None
  | String d r =>
      match cut_last c r with
      | Some (a, b) => Some (String d a, b)
      | None => if Ascii.eqb c d then Some (EmptyString, r) else None
      end
  end.

End GoString.

(** ** The OpenConfig model (package [oc])

    Generated enumerations are Go [int64] types.  Each is an inductive with
    its named values and one more constructor for any other number. *)

Module oc.

Inductive E_RoutingPolicy_DefaultPolicyType :=
| RoutingPolicy_DefaultPolicyType_UNSET
| RoutingPolicy_DefaultPolicyType_ACCEPT_ROUTE
| RoutingPolicy_DefaultPolicyType_REJECT_ROUTE
| RoutingPolicy_DefaultPolicyType_other (code : Z).

Inductive E_RoutingPolicy_MatchSetOptionsType :=
| RoutingPolicy_MatchSetOptionsType_UNSET
| RoutingPolicy_MatchSetOptionsType_ANY
| RoutingPolicy_MatchSetOptionsType_ALL
| RoutingPolicy_MatchSetOptionsType_INVERT
| RoutingPolicy_MatchSetOptionsType_other (code : Z).

Inductive E_RoutingPolicy_MatchSetOptionsRestrictedType :=
| RoutingPolicy_MatchSetOptionsRestrictedType_UNSET
| RoutingPolicy_MatchSetOptionsRestrictedType_ANY
| RoutingPolicy_MatchSetOptionsRestrictedType_INVERT
| RoutingPolicy_MatchSetOptionsRestrictedType_other (code : Z).

Inductive E_RoutingPolicy_PolicyResultType :=
| RoutingPolicy_PolicyResultType_UNSET
| RoutingPolicy_PolicyResultType_ACCEPT_ROUTE
| RoutingPolicy_PolicyResultType_REJECT_ROUTE
| RoutingPolicy_PolicyResultType_other (code : Z).

Inductive E_BgpTypes_BGP_WELL_KNOWN_STD_COMMUNITY :=
| BgpTypes_BGP_WELL_KNOWN_STD_COMMUNITY_UNSET
| BgpTypes_BGP_WELL_KNOWN_STD_COMMUNITY_NOPEER
| BgpTypes_BGP_WELL_KNOWN_STD_COMMUNITY_NO_ADVERTISE
| BgpTypes_BGP_WELL_KNOWN_STD_COMMUNITY_NO_EXPORT
| BgpTypes_BGP_WELL_KNOWN_STD_COMMUNITY_NO_EXPORT_SUBCONFED
| BgpTypes_BGP_WELL_KNOWN_STD_COMMUNITY_other (code : Z).

Inductive E_SetCommunity_Method :=
| SetCommunity_Method_UNSET
| SetCommunity_Method_INLINE
| SetCommunity_Method_REFERENCE
| SetCommunity_Method_other (code : Z).

Inductive E_BgpPolicy_BgpSetCommunityOptionType :=
| BgpPolicy_BgpSetCommunityOptionType_UNSET
| BgpPolicy_BgpSetCommunityOptionType_ADD
| BgpPolicy_BgpSetCommunityOptionType_REMOVE
| BgpPolicy_BgpSetCommunityOptionType_REPLACE
| BgpPolicy_BgpSetCommunityOptionType_other (code : Z).

Inductive E_BgpActions_SetMed :=
| BgpActions_SetMed_UNSET
| BgpActions_SetMed_IGP
| BgpActions_SetMed_other (code : Z).

(** The community union: a member of a community set or of an inline
    set-community action. *)
Inductive Community_Union :=
| Community_UnionString (s : string)
| Community_UnionUint32 (n : Z)
| Community_WellKnown (c : E_BgpTypes_BGP_WELL_KNOWN_STD_COMMUNITY).

(** The set-med union. *)
Inductive SetMed_Union :=
| SetMed_UnionString (s : string)
| SetMed_UnionUint32 (n : Z)
| SetMed_Enum (c : E_BgpActions_SetMed).

Record MatchPrefixSet := {
  MatchPrefixSet_PrefixSet : option string;
  MatchPrefixSet_MatchSetOptions : E_RoutingPolicy_MatchSetOptionsRestrictedType }.

Record MatchNeighborSet := {
  MatchNeighborSet_NeighborSet : option string }.

Record MatchAsPathSet := {
  MatchAsPathSet_AsPathSet : option string;
  MatchAsPathSet_MatchSetOptions : E_RoutingPolicy_MatchSetOptionsType }.

Record BgpConditions := {
  BgpConditions_CommunitySet : option string;
  BgpConditions_MatchAsPathSet : option MatchAsPathSet }.

Record Conditions := {
  Conditions_MatchPrefixSet : option MatchPrefixSet;
  Conditions_MatchNeighborSet : option MatchNeighborSet;
  Conditions_BgpConditions : option BgpConditions }.

Record SetCommunity_Inline_ := {
  Inline_Communities : list Community_Union }.

Record SetCommunity_Reference_ := {
  Reference_CommunitySetRef : option string }.

Record SetCommunity := {
  SetCommunity_Method : E_SetCommunity_Method;
  SetCommunity_Inline : option SetCommunity_Inline_;
  SetCommunity_Reference : option SetCommunity_Reference_;
  SetCommunity_Options : E_BgpPolicy_BgpSetCommunityOptionType }.

Record SetAsPathPrepend := {
  SetAsPathPrepend_RepeatN : option Z;
  SetAsPathPrepend_Asn : option Z }.

Record BgpActions := {
  BgpActions_SetCommunity : option SetCommunity;
  BgpActions_SetLocalPref : option Z;
  BgpActions_SetMed : option SetMed_Union;
  BgpActions_SetAsPathPrepend : option SetAsPathPrepend }.

Record Actions := {
  Actions_PolicyResult : E_RoutingPolicy_PolicyResultType;
  Actions_BgpActions : option BgpActions }.

Record Statement := {
  Statement_Name : option string;
  Statement_Conditions : option Conditions;
  Statement_Actions : option Actions }.

(** [Statement] is an ordered map; [Values()] lists it in order. *)
Record PolicyDefinition := {
  PolicyDefinition_Name : option string;
  PolicyDefinition_Statement : list Statement }.

Record CommunitySet := {
  CommunitySet_CommunityMember : list Community_Union;
  CommunitySet_MatchSetOptions : E_RoutingPolicy_MatchSetOptionsType }.

Record Prefix := {
  Prefix_IpPrefix : option string;
  Prefix_MasklengthRange : option string }.

(** [Prefix] is a Go map keyed by (ip-prefix, masklength-range); the list
    holds its entries in the order a [range] loop visits them. *)
Record PrefixSet := {
  PrefixSet_Prefix : list Prefix }.

Record AsPathSet := {
  AsPathSet_AsPathSetMember : list string }.

Record ApplyPolicy := {
  ApplyPolicy_DefaultImportPolicy : E_RoutingPolicy_DefaultPolicyType;
  ApplyPolicy_DefaultExportPolicy : E_RoutingPolicy_DefaultPolicyType;
  ApplyPolicy_ImportPolicy : list string;
  ApplyPolicy_ExportPolicy : list string }.

(** Getters: the zero value through nil. *)
Definition GetString (o : option string) : string := default EmptyString o.
Definition GetUint (o : option Z) : Z := default 0 o.

(** The routing-policy tree. [PolicyDefinition] is an ordered map. *)
Record RoutingPolicy := {
  RoutingPolicy_PolicyDefinition : list (string * PolicyDefinition);
  RoutingPolicy_PrefixSet : gmap string PrefixSet;
  RoutingPolicy_CommunitySet : gmap string CommunitySet;
  RoutingPolicy_AsPathSet : gmap string AsPathSet }.

(** The session-state enumeration is used through its numeric code:
    the peer-event callback converts a code of the generated name table
    with [E_Bgp_Neighbor_SessionState(enumCode)]. *)
Definition E_Bgp_Neighbor_SessionState := Z.
Definition Bgp_Neighbor_SessionState_UNSET : E_Bgp_Neighbor_SessionState := 0.

Record Global := {
  Global_As : option Z;
  Global_RouterId : option string }.

Record Neighbor := {
  Neighbor_NeighborAddress : option string;
  Neighbor_PeerAs : option Z;
  Neighbor_NeighborPort : option Z;
  Neighbor_SessionState : E_Bgp_Neighbor_SessionState;
  Neighbor_ApplyPolicy : option ApplyPolicy }.

(** The IPv4-unicast tables of a neighbour, as lists of (prefix, path
    index) keys. *)
Record AdjRib := {
  AdjRibInPre : list (string * Z);
  AdjRibInPost : list (string * Z);
  AdjRibOutPre : list (string * Z);
  AdjRibOutPost : list (string * Z) }.

Record Rib := {
  Rib_LocRib : list (string * option string * Z);
  Rib_Neighbor : gmap string AdjRib }.

Record Bgp := {
  Bgp_Global : option Global;
  Bgp_Neighbor : gmap string Neighbor;
  Bgp_Rib : option Rib }.

(** The zero value [oc.NetworkInstance_Protocol_Bgp{}]. *)
Definition Bgp_zero : Bgp :=
  {| Bgp_Global := None; Bgp_Neighbor := ∅; Bgp_Rib := None |}.

Definition GetAs (g : option Global) : Z := GetUint (g ≫= Global_As).
Definition GetRouterId (g : option Global) : string := GetString (g ≫= Global_RouterId).
Definition GetPeerAs (n : Neighbor) : Z := GetUint (Neighbor_PeerAs n).
(** The schema default of neighbor-port is the BGP port. *)
Definition GetNeighborPort (n : Neighbor) : Z := default 179 (Neighbor_NeighborPort n).

(** [GetOrCreateNeighbor] answers the record at the key, after adding
    one that holds only its address when there is none. *)
Definition newNeighbor (addr : string) : Neighbor :=
  {| Neighbor_NeighborAddress := Some addr;
     Neighbor_PeerAs := None;
     Neighbor_NeighborPort := None;
     Neighbor_SessionState := Bgp_Neighbor_SessionState_UNSET;
     Neighbor_ApplyPolicy := None |}.

Definition GetOrCreateNeighbor (b : Bgp) (addr : string) : Bgp * Neighbor :=
  match Bgp_Neighbor b !! addr with
  | Some n => (b, n)
  | None =>
      ({| Bgp_Global := Bgp_Global b;
          Bgp_Neighbor := <[addr := newNeighbor addr]> (Bgp_Neighbor b);
          Bgp_Rib := Bgp_Rib b |}, newNeighbor addr)
  end.

(** The root of the tree: the BGP protocol of the default network
    instance, the routing policy, and everything else. *)
Record Root {Other : Type} := {
  Root_Bgp : Bgp;
  Root_RoutingPolicy : RoutingPolicy;
  Root_Other : Other }.
Arguments Root : clear implicits.

End oc.

(** ** The GoBGP policy model (package [gobgpoc])

    Its enumerations are Go string types. *)

Module gobgpoc.

Definition DefaultPolicyType := string.
Definition DEFAULT_POLICY_TYPE_ACCEPT_ROUTE : DefaultPolicyType := "accept-route".
Definition DEFAULT_POLICY_TYPE_REJECT_ROUTE : DefaultPolicyType := "reject-route".

Definition RouteDisposition := string.
Definition ROUTE_DISPOSITION_NONE : RouteDisposition := "none".
Definition ROUTE_DISPOSITION_ACCEPT_ROUTE : RouteDisposition := "accept-route".
Definition ROUTE_DISPOSITION_REJECT_ROUTE : RouteDisposition := "reject-route".

Definition MatchSetOptionsType := string.
Definition MATCH_SET_OPTIONS_TYPE_ANY : MatchSetOptionsType := "any".
Definition MATCH_SET_OPTIONS_TYPE_ALL : MatchSetOptionsType := "all".
Definition MATCH_SET_OPTIONS_TYPE_INVERT : MatchSetOptionsType := "invert".

Definition MatchSetOptionsRestrictedType := string.
Definition MATCH_SET_OPTIONS_RESTRICTED_TYPE_ANY : MatchSetOptionsRestrictedType := "any".
Definition MATCH_SET_OPTIONS_RESTRICTED_TYPE_INVERT : MatchSetOptionsRestrictedType := "invert".

Definition BgpSetMedType := string.

Record Prefix := {
  IpPrefix : string;
  MasklengthRange : string }.

Record PrefixSet := {
  PrefixSetName : string;
  PrefixList : list Prefix }.

Record CommunitySet := {
  CommunitySetName : string;
  CommunityList : list string }.

Record AsPathSet := {
  AsPathSetName : string;
  AsPathList : list string }.

Record MatchPrefixSet := {
  MatchPrefixSet_PrefixSet : string;
  MatchPrefixSet_MatchSetOptions : MatchSetOptionsRestrictedType }.

Record MatchNeighborSet := {
  NeighborSet : string }.

Record MatchCommunitySet := {
  MatchCommunitySet_CommunitySet : string;
  MatchCommunitySet_MatchSetOptions : MatchSetOptionsType }.

Record MatchAsPathSet := {
  MatchAsPathSet_AsPathSet : string;
  MatchAsPathSet_MatchSetOptions : MatchSetOptionsType }.

Record BgpConditions := {
  BgpConditions_MatchCommunitySet : MatchCommunitySet;
  BgpConditions_MatchAsPathSet : MatchAsPathSet }.

Record Conditions := {
  Conditions_MatchPrefixSet : MatchPrefixSet;
  Conditions_MatchNeighborSet : MatchNeighborSet;
  Conditions_BgpConditions : BgpConditions }.

Record SetCommunityMethod := {
  CommunitiesList : list string }.

Record SetCommunity := {
  SetCommunity_SetCommunityMethod : SetCommunityMethod;
  SetCommunity_Options : string }.

Record SetAsPathPrepend := {
  RepeatN : Z;
  As : string }.

Record BgpActions := {
  BgpActions_SetCommunity : SetCommunity;
  BgpActions_SetLocalPref : Z;
  BgpActions_SetMed : BgpSetMedType;
  BgpActions_SetAsPathPrepend : SetAsPathPrepend }.

Record Actions := {
  RouteDisposition_ : RouteDisposition;
  Actions_BgpActions : BgpActions }.

Record Statement := {
  Statement_Name : string;
  Statement_Conditions : Conditions;
  Statement_Actions : Actions }.

Record PolicyDefinition := {
  PolicyDefinition_Name : string;
  Statements : list Statement }.

Record ApplyPolicyConfig := {
  DefaultImportPolicy : DefaultPolicyType;
  DefaultExportPolicy : DefaultPolicyType;
  ImportPolicyList : list string;
  ExportPolicyList : list string }.

Record ApplyPolicy := {
  ApplyPolicy_Config : ApplyPolicyConfig }.

End gobgpoc.

(** ** The policy translator *)

Module policy.

(** Errors built by the translator, one constructor per [fmt.Errorf]. *)
Inductive error :=
| ErrCommunitySetNotInIndexMap (commRef : string)
| ErrUnsupportedMED (med : oc.SetMed_Union).

(** Lines written with [log.Error] and [log.Errorf]. *)
Inductive LogEntry :=
| LogError (e : error)
| LogMEDNotSupported (e : error).

(** [convertPolicyName] converts an OC policy name to a
    neighbour-qualified policy name. *)
Definition convertPolicyName (neighAddr ocPolicyName : string) : string :=
  neighAddr +:+ "|" +:+ ocPolicyName.

Definition convertDefaultPolicy (ocpolicy : oc.E_RoutingPolicy_DefaultPolicyType)
  : gobgpoc.DefaultPolicyType :=
  match ocpolicy with
  | oc.RoutingPolicy_DefaultPolicyType_REJECT_ROUTE => gobgpoc.DEFAULT_POLICY_TYPE_REJECT_ROUTE
  | oc.RoutingPolicy_DefaultPolicyType_ACCEPT_ROUTE => gobgpoc.DEFAULT_POLICY_TYPE_ACCEPT_ROUTE
  | _ => gobgpoc.DEFAULT_POLICY_TYPE_REJECT_ROUTE
  end.

Definition convertMatchSetOptionsType (ocMatchSetOpts : oc.E_RoutingPolicy_MatchSetOptionsType)
  : gobgpoc.MatchSetOptionsType :=
  match ocMatchSetOpts with
  | oc.RoutingPolicy_MatchSetOptionsType_INVERT => gobgpoc.MATCH_SET_OPTIONS_TYPE_INVERT
  | oc.RoutingPolicy_MatchSetOptionsType_ANY => gobgpoc.MATCH_SET_OPTIONS_TYPE_ANY
  | oc.RoutingPolicy_MatchSetOptionsType_ALL => gobgpoc.MATCH_SET_OPTIONS_TYPE_ALL
  | _ => gobgpoc.MATCH_SET_OPTIONS_TYPE_ANY
  end.

Definition convertMatchSetOptionsRestrictedType
  (ocrestrictedMatchSetOpts : oc.E_RoutingPolicy_MatchSetOptionsRestrictedType)
  : gobgpoc.MatchSetOptionsRestrictedType :=
  match ocrestrictedMatchSetOpts with
  | oc.RoutingPolicy_MatchSetOptionsRestrictedType_INVERT =>
      gobgpoc.MATCH_SET_OPTIONS_RESTRICTED_TYPE_INVERT
  | oc.RoutingPolicy_MatchSetOptionsRestrictedType_ANY =>
      gobgpoc.MATCH_SET_OPTIONS_RESTRICTED_TYPE_ANY
  | _ => gobgpoc.MATCH_SET_OPTIONS_RESTRICTED_TYPE_ANY
  end.

Definition convertRouteDisposition (ocpolicyresult : oc.E_RoutingPolicy_PolicyResultType)
  : gobgpoc.RouteDisposition :=
  match ocpolicyresult with
  | oc.RoutingPolicy_PolicyResultType_REJECT_ROUTE => gobgpoc.ROUTE_DISPOSITION_REJECT_ROUTE
  | oc.RoutingPolicy_PolicyResultType_ACCEPT_ROUTE => gobgpoc.ROUTE_DISPOSITION_ACCEPT_ROUTE
  | _ => gobgpoc.ROUTE_DISPOSITION_NONE
  end.

(** The switch compares Go strings. *)
Definition defaultPolicyToRouteDisp (gobgpdefaultpolicy : gobgpoc.DefaultPolicyType)
  : gobgpoc.RouteDisposition :=
  if String.eqb gobgpdefaultpolicy gobgpoc.DEFAULT_POLICY_TYPE_REJECT_ROUTE
  then gobgpoc.ROUTE_DISPOSITION_REJECT_ROUTE
  else if String.eqb gobgpdefaultpolicy gobgpoc.DEFAULT_POLICY_TYPE_ACCEPT_ROUTE
  then gobgpoc.ROUTE_DISPOSITION_ACCEPT_ROUTE
  else gobgpoc.ROUTE_DISPOSITION_REJECT_ROUTE.

(** Modelled from the spec: [uint32ToCommunityString] is called by
    [convertCommunity] and defined outside the files at hand; the spec
    gives its output format as high16:low16, the one [convertCommunityOC]
    prints. *)
Definition uint32ToCommunityString (y : Z) : string :=
  GoString.FormatUint (Z.shiftr y 16) +:+ ":" +:+ GoString.FormatUint (Z.land y 65535).

(** [convertCommunity] converts any community union type to its string
    representation.  The [UnionUint32] case calls
    [uint32ToCommunityString] as a statement, drops what it returns and
    leaves the switch, so the function ends at its last line. *)
Definition convertCommunity (community : oc.Community_Union) : string :=
  match community with
  | oc.Community_UnionString c => c
  | oc.Community_UnionUint32 c =>
      let _ := uint32ToCommunityString c in
      ""
  | oc.Community_WellKnown c =>
      match c with
      | oc.BgpTypes_BGP_WELL_KNOWN_STD_COMMUNITY_NO_EXPORT => "65535:65281"
      | oc.BgpTypes_BGP_WELL_KNOWN_STD_COMMUNITY_NO_ADVERTISE => "65535:65282"
      | oc.BgpTypes_BGP_WELL_KNOWN_STD_COMMUNITY_NO_EXPORT_SUBCONFED => "65535:65283"
      | oc.BgpTypes_BGP_WELL_KNOWN_STD_COMMUNITY_NOPEER => "65535:65284"
      | _ => ""
      end
  end.

(** [convertCommunityOC] converts a GoBGP community to its OC form. *)
Definition convertCommunityOC (y : Z) : string :=
  GoString.FormatUint (Z.shiftr y 16) +:+ ":" +:+ GoString.FormatUint (Z.land y 65535).

Definition communitiesToOC (communities : list Z) : list string :=
  map convertCommunityOC communities.


(** [slices.Sort] on the keys of a Go map: byte-wise lexicographic. *)
Definition sortedKeys {V} (m : gmap string V) : list string :=
  merge_sort String.le (map fst (map_to_list m)).

(** One round of the loop of [convertCommunitySet]: the index of the set
    is the number of sets emitted so far. *)
Definition convertCommunitySet_step (occommset : gmap string oc.CommunitySet)
    (acc : list gobgpoc.CommunitySet * gmap string nat) (communitySetName : string)
  : list gobgpoc.CommunitySet * gmap string nat :=
  let '(commsets, indexMap) := acc in
  let communityList :=
    map convertCommunity
        (from_option oc.CommunitySet_CommunityMember [] (occommset !! communitySetName)) in
  (commsets ++ [ {| gobgpoc.CommunitySetName := communitySetName;
                    gobgpoc.CommunityList := communityList |} ],
   <[communitySetName := length commsets]> indexMap).

Definition convertCommunitySet (occommset : gmap string oc.CommunitySet)
  : list gobgpoc.CommunitySet * gmap string nat :=
  fold_left (convertCommunitySet_step occommset) (sortedKeys occommset) ([], ∅).

Definition convertPrefix (prefix : oc.Prefix) : gobgpoc.Prefix :=
  let r := oc.GetString (oc.Prefix_MasklengthRange prefix) in
  let r := if String.eqb r "exact" then "" else r in
  {| gobgpoc.IpPrefix := oc.GetString (oc.Prefix_IpPrefix prefix);
     gobgpoc.MasklengthRange := r |}.

Definition convertPrefixSets (ocprefixsets : gmap string oc.PrefixSet)
  : list gobgpoc.PrefixSet :=
  map (fun prefixSetName =>
         {| gobgpoc.PrefixSetName := prefixSetName;
            gobgpoc.PrefixList :=
              map convertPrefix
                  (from_option oc.PrefixSet_Prefix [] (ocprefixsets !! prefixSetName)) |})
      (sortedKeys ocprefixsets).

(** The loop ranges over the map directly; [ocpathset] lists its entries in
    the order they are visited. *)
Definition convertASPathSets (ocpathset : list (string * oc.AsPathSet))
  : list gobgpoc.AsPathSet :=
  map (fun '(pathsetName, pathset) =>
         {| gobgpoc.AsPathSetName := pathsetName;
            gobgpoc.AsPathList := oc.AsPathSet_AsPathSetMember pathset |})
      ocpathset.

Definition convertMED (med : option oc.SetMed_Union) : string * option error :=
  match med with
  | None => ("", None)
  | Some (oc.SetMed_UnionString c) => (c, None)
  | Some (oc.SetMed_UnionUint32 c) => (GoString.FormatUint c, None)
  | Some (oc.SetMed_Enum c) => ("", Some (ErrUnsupportedMED (oc.SetMed_Enum c)))
  end.

(** Indexing a slice out of range panics: [None] is the panic. *)
Definition convertSetCommunities (setCommunity : option oc.SetCommunity)
    (convertedCommSets : list gobgpoc.CommunitySet) (commSetIndexMap : gmap string nat)
  : option (list string * option error) :=
  match from_option oc.SetCommunity_Method oc.SetCommunity_Method_UNSET setCommunity with
  | oc.SetCommunity_Method_INLINE =>
      Some (map convertCommunity
                (from_option oc.Inline_Communities []
                   (setCommunity ≫= oc.SetCommunity_Inline)), None)
  | oc.SetCommunity_Method_REFERENCE =>
      let commRef := oc.GetString ((setCommunity ≫= oc.SetCommunity_Reference)
                        ≫= oc.Reference_CommunitySetRef) in
      if String.eqb commRef "" then Some ([], None)
      else match commSetIndexMap !! commRef with
           | None => Some ([], Some (ErrCommunitySetNotInIndexMap commRef))
           | Some index =>
               match convertedCommSets !! index with
               | Some cs => Some (gobgpoc.CommunityList cs, None)
               | None => None
               end
           end
  | _ => Some ([], None)
  end.

(** [String()] of the set-community option enumeration is generated code:
    the name of a named value.  It is a parameter of the translation. *)
Section Statements.
Variable SetCommunityOptions_String : oc.E_BgpPolicy_BgpSetCommunityOptionType -> string.

Definition GetBgpActions (statement : oc.Statement) : option oc.BgpActions :=
  oc.Statement_Actions statement ≫= oc.Actions_BgpActions.
Definition GetSetCommunity (statement : oc.Statement) : option oc.SetCommunity :=
  GetBgpActions statement ≫= oc.BgpActions_SetCommunity.
Definition GetMatchPrefixSet (statement : oc.Statement) : option oc.MatchPrefixSet :=
  oc.Statement_Conditions statement ≫= oc.Conditions_MatchPrefixSet.
Definition GetBgpConditions (statement : oc.Statement) : option oc.BgpConditions :=
  oc.Statement_Conditions statement ≫= oc.Conditions_BgpConditions.
Definition GetCommunitySet (statement : oc.Statement) : string :=
  oc.GetString (GetBgpConditions statement ≫= oc.BgpConditions_CommunitySet).
Definition GetMatchAsPathSet (statement : oc.Statement) : option oc.MatchAsPathSet :=
  GetBgpConditions statement ≫= oc.BgpConditions_MatchAsPathSet.
Definition GetSetAsPathPrepend (statement : oc.Statement) : option oc.SetAsPathPrepend :=
  GetBgpActions statement ≫= oc.BgpActions_SetAsPathPrepend.

(** The body of the loop of [convertPolicyDefinition]: the statement
    appended, and what the round logs. *)
Definition convertStatement (convertedPolicyName neighAddr : string)
    (occommset : gmap string oc.CommunitySet)
    (convertedCommSets : list gobgpoc.CommunitySet) (commSetIndexMap : gmap string nat)
    (statement : oc.Statement) : option (gobgpoc.Statement * list LogEntry) :=
  '(setCommunitiesList, err1) ←
    convertSetCommunities (GetSetCommunity statement) convertedCommSets commSetIndexMap;
  let '(setmed, err2) :=
    convertMED (GetBgpActions statement ≫= oc.BgpActions_SetMed) in
  let logs :=
    from_option (fun e => [LogError e]) [] err1 ++
    from_option (fun e => [LogMEDNotSupported e]) [] err2 in
  Some
    ({| gobgpoc.Statement_Name :=
          convertedPolicyName +:+ ":" +:+ oc.GetString (oc.Statement_Name statement);
        gobgpoc.Statement_Conditions :=
          {| gobgpoc.Conditions_MatchPrefixSet :=
               {| gobgpoc.MatchPrefixSet_PrefixSet :=
                    oc.GetString (GetMatchPrefixSet statement ≫= oc.MatchPrefixSet_PrefixSet);
                  gobgpoc.MatchPrefixSet_MatchSetOptions :=
                    convertMatchSetOptionsRestrictedType
                      (from_option oc.MatchPrefixSet_MatchSetOptions
                         oc.RoutingPolicy_MatchSetOptionsRestrictedType_UNSET
                         (GetMatchPrefixSet statement)) |};
             gobgpoc.Conditions_MatchNeighborSet :=
               {| gobgpoc.NeighborSet := neighAddr |};
             gobgpoc.Conditions_BgpConditions :=
               {| gobgpoc.BgpConditions_MatchCommunitySet :=
                    {| gobgpoc.MatchCommunitySet_CommunitySet := GetCommunitySet statement;
                       gobgpoc.MatchCommunitySet_MatchSetOptions :=
                         convertMatchSetOptionsType
                           (from_option oc.CommunitySet_MatchSetOptions
                              oc.RoutingPolicy_MatchSetOptionsType_UNSET
                              (occommset !! GetCommunitySet statement)) |};
                  gobgpoc.BgpConditions_MatchAsPathSet :=
                    {| gobgpoc.MatchAsPathSet_AsPathSet :=
                         oc.GetString (GetMatchAsPathSet statement ≫= oc.MatchAsPathSet_AsPathSet);
                       gobgpoc.MatchAsPathSet_MatchSetOptions :=
                         convertMatchSetOptionsType
                           (from_option oc.MatchAsPathSet_MatchSetOptions
                              oc.RoutingPolicy_MatchSetOptionsType_UNSET
                              (GetMatchAsPathSet statement)) |} |} |};
        gobgpoc.Statement_Actions :=
          {| gobgpoc.RouteDisposition_ :=
               convertRouteDisposition
                 (from_option oc.Actions_PolicyResult oc.RoutingPolicy_PolicyResultType_UNSET
                    (oc.Statement_Actions statement));
             gobgpoc.Actions_BgpActions :=
               {| gobgpoc.BgpActions_SetCommunity :=
                    {| gobgpoc.SetCommunity_SetCommunityMethod :=
                         {| gobgpoc.CommunitiesList := setCommunitiesList |};
                       gobgpoc.SetCommunity_Options :=
                         GoString.ToLower
                           (SetCommunityOptions_String
                              (from_option oc.SetCommunity_Options
                                 oc.BgpPolicy_BgpSetCommunityOptionType_UNSET
                                 (GetSetCommunity statement))) |};
                  gobgpoc.BgpActions_SetLocalPref :=
                    oc.GetUint (GetBgpActions statement ≫= oc.BgpActions_SetLocalPref);
                  gobgpoc.BgpActions_SetMed := setmed;
                  gobgpoc.BgpActions_SetAsPathPrepend :=
                    {| gobgpoc.RepeatN :=
                         oc.GetUint (GetSetAsPathPrepend statement ≫= oc.SetAsPathPrepend_RepeatN);
                       gobgpoc.As :=
                         GoString.FormatUint
                           (oc.GetUint (GetSetAsPathPrepend statement
                                          ≫= oc.SetAsPathPrepend_Asn)) |} |} |} |},
     logs).

(** The loop over [policy.Statement.Values()]. *)
Fixpoint convertStatements (convertedPolicyName neighAddr : string)
    (occommset : gmap string oc.CommunitySet)
    (convertedCommSets : list gobgpoc.CommunitySet) (commSetIndexMap : gmap string nat)
    (statements : list oc.Statement) : option (list gobgpoc.Statement * list LogEntry) :=
  match statements with
  | [] => Some ([], [])
  | statement :: rest =>
      '(st, l1) ← convertStatement convertedPolicyName neighAddr occommset
                    convertedCommSets commSetIndexMap statement;
      '(sts, l2) ← convertStatements convertedPolicyName neighAddr occommset
                     convertedCommSets commSetIndexMap rest;
      Some (st :: sts, l1 ++ l2)
  end.

(** [convertPolicyDefinition] converts an OC policy definition to a GoBGP
    policy definition; the second component is what it logs. *)
Definition convertPolicyDefinition (policy : oc.PolicyDefinition) (neighAddr : string)
    (occommset : gmap string oc.CommunitySet)
    (convertedCommSets : list gobgpoc.CommunitySet) (commSetIndexMap : gmap string nat)
  : option (gobgpoc.PolicyDefinition * list LogEntry) :=
  let convertedPolicyName :=
    convertPolicyName neighAddr (oc.GetString (oc.PolicyDefinition_Name policy)) in
  '(statements, logs) ← convertStatements convertedPolicyName neighAddr occommset
                          convertedCommSets commSetIndexMap
                          (oc.PolicyDefinition_Statement policy);
  Some ({| gobgpoc.PolicyDefinition_Name := convertedPolicyName;
           gobgpoc.Statements := statements |}, logs).

End Statements.

Definition convertNeighborApplyPolicy (neigh : oc.Neighbor) : gobgpoc.ApplyPolicy :=
  let applyPolicy := oc.Neighbor_ApplyPolicy neigh in
  {| gobgpoc.ApplyPolicy_Config :=
       {| gobgpoc.DefaultImportPolicy :=
            convertDefaultPolicy
              (from_option oc.ApplyPolicy_DefaultImportPolicy
                 oc.RoutingPolicy_DefaultPolicyType_UNSET applyPolicy);
          gobgpoc.DefaultExportPolicy :=
            convertDefaultPolicy
              (from_option oc.ApplyPolicy_DefaultExportPolicy
                 oc.RoutingPolicy_DefaultPolicyType_UNSET applyPolicy);
          gobgpoc.ImportPolicyList :=
            from_option oc.ApplyPolicy_ImportPolicy [] applyPolicy;
          gobgpoc.ExportPolicyList :=
            from_option oc.ApplyPolicy_ExportPolicy [] applyPolicy |} |}.

(** The community-set reference of a set-community action, as
    [convertSetCommunities] reads it. *)
Definition communitySetRefOf (setCommunity : option oc.SetCommunity) : string :=
  oc.GetString ((setCommunity ≫= oc.SetCommunity_Reference) ≫= oc.Reference_CommunitySetRef).

(** The action is by reference, to a name that the index map lacks. *)
Definition referenceUnresolved (commSetIndexMap : gmap string nat)
    (setCommunity : option oc.SetCommunity) : bool :=
  match from_option oc.SetCommunity_Method oc.SetCommunity_Method_UNSET setCommunity with
  | oc.SetCommunity_Method_REFERENCE =>
      negb (String.eqb (communitySetRefOf setCommunity) "") &&
      bool_decide (commSetIndexMap !! communitySetRefOf setCommunity = None)
  | _ => false
  end.

(** The MED holds a value of the enumeration, which [convertMED] refuses. *)
Definition medUnsupported (med : option oc.SetMed_Union) : bool :=
  match med with
  | Some (oc.SetMed_Enum _) => true
  | _ => false
  end.

(** The community list and the MED of an emitted statement. *)
Definition communitiesOf (st : gobgpoc.Statement) : list string :=
  gobgpoc.CommunitiesList
    (gobgpoc.SetCommunity_SetCommunityMethod
       (gobgpoc.BgpActions_SetCommunity
          (gobgpoc.Actions_BgpActions (gobgpoc.Statement_Actions st)))).
Definition medOf (st : gobgpoc.Statement) : string :=
  gobgpoc.BgpActions_SetMed (gobgpoc.Actions_BgpActions (gobgpoc.Statement_Actions st)).

(** The neighbour-match condition of an emitted statement. *)
Definition neighborSetOf (st : gobgpoc.Statement) : string :=
  gobgpoc.NeighborSet (gobgpoc.Conditions_MatchNeighborSet (gobgpoc.Statement_Conditions st)).

(** The names of the statements of an emitted policy definition. *)
Definition statementNames (pd : gobgpoc.PolicyDefinition) : list string :=
  map gobgpoc.Statement_Name (gobgpoc.Statements pd).

(** Every index of the map is a position of the slice. *)
Definition indexesInRange (convertedCommSets : list gobgpoc.CommunitySet)
    (commSetIndexMap : gmap string nat) : Prop :=
  map_Forall (fun _ index => (index < length convertedCommSets)%nat) commSetIndexMap.

End policy.

(** ** Addresses (Go's [net/netip])

    [ParseAddr], [IsLoopback] and [String] of the standard library, as far
    as [intendedToGoBGP] uses them.  An address is the four bytes of an
    IPv4 address or the sixteen bytes and the zone of an IPv6 address. *)

Module netip.

Inductive Addr :=
| Addr4 (fields : list Z)
| Addr6 (ip : list Z) (zone : string).

Definition byte_of (c : ascii) : Z := Z.of_nat (nat_of_ascii c).

Definition isDigit (c : ascii) : bool := (48 <=? byte_of c) && (byte_of c <=? 57).

(** The value of a hexadecimal digit, in either case. *)
Definition hexValue (c : ascii) : option Z :=
  let b := byte_of c in
  if (48 <=? b) && (b <=? 57) then Some (b - 48)
  else if (97 <=? b) && (b <=? 102) then Some (b - 97 + 10)
  else if (65 <=? b) && (b <=? 70) then Some (b - 65 + 10)
  else None.

(** The loop of [parseIPv4Fields] from position [i] on: [first] says
    [i == 0], [prevDot] says [s[i-1] == '.'], [fields] holds the [pos]
    octets stored so far. *)
Fixpoint parseIPv4Fields_loop (s : string) (first prevDot : bool)
    (val : Z) (digLen : Z) (fields : list Z) : option (list Z) :=
  match s with
  | EmptyString =>
      if (length fields <? 3)%nat then None else Some (fields ++ [val])
  | String c r =>
      if isDigit c then
        if (digLen =? 1) && (val =? 0) then None
        else
          let val := val * 10 + byte_of c - 48 in
          if val >? 255 then None
          else parseIPv4Fields_loop r false false val (digLen + 1) fields
      else if Ascii.eqb c "."%char then
        if first || String.eqb r "" || prevDot then None
        else if (length fields =? 3)%nat then None
        else parseIPv4Fields_loop r false true 0 0 (fields ++ [val])
      else None
  end.

Definition parseIPv4Fields (s : string) : option (list Z) :=
  parseIPv4Fields_loop s true false 0 0 [].

Definition parseIPv4 (s : string) : option Addr :=
  Addr4 <$> parseIPv4Fields s.

(** The inner loop of [parseIPv6] reading one group of hexadecimal
    digits: the value, the number of digits read and the rest. *)
Fixpoint parseHex (s : string) (off : nat) (acc : Z) : option (Z * nat * string) :=
  match s with
  | EmptyString => Some (acc, off, s)
  | String c r =>
      match hexValue c with
      | None => Some (acc, off, s)
      | Some d =>
          let acc := Z.shiftl acc 4 + d in
          if (3 <? off)%nat then None
          else if acc >? 65535 then None
          else parseHex r (S off) acc
      end
  end.

(** The text before the first ['%'] and the zone after it. *)
Definition splitZone (s : string) : option (string * string) :=
  match GoString.cut "%"%char s with
  | Some (a, zone) => if String.eqb zone "" then None else Some (a, zone)
  | None => Some (s, "")
  end.

(** The main loop of [parseIPv6]: [ip] holds the [i] bytes stored so far,
    [ellipsis] is the byte position of the [::] if one was read.  The
    result is the bytes, the ellipsis and the unread rest. *)
Fixpoint parseIPv6_loop (fuel : nat) (s : string) (ip : list Z) (ellipsis : option nat)
  : option (list Z * option nat * string) :=
  match fuel with
  | O => Some (ip, ellipsis, s)
  | S fuel =>
      if negb (length ip <? 16)%nat then Some (ip, ellipsis, s)
      else
        '(acc, off, rest) ← parseHex s 0 0;
        if (off =? 0)%nat then None
        else
          match rest with
          | String "."%char _ =>
              if bool_decide (ellipsis = None) && negb (length ip =? 12)%nat then None
              else if (16 <? length ip + 4)%nat then None
              else
                fields ← parseIPv4Fields s;
                Some (ip ++ fields, ellipsis, EmptyString)
          | _ =>
              let ip := ip ++ [Z.land (Z.shiftr acc 8) 255; Z.land acc 255] in
              match rest with
              | EmptyString => Some (ip, ellipsis, EmptyString)
              | String c rest1 =>
                  if negb (Ascii.eqb c ":"%char) then None
                  else
                    match rest1 with
                    | EmptyString => None
                    | String ":"%char rest2 =>
                        if bool_decide (ellipsis = None) then
                          match rest2 with
                          | EmptyString => Some (ip, Some (length ip), EmptyString)
                          | _ => parseIPv6_loop fuel rest2 ip (Some (length ip))
                          end
                        else None
                    | _ => parseIPv6_loop fuel rest1 ip ellipsis
                    end
              end
          end
  end.

(** [s] without its leading [::], if it has one. *)
Definition trimEllipsis (s : string) : option string :=
  match s with
  | String a (String b r) =>
      if Ascii.eqb a ":"%char && Ascii.eqb b ":"%char then Some r else None
  | _ => None
  end.

Definition parseIPv6 (input : string) : option Addr :=
  '(s, zone) ← splitZone input;
  let lead := trimEllipsis s in
  if bool_decide (lead = Some EmptyString) then Some (Addr6 (replicate 16 0) zone)
  else
    '(ip, ellipsis, rest) ←
      parseIPv6_loop 8 (default s lead) []
        (match lead with Some _ => Some 0%nat | None => None end);
    if negb (String.eqb rest "") then None
    else if (length ip <? 16)%nat then
      match ellipsis with
      | None => None
      | Some e =>
          Some (Addr6 (take e ip ++ replicate (16 - length ip) 0 ++ drop e ip) zone)
      end
    else
      match ellipsis with
      | Some _ => None
      | None => Some (Addr6 ip zone)
      end.

(** [ParseAddr]: the first of ['.'], [':'] and ['%'] decides. *)
Fixpoint ParseAddr_scan (input s : string) : option Addr :=
  match s with
  | EmptyString => None
  | String c r =>
      if Ascii.eqb c "."%char then parseIPv4 input
      else if Ascii.eqb c ":"%char then parseIPv6 input
      else if Ascii.eqb c "%"%char then None
      else ParseAddr_scan input r
  end.

Definition ParseAddr (s : string) : option Addr := ParseAddr_scan s s.

Definition Is4In6 (a : Addr) : bool :=
  match a with
  | Addr6 ip _ =>
      bool_decide (take 10 ip = replicate 10 0) && bool_decide (take 2 (drop 10 ip) = [255; 255])
  | Addr4 _ => false
  end.

Definition Unmap (a : Addr) : Addr :=
  match a with
  | Addr6 ip _ => if Is4In6 a then Addr4 (drop 12 ip) else a
  | Addr4 _ => a
  end.

Definition IsLoopback (a : Addr) : bool :=
  match Unmap a with
  | Addr4 fields => bool_decide (fields !! 0%nat = Some 127)
  | Addr6 ip _ => bool_decide (ip = replicate 15 0 ++ [1])
  end.

Definition string4 (fields : list Z) : string :=
  match fields with
  | [a; b; c; d] =>
      GoString.FormatUint a +:+ "." +:+ GoString.FormatUint b +:+ "." +:+
      GoString.FormatUint c +:+ "." +:+ GoString.FormatUint d
  | _ => "invalid IP"
  end.

(** The eight 16-bit groups of an IPv6 address. *)
Fixpoint v6u16s (ip : list Z) : list Z :=
  match ip with
  | hi :: lo :: r => (Z.shiftl hi 8 + lo) :: v6u16s r
  | _ => []
  end.

Definition hexDigit (d : Z) : ascii :=
  ascii_of_nat (Z.to_nat (if d <? 10 then 48 + d else 97 + d - 10)).

(** [appendHex]: lower-case, no leading zeros. *)
Definition appendHex (x : Z) : string :=
  if x <? 16 then String (hexDigit x) ""
  else if x <? 256 then String (hexDigit (x / 16)) (String (hexDigit (x mod 16)) "")
  else if x <? 4096 then
    String (hexDigit (x / 256)) (String (hexDigit (x / 16 mod 16))
      (String (hexDigit (x mod 16)) ""))
  else
    String (hexDigit (x / 4096)) (String (hexDigit (x / 256 mod 16))
      (String (hexDigit (x / 16 mod 16)) (String (hexDigit (x mod 16)) ""))).

(** The length of the run of zero groups at the head of [groups]. *)
Fixpoint zeroRun (groups : list Z) : nat :=
  match groups with
  | 0 :: r => S (zeroRun r)
  | _ => O
  end.

(** The first loop of [string6]: the longest run of at least two zero
    groups, the earliest one on a tie, as [(zeroStart, zeroEnd)]. *)
Fixpoint longestZeroRun (i : nat) (groups : list Z) (best : nat * nat) : nat * nat :=
  match groups with
  | [] => best
  | _ :: r =>
      let l := zeroRun groups in
      let best :=
        if (2 <=? l)%nat && (snd best - fst best <? l)%nat then (i, (i + l)%nat) else best in
      longestZeroRun (S i) r best
  end.

(** The second loop of [string6], from group [i] on. *)
Fixpoint string6_loop (fuel i : nat) (groups : list Z) (zeroStart zeroEnd : nat) : string :=
  match fuel with
  | O => ""
  | S fuel =>
      if negb (i <? 8)%nat then ""
      else if (i =? zeroStart)%nat then
        if negb (zeroEnd <? 8)%nat then "::"
        else "::" +:+ appendHex (groups !!! zeroEnd)
                  +:+ string6_loop fuel (S zeroEnd) groups zeroStart zeroEnd
      else
        (if (0 <? i)%nat then ":" else "") +:+ appendHex (groups !!! i)
          +:+ string6_loop fuel (S i) groups zeroStart zeroEnd
  end.

Definition string6 (ip : list Z) (zone : string) : string :=
  let groups := v6u16s ip in
  let '(zeroStart, zeroEnd) := longestZeroRun 0 groups (255, 255)%nat in
  string6_loop 8 0 groups zeroStart zeroEnd
    +:+ (if String.eqb zone "" then "" else "%" +:+ zone).

(** [Addr.String]. *)
Definition Addr_String (a : Addr) : string :=
  match a with
  | Addr4 fields => string4 fields
  | Addr6 ip zone =>
      if Is4In6 a then
        "::ffff:" +:+ string4 (drop 12 ip) +:+ (if String.eqb zone "" then "" else "%" +:+ zone)
      else string6 ip zone
  end.

(** The octets stored so far as [parseIPv4Fields] read them: each with the
    dot that ended it. *)
Fixpoint dotted (fields : list Z) : string :=
  match fields with
  | [] => ""
  | f :: r => GoString.FormatUint f +:+ "." +:+ dotted r
  end.

(** The character of a decimal digit. *)
Definition digitChar (d : Z) : ascii := ascii_of_nat (Z.to_nat (48 + d)).

(** The digits of the octet being read, [digLen] of them so far. *)
Definition curText (val digLen : Z) : string :=
  if digLen =? 0 then "" else GoString.FormatUint val.

End netip.

(** ** The GoBGP configuration set (package [bgpconfig]) *)

Module bgpconfig.

Record GlobalConfig := {
  As : Z;
  RouterId : string;
  Port : Z }.

Record NeighborConfig := {
  NeighborConfig_PeerAs : Z;
  NeighborConfig_NeighborAddress : string }.

Record NeighborState := {
  NeighborState_PeerAs : Z;
  NeighborState_NeighborAddress : string }.

Record TransportConfig := {
  LocalAddress : string;
  RemotePort : Z }.

Record Neighbor := {
  Neighbor_Config : NeighborConfig;
  Neighbor_State : NeighborState;
  Neighbor_Transport_Config : TransportConfig }.

Record ZebraConfig := {
  Enabled : bool;
  Url : string;
  RedistributeRouteTypeList : list string;
  Version : Z;
  NexthopTriggerEnable : bool;
  SoftwareName : string }.

Record BgpConfigSet := {
  Global_Config : GlobalConfig;
  Neighbors : list Neighbor;
  Zebra_Config : ZebraConfig }.

(** The zero value [bgpconfig.BgpConfigSet{}]. *)
Definition BgpConfigSet_zero : BgpConfigSet :=
  {| Global_Config := {| As := 0; RouterId := ""; Port := 0 |};
     Neighbors := [];
     Zebra_Config :=
       {| Enabled := false; Url := ""; RedistributeRouteTypeList := [];
          Version := 0; NexthopTriggerEnable := false; SoftwareName := "" |} |}.

End bgpconfig.

(** ** Peer events of the engine (package [api]) *)

Module api.

Inductive PeerState_SessionState :=
| PeerState_UNKNOWN
| PeerState_IDLE
| PeerState_CONNECT
| PeerState_ACTIVE
| PeerState_OPENSENT
| PeerState_OPENCONFIRM
| PeerState_ESTABLISHED
| PeerState_other (code : Z).

(** [String()] of a protobuf enumeration: the name of a named value, the
    decimal number of any other. *)
Definition SessionState_String (s : PeerState_SessionState) : string :=
  match s with
  | PeerState_UNKNOWN => "UNKNOWN"
  | PeerState_IDLE => "IDLE"
  | PeerState_CONNECT => "CONNECT"
  | PeerState_ACTIVE => "ACTIVE"
  | PeerState_OPENSENT => "OPENSENT"
  | PeerState_OPENCONFIRM => "OPENCONFIRM"
  | PeerState_ESTABLISHED => "ESTABLISHED"
  | PeerState_other code =>
      if code <? 0 then "-" +:+ GoString.FormatUint (- code) else GoString.FormatUint code
  end.

Record PeerState := {
  NeighborAddress : string;
  SessionState : PeerState_SessionState }.

(** Paths of the engine's tables, as [ListPath] streams them. *)
Inductive TableType :=
| TableType_GLOBAL
| TableType_LOCAL
| TableType_ADJ_IN
| TableType_ADJ_OUT
| TableType_VRF.

Record Path := {
  SourceId : string;
  NeighborIp : string;
  Filtered : bool }.

Record Destination := {
  Prefix : string;
  Paths : list Path }.

(** The family of every request of the task is IPv4 unicast. *)
Record ListPathRequest := {
  Name : string;
  TableType_ : TableType;
  EnableFiltered : bool }.

End api.

(** ** The task ([gobgp.go]) *)

Module gobgp.

Definition gracefulRestart : bool := false.

(** [zebra.MaxZapiVer] of the engine. *)
Definition MaxZapiVer : Z := 6.

(** [intendedToGoBGP] translates from OC to GoBGP intended config.  The
    loop ranges over the neighbour map; the entries come in the order of
    [map_to_list]. *)
Definition intendedToGoBGP (bgpoc : oc.Bgp) (zapiURL : string) (listenPort : Z)
  : bgpconfig.BgpConfigSet :=
  let global := oc.Bgp_Global bgpoc in
  let localAddress :=
    match netip.ParseAddr (oc.GetRouterId global) with
    | Some localAddr =>
        if netip.IsLoopback localAddr then netip.Addr_String localAddr else ""
    | None => ""
    end in
  {| bgpconfig.Global_Config :=
       {| bgpconfig.As := oc.GetAs global;
          bgpconfig.RouterId := oc.GetRouterId global;
          bgpconfig.Port := listenPort |};
     bgpconfig.Neighbors :=
       map (fun '(neighAddr, neigh) =>
              {| bgpconfig.Neighbor_Config :=
                   {| bgpconfig.NeighborConfig_PeerAs := oc.GetPeerAs neigh;
                      bgpconfig.NeighborConfig_NeighborAddress := neighAddr |};
                 bgpconfig.Neighbor_State :=
                   {| bgpconfig.NeighborState_PeerAs := oc.GetPeerAs neigh;
                      bgpconfig.NeighborState_NeighborAddress := neighAddr |};
                 bgpconfig.Neighbor_Transport_Config :=
                   {| bgpconfig.LocalAddress := localAddress;
                      bgpconfig.RemotePort := oc.GetNeighborPort neigh |} |})
           (map_to_list (oc.Bgp_Neighbor bgpoc));
     bgpconfig.Zebra_Config :=
       {| bgpconfig.Enabled := true;
          bgpconfig.Url := zapiURL;
          bgpconfig.RedistributeRouteTypeList := [];
          bgpconfig.Version := MaxZapiVer;
          bgpconfig.NexthopTriggerEnable := false;
          bgpconfig.SoftwareName := "frr8.2" |} |}.

(** The local transport address of a neighbour of the config set. *)
Definition localAddressOf (n : bgpconfig.Neighbor) : string :=
  bgpconfig.LocalAddress (bgpconfig.Neighbor_Transport_Config n).

(** Errors: the three that [reconcile] builds, and those of the engine
    and of the central cache. *)
Inductive error :=
| ErrInitialConfig (newConfig : bgpconfig.BgpConfigSet)
| ErrStopBgp
| ErrUpdateConfig (newConfig : bgpconfig.BgpConfigSet)
| ErrExternal (msg : string).

(** The two sub-trees published to the central cache, each at its path
    ([BGPStatePath], [RoutingPolicyStatePath]). *)
Inductive Subtree :=
| AtBGPStatePath (appliedBGP : oc.Bgp)
| AtRoutingPolicyStatePath (appliedRoutingPolicy : oc.RoutingPolicy).

(** Lines of [log.Errorf] and [log.Warningf]. *)
Inductive LogEntry :=
| LogFailedToUpdateState (sub : Subtree) (err : error)
| LogUnknownSessionState (v : api.PeerState_SessionState).

(** What the task calls and does not define: the engine ([InitialConfig],
    [UpdateConfig], [StopBgp], each with the server and the applied BGP
    tree it may write to), the central cache behind the client, and the
    generated schema ([PopulateDefaults], the name table [ΛMap] of the
    session-state enumeration, listed in the order a [range] visits
    it). *)
Class Collaborators := {
  Server : Type;
  Cache : Type;
  RootOther : Type;
  InitialConfig :
    oc.Bgp -> Server -> bgpconfig.BgpConfigSet -> bool ->
    option bgpconfig.BgpConfigSet * option error * oc.Bgp * Server;
  UpdateConfig :
    oc.Bgp -> Server -> option bgpconfig.BgpConfigSet -> bgpconfig.BgpConfigSet ->
    option bgpconfig.BgpConfigSet * option error * oc.Bgp * Server;
  StopBgp : Server -> option error * Server;
  Replace : Cache -> Subtree -> Cache * option error;
  PopulateDefaults : oc.Bgp -> oc.Bgp;
  SessionState_ΛMap : list (Z * string) }.

Section Task.
Context `{Collaborators}.

(** [bgpDeclTask].  [appliedBGP] and [appliedRoutingPolicy] are
    pointers into [appliedState]: they are read and written as its
    [Root_Bgp] and [Root_RoutingPolicy].  [yclient] stands for the
    cache the client writes to, and [glog] collects the log. *)
Record bgpDeclTask := {
  zapiURL : string;
  bgpServer : Server;
  currentConfig : option bgpconfig.BgpConfigSet;
  listenPort : Z;
  bgpStarted : bool;
  yclient : Cache;
  appliedState : oc.Root RootOther;
  glog : list LogEntry }.

Definition appliedBGP (t : bgpDeclTask) : oc.Bgp := oc.Root_Bgp (appliedState t).
Definition appliedRoutingPolicy (t : bgpDeclTask) : oc.RoutingPolicy :=
  oc.Root_RoutingPolicy (appliedState t).

(** [*t.appliedBGP = b]. *)
Definition set_appliedBGP (b : oc.Bgp) (t : bgpDeclTask) : bgpDeclTask :=
  {| zapiURL := zapiURL t; bgpServer := bgpServer t; currentConfig := currentConfig t;
     listenPort := listenPort t; bgpStarted := bgpStarted t; yclient := yclient t;
     appliedState :=
       {| oc.Root_Bgp := b;
          oc.Root_RoutingPolicy := oc.Root_RoutingPolicy (appliedState t);
          oc.Root_Other := oc.Root_Other (appliedState t) |};
     glog := glog t |}.

Definition set_bgpServer (s : Server) (t : bgpDeclTask) : bgpDeclTask :=
  {| zapiURL := zapiURL t; bgpServer := s; currentConfig := currentConfig t;
     listenPort := listenPort t; bgpStarted := bgpStarted t; yclient := yclient t;
     appliedState := appliedState t; glog := glog t |}.

Definition set_currentConfig (c : option bgpconfig.BgpConfigSet) (t : bgpDeclTask)
  : bgpDeclTask :=
  {| zapiURL := zapiURL t; bgpServer := bgpServer t; currentConfig := c;
     listenPort := listenPort t; bgpStarted := bgpStarted t; yclient := yclient t;
     appliedState := appliedState t; glog := glog t |}.

Definition set_bgpStarted (b : bool) (t : bgpDeclTask) : bgpDeclTask :=
  {| zapiURL := zapiURL t; bgpServer := bgpServer t; currentConfig := currentConfig t;
     listenPort := listenPort t; bgpStarted := b; yclient := yclient t;
     appliedState := appliedState t; glog := glog t |}.

Definition set_yclient (c : Cache) (t : bgpDeclTask) : bgpDeclTask :=
  {| zapiURL := zapiURL t; bgpServer := bgpServer t; currentConfig := currentConfig t;
     listenPort := listenPort t; bgpStarted := bgpStarted t; yclient := c;
     appliedState := appliedState t; glog := glog t |}.

Definition log_append (l : list LogEntry) (t : bgpDeclTask) : bgpDeclTask :=
  {| zapiURL := zapiURL t; bgpServer := bgpServer t; currentConfig := currentConfig t;
     listenPort := listenPort t; bgpStarted := bgpStarted t; yclient := yclient t;
     appliedState := appliedState t; glog := glog t ++ l |}.

(** A mutator: a closure over the task that may fail. *)
Definition mutator := bgpDeclTask -> option error * bgpDeclTask.

(** [updateAppliedStateHelper]: one [Replace]; its error is logged. *)
Definition updateAppliedStateHelper (sub : Subtree) (t : bgpDeclTask) : bgpDeclTask :=
  let '(c, err) := Replace (yclient t) sub in
  let t := set_yclient c t in
  match err with
  | Some e => log_append [LogFailedToUpdateState sub e] t
  | None => t
  end.

(** [updateAppliedState] is the only function called when updating the
    applied state.  The mutex is held from the first line to the
    return; the model is of one call running alone. *)
Definition updateAppliedState (f : mutator) (t : bgpDeclTask) : option error * bgpDeclTask :=
  let '(err, t) := f t in
  match err with
  | Some e => (Some e, t)
  | None =>
      let t := updateAppliedStateHelper (AtBGPStatePath (appliedBGP t)) t in
      let t := updateAppliedStateHelper (AtRoutingPolicyStatePath (appliedRoutingPolicy t)) t in
      (None, t)
  end.

(** The loop over the name table in the peer-event callback: the code
    of the first entry met whose name is [name]. *)
Fixpoint lookupSessionState (table : list (Z * string)) (name : string) : option Z :=
  match table with
  | [] => None
  | (enumCode, v) :: rest =>
      if String.eqb v name then Some enumCode else lookupSessionState rest name
  end.

Definition set_SessionState (s : oc.E_Bgp_Neighbor_SessionState) (n : oc.Neighbor)
  : oc.Neighbor :=
  {| oc.Neighbor_NeighborAddress := oc.Neighbor_NeighborAddress n;
     oc.Neighbor_PeerAs := oc.Neighbor_PeerAs n;
     oc.Neighbor_NeighborPort := oc.Neighbor_NeighborPort n;
     oc.Neighbor_SessionState := s;
     oc.Neighbor_ApplyPolicy := oc.Neighbor_ApplyPolicy n |}.

(** [neigh.SessionState = s], [neigh] being the record of the map at
    [addr]. *)
Definition store_SessionState (addr : string) (s : oc.E_Bgp_Neighbor_SessionState)
    (b : oc.Bgp) : oc.Bgp :=
  {| oc.Bgp_Global := oc.Bgp_Global b;
     oc.Bgp_Neighbor := alter (set_SessionState s) addr (oc.Bgp_Neighbor b);
     oc.Bgp_Rib := oc.Bgp_Rib b |}.

(** The mutator the peer-event callback hands to [updateAppliedState]. *)
Definition peerEventMutator (ps : api.PeerState) : mutator := fun t =>
  let '(b, neigh) := oc.GetOrCreateNeighbor (appliedBGP t) (api.NeighborAddress ps) in
  let t := set_appliedBGP b t in
  let name := api.SessionState_String (api.SessionState ps) in
  if String.eqb name "UNKNOWN" then
    (None, set_appliedBGP
             (store_SessionState (api.NeighborAddress ps)
                oc.Bgp_Neighbor_SessionState_UNSET b) t)
  else
    match lookupSessionState SessionState_ΛMap name with
    | Some enumCode =>
        if Z.eqb (oc.Neighbor_SessionState neigh) enumCode then (None, t)
        else (None, set_appliedBGP
                      (store_SessionState (api.NeighborAddress ps) enumCode b) t)
    | None =>
        (None, log_append [LogUnknownSessionState (api.SessionState ps)] t)
    end.

(** What the mutator of a peer event makes of the applied BGP sub-tree. *)
Definition peerEventBgp (ps : api.PeerState) (b0 : oc.Bgp) : oc.Bgp :=
  let '(b, neigh) := oc.GetOrCreateNeighbor b0 (api.NeighborAddress ps) in
  if String.eqb (api.SessionState_String (api.SessionState ps)) "UNKNOWN" then
    store_SessionState (api.NeighborAddress ps) oc.Bgp_Neighbor_SessionState_UNSET b
  else
    match lookupSessionState SessionState_ΛMap
            (api.SessionState_String (api.SessionState ps)) with
    | Some enumCode =>
        if Z.eqb (oc.Neighbor_SessionState neigh) enumCode then b
        else store_SessionState (api.NeighborAddress ps) enumCode b
    | None => b
    end.

(** The session state recorded for a neighbour, if it has a record. *)
Definition sessionStateOf (t : bgpDeclTask) (addr : string)
  : option oc.E_Bgp_Neighbor_SessionState :=
  oc.Neighbor_SessionState <$> (oc.Bgp_Neighbor (appliedBGP t) !! addr).

(** The callback of [WatchEvent] for a peer-state event. *)
Definition onPeerEvent (ps : api.PeerState) (t : bgpDeclTask) : bgpDeclTask :=
  snd (updateAppliedState (peerEventMutator ps) t).

(** [reconcile] examines the difference between the intended and
    applied configuration, and makes GoBGP API calls accordingly. *)
Definition reconcile (intended : oc.Root RootOther) : mutator := fun t =>
  let intendedBGP := oc.Root_Bgp intended in
  let intendedGlobal := oc.Bgp_Global intendedBGP in
  let newConfig := intendedToGoBGP intendedBGP (zapiURL t) (listenPort t) in
  let bgpShouldStart :=
    bool_decide (is_Some (intendedGlobal ≫= oc.Global_As)) &&
    bool_decide (is_Some (intendedGlobal ≫= oc.Global_RouterId)) in
  if bgpShouldStart && negb (bgpStarted t) then
    let '(cfg, err, b, srv) :=
      InitialConfig (appliedBGP t) (bgpServer t) newConfig gracefulRestart in
    let t := set_currentConfig cfg (set_bgpServer srv (set_appliedBGP b t)) in
    match err with
    | Some _ => (Some (ErrInitialConfig newConfig), t)
    | None => (None, set_bgpStarted true t)
    end
  else if negb bgpShouldStart && bgpStarted t then
    let '(err, srv) := StopBgp (bgpServer t) in
    let t := set_bgpServer srv t in
    match err with
    | Some _ => (Some ErrStopBgp, t)
    | None =>
        let t := set_bgpStarted false t in
        let t := set_currentConfig (Some bgpconfig.BgpConfigSet_zero) t in
        let t := set_appliedBGP oc.Bgp_zero t in
        (None, set_appliedBGP (PopulateDefaults (appliedBGP t)) t)
    end
  else if bgpStarted t then
    let '(cfg, err, b, srv) :=
      UpdateConfig (appliedBGP t) (bgpServer t) (currentConfig t) newConfig in
    let t := set_currentConfig cfg (set_bgpServer srv (set_appliedBGP b t)) in
    match err with
    | Some _ => (Some (ErrUpdateConfig newConfig), t)
    | None => (None, t)
    end
  else (None, t).

(** The condition [bgpShouldStart] of [reconcile]. *)
Definition bgpShouldStart (intended : oc.Root RootOther) : bool :=
  bool_decide (is_Some (oc.Bgp_Global (oc.Root_Bgp intended) ≫= oc.Global_As)) &&
  bool_decide (is_Some (oc.Bgp_Global (oc.Root_Bgp intended) ≫= oc.Global_RouterId)).

(** The callback of the watch on the intended configuration. *)
Definition onIntended (intended : oc.Root RootOther) (t : bgpDeclTask) : bgpDeclTask :=
  snd (updateAppliedState (reconcile intended) t).

End Task.

(** *** The RIB poller

    [ListPath] of the engine: the destinations it hands to the callback,
    the error it returns, and the server after the call. *)
Class PathLister (C : Collaborators) := {
  ListPath :
    @Server C -> api.ListPathRequest -> list api.Destination * option error * @Server C }.

(** Lines of the poller: [log.V(0).Infof] for each destination that
    [queryTable] receives, [log.Errorf] for a failed call. *)
Inductive RibLogEntry :=
| LogTablePath (tableName neighbor : string) (d : api.Destination)
| LogListPathFailed (tableType : api.TableType) (err : error).

Section RibPoller.
Context `{C : Collaborators} `{!PathLister C}.

(** [queryTable] queries for all routes stored in the specified table,
    applying [f] to the routes if the query was successful or logging an
    error otherwise.  [S] is the state the closure [f] writes to. *)
Definition queryTable {S : Type} (neighbor tableName : string) (tableType : api.TableType)
    (f : list api.Destination -> S -> S) (srv : Server) (s : S)
  : S * Server * list RibLogEntry :=
  let '(routes, err, srv) :=
    ListPath srv {| api.Name := neighbor; api.TableType_ := tableType;
                    api.EnableFiltered := true |} in
  let seen := map (LogTablePath tableName neighbor) routes in
  match err with
  | Some e => (s, srv, seen ++ [LogListPathFailed tableType e])
  | None => (f routes s, srv, seen)
  end.

(** [GetOrCreateRoute] on a table of route keys. *)
Definition addRoute {K : Type} `{EqDecision K} (k : K) (table : list K) : list K :=
  if decide (k ∈ table) then table else table ++ [k].

(** [for j, path := range route.Paths], from index [j] on. *)
Fixpoint forPaths {S : Type} (f : Z -> api.Path -> S -> S) (j : Z) (paths : list api.Path)
    (s : S) : S :=
  match paths with
  | [] => s
  | path :: rest => forPaths f (j + 1) rest (f j path s)
  end.

(** The two nested loops of the callbacks of the poller. *)
Definition forRoutes {S : Type} (f : string -> Z -> api.Path -> S -> S)
    (routes : list api.Destination) (s : S) : S :=
  fold_left (fun s route => forPaths (f (api.Prefix route)) 0 (api.Paths route) s) routes s.

(** The conversion [uint32(j)] of a slice index. *)
Definition uint32 (j : Z) : Z := j mod 2 ^ 32.

(** The origin of a local route: the source of the path, unset when the
    path has none. *)
Definition originOf (path : api.Path) : option string :=
  if String.eqb (api.SourceId path) "" then None else Some (api.SourceId path).

(** The callback for the local table: the table is emptied and filled
    again. *)
Definition setLocRib (routes : list api.Destination) (v4uni : oc.Rib) : oc.Rib :=
  {| oc.Rib_LocRib :=
       forRoutes
         (fun prefix j path locRib => addRoute (prefix, originOf path, uint32 j) locRib)
         routes [];
     oc.Rib_Neighbor := oc.Rib_Neighbor v4uni |}.

Definition AdjRib_zero : oc.AdjRib :=
  {| oc.AdjRibInPre := []; oc.AdjRibInPost := [];
     oc.AdjRibOutPre := []; oc.AdjRibOutPost := [] |}.

(** [v4uni.GetOrCreateNeighbor(addr)] followed by a write to the record. *)
Definition updateRibNeighbor (addr : string) (g : oc.AdjRib -> oc.AdjRib) (v4uni : oc.Rib)
  : oc.Rib :=
  {| oc.Rib_LocRib := oc.Rib_LocRib v4uni;
     oc.Rib_Neighbor :=
       <[addr := g (default AdjRib_zero (oc.Rib_Neighbor v4uni !! addr))]>
         (oc.Rib_Neighbor v4uni) |}.

(** The body of the loops for the adj-rib-in table: the route goes under
    the neighbour the path names. *)
Definition addAdjIn (prefix : string) (j : Z) (path : api.Path) (v4uni : oc.Rib) : oc.Rib :=
  updateRibNeighbor (api.NeighborIp path)
    (fun a =>
       {| oc.AdjRibInPre := addRoute (prefix, uint32 j) (oc.AdjRibInPre a);
          oc.AdjRibInPost :=
            if api.Filtered path then oc.AdjRibInPost a
            else addRoute (prefix, uint32 j) (oc.AdjRibInPost a);
          oc.AdjRibOutPre := oc.AdjRibOutPre a;
          oc.AdjRibOutPost := oc.AdjRibOutPost a |})
    v4uni.

(** The body of the loops for the adj-rib-out table: the route goes under
    the neighbour that was queried. *)
Definition addAdjOut (neigh prefix : string) (j : Z) (path : api.Path) (v4uni : oc.Rib)
  : oc.Rib :=
  updateRibNeighbor neigh
    (fun a =>
       {| oc.AdjRibInPre := oc.AdjRibInPre a;
          oc.AdjRibInPost := oc.AdjRibInPost a;
          oc.AdjRibOutPre := addRoute (prefix, uint32 j) (oc.AdjRibOutPre a);
          oc.AdjRibOutPost :=
            if api.Filtered path then oc.AdjRibOutPost a
            else addRoute (prefix, uint32 j) (oc.AdjRibOutPost a) |})
    v4uni.

(** One round of the loop over the applied neighbours. *)
Definition pollNeighbor (neigh : string) (acc : oc.Rib * Server * list RibLogEntry)
  : oc.Rib * Server * list RibLogEntry :=
  let '(v4uni, srv, l) := acc in
  let '(v4uni, srv, l1) :=
    queryTable neigh "adj-rib-in" api.TableType_ADJ_IN (forRoutes addAdjIn) srv v4uni in
  let '(v4uni, srv, l2) :=
    queryTable neigh "adj-rib-out" api.TableType_ADJ_OUT (forRoutes (addAdjOut neigh))
      srv v4uni in
  (v4uni, srv, l ++ l1 ++ l2).

Definition Rib_zero : oc.Rib := {| oc.Rib_LocRib := []; oc.Rib_Neighbor := ∅ |}.

(** The body of the mutator of the poller, on the applied BGP sub-tree and
    the server: the tree and the server it leaves, and what it logs.  The
    neighbours are visited in the order of [map_to_list]. *)
Definition pollRIB (b : oc.Bgp) (srv : Server) : oc.Bgp * Server * list RibLogEntry :=
  let v4uni := default Rib_zero (oc.Bgp_Rib b) in
  let '(v4uni, srv, l) :=
    fold_left (fun acc neigh => pollNeighbor neigh acc)
      (map fst (map_to_list (oc.Bgp_Neighbor b)))
      (queryTable "" "local" api.TableType_LOCAL setLocRib srv v4uni) in
  ({| oc.Bgp_Global := oc.Bgp_Global b;
      oc.Bgp_Neighbor := oc.Bgp_Neighbor b;
      oc.Bgp_Rib := Some v4uni |}, srv, l).

(** The keys of the local table that a list of destinations stands for. *)
Definition locRibKeyOf (routes : list api.Destination) (k : string * option string * Z)
  : Prop :=
  exists route i path,
    route ∈ routes /\ api.Paths route !! i = Some path /\
    k = (api.Prefix route, originOf path, uint32 (Z.of_nat i)).

(** In every neighbour of the RIB the post-policy tables are within the
    pre-policy tables. *)
Definition postWithinPre (v4uni : oc.Rib) : Prop :=
  forall addr a, oc.Rib_Neighbor v4uni !! addr = Some a ->
    oc.AdjRibInPost a ⊆ oc.AdjRibInPre a /\ oc.AdjRibOutPost a ⊆ oc.AdjRibOutPre a.

(** Every route of the first RIB's adjacency tables is in the second's. *)
Definition adjRibWithin (r1 r2 : oc.Rib) : Prop :=
  forall addr a1, oc.Rib_Neighbor r1 !! addr = Some a1 ->
    exists a2, oc.Rib_Neighbor r2 !! addr = Some a2 /\
      oc.AdjRibInPre a1 ⊆ oc.AdjRibInPre a2 /\ oc.AdjRibInPost a1 ⊆ oc.AdjRibInPost a2 /\
      oc.AdjRibOutPre a1 ⊆ oc.AdjRibOutPre a2 /\ oc.AdjRibOutPost a1 ⊆ oc.AdjRibOutPost a2.

End RibPoller.

End gobgp.

(** ** Test doubles and sample inputs *)

Module scripted.

(** The generated name table of the session-state enumeration. *)
Definition SessionState_names : list (Z * string) :=
  [(1, "IDLE"); (2, "CONNECT"); (3, "ACTIVE"); (4, "OPENSENT");
   (5, "OPENCONFIRM"); (6, "ESTABLISHED")].

(** An engine that answers each call with a fixed result and leaves the
    applied tree alone, a cache that records what is published to it, and
    a schema whose defaults add nothing to an empty tree. *)
Definition collaborators
    (initial update : option bgpconfig.BgpConfigSet * option gobgp.error)
    (stop : option gobgp.error) : gobgp.Collaborators :=
  {| gobgp.Server := unit;
     gobgp.Cache := list gobgp.Subtree;
     gobgp.RootOther := unit;
     gobgp.InitialConfig := fun b s _ _ => (fst initial, snd initial, b, s);
     gobgp.UpdateConfig := fun b s _ _ => (fst update, snd update, b, s);
     gobgp.StopBgp := fun s => (stop, s);
     gobgp.Replace := fun c sub => (c ++ [sub], None);
     gobgp.PopulateDefaults := fun b => b;
     gobgp.SessionState_ΛMap := SessionState_names |}.

Definition emptyRoutingPolicy : oc.RoutingPolicy :=
  {| oc.RoutingPolicy_PolicyDefinition := [];
     oc.RoutingPolicy_PrefixSet := ∅;
     oc.RoutingPolicy_CommunitySet := ∅;
     oc.RoutingPolicy_AsPathSet := ∅ |}.

Definition root (b : oc.Bgp) : oc.Root unit :=
  {| oc.Root_Bgp := b; oc.Root_RoutingPolicy := emptyRoutingPolicy; oc.Root_Other := tt |}.

Definition bgpWith (as_ : option Z) (routerId : option string)
    (neighbors : gmap string oc.Neighbor) : oc.Bgp :=
  {| oc.Bgp_Global := Some {| oc.Global_As := as_; oc.Global_RouterId := routerId |};
     oc.Bgp_Neighbor := neighbors;
     oc.Bgp_Rib := None |}.

Definition neighbor (addr : string) (peerAs : Z) : oc.Neighbor :=
  {| oc.Neighbor_NeighborAddress := Some addr;
     oc.Neighbor_PeerAs := Some peerAs;
     oc.Neighbor_NeighborPort := None;
     oc.Neighbor_SessionState := oc.Bgp_Neighbor_SessionState_UNSET;
     oc.Neighbor_ApplyPolicy := None |}.

(** A task in the given lifecycle state, holding the given snapshot and
    applied BGP tree. *)
Definition task (C : gobgp.Collaborators)
    (srv : @gobgp.Server C) (cache : @gobgp.Cache C) (other : @gobgp.RootOther C)
    (started : bool) (snapshot : option bgpconfig.BgpConfigSet) (applied : oc.Bgp)
  : @gobgp.bgpDeclTask C :=
  {| gobgp.zapiURL := "unix:/var/run/zserv.api";
     gobgp.bgpServer := srv;
     gobgp.currentConfig := snapshot;
     gobgp.listenPort := 179;
     gobgp.bgpStarted := started;
     gobgp.yclient := cache;
     gobgp.appliedState :=
       {| oc.Root_Bgp := applied;
          oc.Root_RoutingPolicy := emptyRoutingPolicy;
          oc.Root_Other := other |};
     gobgp.glog := [] |}.

(** A snapshot as a successful pass leaves it. *)
Definition goodConfig : bgpconfig.BgpConfigSet :=
  gobgp.intendedToGoBGP
    (bgpWith (Some 65001) (Some "1.1.1.1") {[ "10.0.0.2" := neighbor "10.0.0.2" 65002 ]})
    "unix:/var/run/zserv.api" 179.

(** An engine whose start and update fail the way Go functions do: a nil
    pointer next to the error. *)
Definition failingEngine : gobgp.Collaborators :=
  collaborators (None, Some (gobgp.ErrExternal "failed to set global config"))
                (None, Some (gobgp.ErrExternal "failed to update neighbor"))
                None.

(** An engine whose calls all succeed, each answering [goodConfig]. *)
Definition workingEngine : gobgp.Collaborators :=
  collaborators (Some goodConfig, None) (Some goodConfig, None) None.

(** A mutator that fails at once, and one that does nothing. *)
Definition failingMutator : @gobgp.mutator workingEngine :=
  fun t => (Some (gobgp.ErrExternal "mutator failed"), t).
Definition idleMutator : @gobgp.mutator workingEngine := fun t => (None, t).

(** The working engine behind a cache that refuses every write. *)
Definition refusingCache : gobgp.Collaborators :=
  {| gobgp.Server := unit;
     gobgp.Cache := list gobgp.Subtree;
     gobgp.RootOther := unit;
     gobgp.InitialConfig := fun b s _ _ => (Some goodConfig, None, b, s);
     gobgp.UpdateConfig := fun b s _ _ => (Some goodConfig, None, b, s);
     gobgp.StopBgp := fun s => (None, s);
     gobgp.Replace := fun c sub => (c, Some (gobgp.ErrExternal "cache unavailable"));
     gobgp.PopulateDefaults := fun b => b;
     gobgp.SessionState_ΛMap := SessionState_names |}.

(** An engine that starts and updates but does not stop. *)
Definition unstoppableEngine : gobgp.Collaborators :=
  collaborators (Some goodConfig, None) (Some goodConfig, None)
                (Some (gobgp.ErrExternal "stop refused")).

(** Tables of an engine with one neighbour: a local route with two paths,
    one of them learned from the neighbour, a route received from the
    neighbour and filtered on import, and a route sent to it. *)
Definition samplePath (source neighborIp : string) (filtered : bool) : api.Path :=
  {| api.SourceId := source; api.NeighborIp := neighborIp; api.Filtered := filtered |}.

Definition sampleTables (req : api.ListPathRequest) : list api.Destination :=
  match api.TableType_ req with
  | api.TableType_LOCAL =>
      [ {| api.Prefix := "10.33.0.0/16";
           api.Paths := [samplePath "" "" false; samplePath "10.0.0.2" "10.0.0.2" false] |} ]
  | api.TableType_ADJ_IN =>
      [ {| api.Prefix := "10.33.0.0/16";
           api.Paths := [samplePath "10.0.0.2" "10.0.0.2" true] |} ]
  | api.TableType_ADJ_OUT =>
      [ {| api.Prefix := "10.34.0.0/16"; api.Paths := [samplePath "" "" false] |} ]
  | _ => []
  end.

Definition answeringLister : gobgp.PathLister workingEngine :=
  {| gobgp.ListPath := fun srv req => (sampleTables req, None, srv) |}.

Definition failingLister : gobgp.PathLister workingEngine :=
  {| gobgp.ListPath := fun srv req => ([], Some (gobgp.ErrExternal "list failed"), srv) |}.

(** A task that has not started and knows no neighbour, and peer events
    for a neighbour. *)
Definition idleTask : @gobgp.bgpDeclTask workingEngine :=
  task workingEngine tt [] tt false None oc.Bgp_zero.

Definition peerEvent (s : api.PeerState_SessionState) : api.PeerState :=
  {| api.NeighborAddress := "10.0.0.2"; api.SessionState := s |}.

(** The intended tree that starts BGP, and the one that has lost its AS. *)
Definition intendedStart : oc.Root unit :=
  root (bgpWith (Some 65001) (Some "1.1.1.1") {[ "10.0.0.2" := neighbor "10.0.0.2" 65002 ]}).
Definition intendedStop : oc.Root unit :=
  root (bgpWith None (Some "1.1.1.1") {[ "10.0.0.2" := neighbor "10.0.0.2" 65002 ]}).

(** The applied tree of a running task, with one neighbour. *)
Definition appliedRunning : oc.Bgp :=
  bgpWith (Some 65001) (Some "1.1.1.1") {[ "10.0.0.2" := neighbor "10.0.0.2" 65002 ]}.

Definition prefix (ip range : string) : oc.Prefix :=
  {| oc.Prefix_IpPrefix := Some ip; oc.Prefix_MasklengthRange := Some range |}.

Definition statementNamed (name : string) : oc.Statement :=
  {| oc.Statement_Name := Some name;
     oc.Statement_Conditions := None;
     oc.Statement_Actions := None |}.

Definition policyNamed (name : string) (statements : list oc.Statement)
  : oc.PolicyDefinition :=
  {| oc.PolicyDefinition_Name := Some name;
     oc.PolicyDefinition_Statement := statements |}.

(** A statement that names a neighbour set of its own. *)
Definition statementForNeighborSet (name neighborSet : string) : oc.Statement :=
  {| oc.Statement_Name := Some name;
     oc.Statement_Conditions :=
       Some {| oc.Conditions_MatchPrefixSet := None;
               oc.Conditions_MatchNeighborSet :=
                 Some {| oc.MatchNeighborSet_NeighborSet := Some neighborSet |};
               oc.Conditions_BgpConditions := None |};
     oc.Statement_Actions := None |}.

(** A statement that sets the MED to the IGP cost. *)
Definition statementWithMedIGP (name : string) : oc.Statement :=
  {| oc.Statement_Name := Some name;
     oc.Statement_Conditions := None;
     oc.Statement_Actions :=
       Some {| oc.Actions_PolicyResult := oc.RoutingPolicy_PolicyResultType_ACCEPT_ROUTE;
               oc.Actions_BgpActions :=
                 Some {| oc.BgpActions_SetCommunity := None;
                         oc.BgpActions_SetLocalPref := None;
                         oc.BgpActions_SetMed := Some (oc.SetMed_Enum oc.BgpActions_SetMed_IGP);
                         oc.BgpActions_SetAsPathPrepend := None |} |} |}.

(** [String()] of the set-community options: the names of the schema. *)
Definition SetCommunityOptions_String (o : oc.E_BgpPolicy_BgpSetCommunityOptionType)
  : string :=
  match o with
  | oc.BgpPolicy_BgpSetCommunityOptionType_ADD => "ADD"
  | oc.BgpPolicy_BgpSetCommunityOptionType_REMOVE => "REMOVE"
  | oc.BgpPolicy_BgpSetCommunityOptionType_REPLACE => "REPLACE"
  | _ => "out-of-range E_BgpPolicy_BgpSetCommunityOptionType enum value"
  end.

End scripted.

(** * Properties *)

(** ** Enumerations and communities *)

Section Enumerations.

Lemma convertDefaultPolicy_cases p :
  policy.convertDefaultPolicy p = gobgpoc.DEFAULT_POLICY_TYPE_ACCEPT_ROUTE <->
  p = oc.RoutingPolicy_DefaultPolicyType_ACCEPT_ROUTE.
Proof. destruct p; cbn; split; intros E; try discriminate; reflexivity. Qed.

Lemma defaultPolicyToRouteDisp_cases s :
  policy.defaultPolicyToRouteDisp s = gobgpoc.ROUTE_DISPOSITION_ACCEPT_ROUTE <->
  s = gobgpoc.DEFAULT_POLICY_TYPE_ACCEPT_ROUTE.
Proof.
  unfold policy.defaultPolicyToRouteDisp.
  destruct (String.eqb_spec s gobgpoc.DEFAULT_POLICY_TYPE_REJECT_ROUTE) as [->|Hr].
  - split; intros E; discriminate.
  - destruct (String.eqb_spec s gobgpoc.DEFAULT_POLICY_TYPE_ACCEPT_ROUTE) as [->|Ha].
    + split; reflexivity.
    + split; [discriminate | contradiction].
Qed.

(** C5.  A default policy that is neither ACCEPT_ROUTE nor REJECT_ROUTE,
    unset included, becomes REJECT_ROUTE and not ACCEPT_ROUTE, both when
    the OC value is turned into the engine's and when the engine's value
    is turned into a route disposition. *)
Theorem default_policy_rejects_by_default :
  (forall p : oc.E_RoutingPolicy_DefaultPolicyType,
      p <> oc.RoutingPolicy_DefaultPolicyType_ACCEPT_ROUTE ->
      p <> oc.RoutingPolicy_DefaultPolicyType_REJECT_ROUTE ->
      policy.convertDefaultPolicy p = gobgpoc.DEFAULT_POLICY_TYPE_REJECT_ROUTE /\
      policy.convertDefaultPolicy p <> gobgpoc.DEFAULT_POLICY_TYPE_ACCEPT_ROUTE) /\
  (forall s : gobgpoc.DefaultPolicyType,
      s <> gobgpoc.DEFAULT_POLICY_TYPE_ACCEPT_ROUTE ->
      s <> gobgpoc.DEFAULT_POLICY_TYPE_REJECT_ROUTE ->
      policy.defaultPolicyToRouteDisp s = gobgpoc.ROUTE_DISPOSITION_REJECT_ROUTE /\
      policy.defaultPolicyToRouteDisp s <> gobgpoc.ROUTE_DISPOSITION_ACCEPT_ROUTE).
Proof.
  split.
  - intros p Ha Hr. destruct p; try contradiction; cbn; split; (reflexivity || discriminate).
  - intros s Ha Hr. unfold policy.defaultPolicyToRouteDisp.
    destruct (String.eqb_spec s gobgpoc.DEFAULT_POLICY_TYPE_REJECT_ROUTE); [contradiction|].
    destruct (String.eqb_spec s gobgpoc.DEFAULT_POLICY_TYPE_ACCEPT_ROUTE); [contradiction|].
    split; [reflexivity | discriminate].
Qed.

Lemma default_policy_rejects_by_default_witness :
  (policy.convertDefaultPolicy oc.RoutingPolicy_DefaultPolicyType_UNSET
     = gobgpoc.DEFAULT_POLICY_TYPE_REJECT_ROUTE /\
   policy.convertDefaultPolicy oc.RoutingPolicy_DefaultPolicyType_UNSET
     <> gobgpoc.DEFAULT_POLICY_TYPE_ACCEPT_ROUTE) /\
  (policy.defaultPolicyToRouteDisp "" = gobgpoc.ROUTE_DISPOSITION_REJECT_ROUTE /\
   policy.defaultPolicyToRouteDisp "" <> gobgpoc.ROUTE_DISPOSITION_ACCEPT_ROUTE).
Proof.
  split.
  - apply (proj1 default_policy_rejects_by_default); discriminate.
  - apply (proj2 default_policy_rejects_by_default); discriminate.
Defined.

(** The four well-known values have their fixed literals. *)
Lemma convertCommunity_well_known :
  policy.convertCommunity
    (oc.Community_WellKnown oc.BgpTypes_BGP_WELL_KNOWN_STD_COMMUNITY_NO_EXPORT)
    = "65535:65281" /\
  policy.convertCommunity
    (oc.Community_WellKnown oc.BgpTypes_BGP_WELL_KNOWN_STD_COMMUNITY_NO_ADVERTISE)
    = "65535:65282" /\
  policy.convertCommunity
    (oc.Community_WellKnown oc.BgpTypes_BGP_WELL_KNOWN_STD_COMMUNITY_NO_EXPORT_SUBCONFED)
    = "65535:65283" /\
  policy.convertCommunity
    (oc.Community_WellKnown oc.BgpTypes_BGP_WELL_KNOWN_STD_COMMUNITY_NOPEER)
    = "65535:65284".
Proof. repeat split. Qed.

(** C2.  The well-known values translate to their literals, but a numeric
    community does not come out as high16:low16: [convertCommunity] gives
    the empty string for every [UnionUint32], as for 65537 whose form
    is 1:1. *)
Theorem convertCommunity_uint32_is_empty :
  (forall n : Z, policy.convertCommunity (oc.Community_UnionUint32 n) = "") /\
  policy.uint32ToCommunityString 65537 = "1:1" /\
  policy.convertCommunity (oc.Community_UnionUint32 65537)
    <> policy.uint32ToCommunityString 65537.
Proof. split; [reflexivity | split; [reflexivity | discriminate]]. Qed.

End Enumerations.

(** ** Prefix sets *)

Section PrefixSets.

Lemma elem_of_sortedKeys {V} (m : gmap string V) (k : string) :
  k ∈ policy.sortedKeys m <-> is_Some (m !! k).
Proof.
  unfold policy.sortedKeys. rewrite merge_sort_Permutation.
  rewrite list_elem_of_fmap. split.
  - intros [[k' v] [-> Hin]]. apply elem_of_map_to_list in Hin. eauto.
  - intros [v Hv]. exists (k, v). split; [reflexivity|]. now apply elem_of_map_to_list.
Qed.

Lemma sortedKeys_Sorted {V} (m : gmap string V) :
  Sorted String.le (policy.sortedKeys m).
Proof. apply (Sorted_merge_sort String.le). Qed.

Lemma convertPrefix_range (prefix : oc.Prefix) :
  gobgpoc.MasklengthRange (policy.convertPrefix prefix) =
    if String.eqb (oc.GetString (oc.Prefix_MasklengthRange prefix)) "exact" then ""
    else oc.GetString (oc.Prefix_MasklengthRange prefix).
Proof. reflexivity. Qed.

(** The sets come out in the order of their names, one per set of the
    input. *)
Lemma convertPrefixSets_names (ocprefixsets : gmap string oc.PrefixSet) :
  map gobgpoc.PrefixSetName (policy.convertPrefixSets ocprefixsets)
    = policy.sortedKeys ocprefixsets.
Proof.
  unfold policy.convertPrefixSets. rewrite map_map. cbn. apply map_id.
Qed.

(** C6.  In every translated prefix set each prefix keeps its ipPrefix,
    the range "exact" becomes the empty string and any other range is
    kept; the set {10.33.0.0/16 exact, 10.34.0.0/16 16..23} becomes
    {(10.33.0.0/16, ""), (10.34.0.0/16, "16..23")}, in whichever order
    the two entries are visited. *)
Theorem convertPrefixSets_exact_is_empty :
  (forall ocprefixsets : gmap string oc.PrefixSet,
      Forall (fun out =>
                exists ps, ocprefixsets !! gobgpoc.PrefixSetName out = Some ps /\
                  gobgpoc.PrefixList out = map policy.convertPrefix (oc.PrefixSet_Prefix ps))
             (policy.convertPrefixSets ocprefixsets)) /\
  (forall prefix : oc.Prefix,
      gobgpoc.IpPrefix (policy.convertPrefix prefix)
        = oc.GetString (oc.Prefix_IpPrefix prefix) /\
      (oc.GetString (oc.Prefix_MasklengthRange prefix) = "exact" ->
       gobgpoc.MasklengthRange (policy.convertPrefix prefix) = "") /\
      (oc.GetString (oc.Prefix_MasklengthRange prefix) <> "exact" ->
       gobgpoc.MasklengthRange (policy.convertPrefix prefix)
         = oc.GetString (oc.Prefix_MasklengthRange prefix))) /\
  policy.convertPrefixSets
    {[ "reject-10.33.0.0/16" :=
         {| oc.PrefixSet_Prefix := [scripted.prefix "10.33.0.0/16" "exact";
                                    scripted.prefix "10.34.0.0/16" "16..23"] |} ]}
    = [ {| gobgpoc.PrefixSetName := "reject-10.33.0.0/16";
           gobgpoc.PrefixList :=
             [ {| gobgpoc.IpPrefix := "10.33.0.0/16"; gobgpoc.MasklengthRange := "" |};
               {| gobgpoc.IpPrefix := "10.34.0.0/16";
                  gobgpoc.MasklengthRange := "16..23" |} ] |} ] /\
  policy.convertPrefixSets
    {[ "reject-10.33.0.0/16" :=
         {| oc.PrefixSet_Prefix := [scripted.prefix "10.34.0.0/16" "16..23";
                                    scripted.prefix "10.33.0.0/16" "exact"] |} ]}
    = [ {| gobgpoc.PrefixSetName := "reject-10.33.0.0/16";
           gobgpoc.PrefixList :=
             [ {| gobgpoc.IpPrefix := "10.34.0.0/16";
                  gobgpoc.MasklengthRange := "16..23" |};
               {| gobgpoc.IpPrefix := "10.33.0.0/16"; gobgpoc.MasklengthRange := "" |} ] |} ].
Proof.
  split; [|split; [|split]].
  - intros m. unfold policy.convertPrefixSets. apply Forall_forall.
    intros out Hin. apply list_elem_of_fmap in Hin as [name [-> Hname]].
    apply elem_of_sortedKeys in Hname as [ps Hps].
    exists ps. cbn. rewrite Hps. split; reflexivity.
  - intros prefix. split; [reflexivity|]. rewrite convertPrefix_range. split.
    + intros ->. reflexivity.
    + intros Hne. now destruct (String.eqb_spec (oc.GetString (oc.Prefix_MasklengthRange prefix)) "exact").
  - vm_compute. reflexivity.
  - vm_compute. reflexivity.
Qed.

Lemma convertPrefixSets_exact_is_empty_witness :
  gobgpoc.MasklengthRange (policy.convertPrefix (scripted.prefix "10.33.0.0/16" "exact")) = "" /\
  gobgpoc.MasklengthRange (policy.convertPrefix (scripted.prefix "10.34.0.0/16" "16..23"))
    = "16..23".
Proof.
  split.
  - apply (proj1 (proj2 (proj1 (proj2 convertPrefixSets_exact_is_empty)
                           (scripted.prefix "10.33.0.0/16" "exact")))).
    reflexivity.
  - apply (proj2 (proj2 (proj1 (proj2 convertPrefixSets_exact_is_empty)
                           (scripted.prefix "10.34.0.0/16" "16..23")))).
    discriminate.
Defined.

End PrefixSets.

(** ** Names and policy definitions *)

Section StringFacts.

Lemma length_append (a b : string) :
  String.length (a +:+ b) = (String.length a + String.length b)%nat.
Proof.
  induction a as [|c a IH]; [reflexivity|].
  change (S (String.length (a +:+ b)) = S (String.length a + String.length b)).
  now rewrite IH.
Qed.

Lemma append_inv_tail (a1 a2 s : string) : a1 +:+ s = a2 +:+ s -> a1 = a2.
Proof.
  revert a2. induction a1 as [|c a1 IH]; intros [|d a2] E; cbn in E.
  - reflexivity.
  - apply (f_equal String.length) in E.
    change (String.length s = S (String.length (a2 +:+ s))) in E.
    rewrite length_append in E. lia.
  - apply (f_equal String.length) in E.
    change (S (String.length (a1 +:+ s)) = String.length s) in E.
    rewrite length_append in E. lia.
  - injection E as -> E. f_equal. now apply IH.
Qed.

Lemma append_assoc (a b c : string) : (a +:+ b) +:+ c = a +:+ (b +:+ c).
Proof.
  induction a as [|x a IH]; [reflexivity|].
  change (String x ((a +:+ b) +:+ c) = String x (a +:+ (b +:+ c))). now rewrite IH.
Qed.

Lemma cut_append (c : ascii) (a b : string) :
  GoString.contains c a = false ->
  GoString.cut c (a +:+ String c b) = Some (a, b).
Proof.
  induction a as [|d a IH]; intros Hc.
  - change (GoString.cut c (String c b) = Some (EmptyString, b)).
    unfold GoString.cut. now rewrite Ascii.eqb_refl.
  - change (GoString.contains c (String d a))
      with (if Ascii.eqb c d then true else GoString.contains c a) in Hc.
    change (GoString.cut c (String d a +:+ String c b))
      with (if Ascii.eqb c d then Some (EmptyString, a +:+ String c b)
            else match GoString.cut c (a +:+ String c b) with
                 | Some (x, y) => Some (String d x, y)
                 | None => None
                 end).
    destruct (Ascii.eqb c d); [discriminate|]. now rewrite IH.
Qed.

Lemma cut_last_None (c : ascii) (s : string) :
  GoString.contains c s = false -> GoString.cut_last c s = None.
Proof.
  induction s as [|d s IH]; [reflexivity|]. intros Hc.
  change (GoString.contains c (String d s))
    with (if Ascii.eqb c d then true else GoString.contains c s) in Hc.
  change (GoString.cut_last c (String d s))
    with (match GoString.cut_last c s with
          | Some (x, y) => Some (String d x, y)
          | None => if Ascii.eqb c d then Some (EmptyString, s) else None
          end).
  destruct (Ascii.eqb c d); [discriminate|]. now rewrite IH.
Qed.

Lemma cut_last_append (c : ascii) (a b : string) :
  GoString.contains c b = false ->
  GoString.cut_last c (a +:+ String c b) = Some (a, b).
Proof.
  intros Hb. induction a as [|d a IH].
  - change (GoString.cut_last c (String c b) = Some (EmptyString, b)).
    change (GoString.cut_last c (String c b))
      with (match GoString.cut_last c b with
            | Some (x, y) => Some (String c x, y)
            | None => if Ascii.eqb c c then Some (EmptyString, b) else None
            end).
    now rewrite cut_last_None, Ascii.eqb_refl.
  - change (GoString.cut_last c (String d a +:+ String c b))
      with (match GoString.cut_last c (a +:+ String c b) with
            | Some (x, y) => Some (String d x, y)
            | None => if Ascii.eqb c d then Some (EmptyString, a +:+ String c b) else None
            end).
    now rewrite IH.
Qed.

End StringFacts.

Section PolicyDefinitions.
Variable SetCommunityOptions_String : oc.E_BgpPolicy_BgpSetCommunityOptionType -> string.

Lemma convertSetCommunities_returns setCommunity convertedCommSets commSetIndexMap :
  policy.indexesInRange convertedCommSets commSetIndexMap ->
  is_Some (policy.convertSetCommunities setCommunity convertedCommSets commSetIndexMap).
Proof.
  intros Hrange. unfold policy.convertSetCommunities.
  destruct (from_option _ _ setCommunity); eauto.
  destruct (String.eqb _ ""); eauto.
  destruct (commSetIndexMap !! _) as [index|] eqn:Hidx; eauto.
  apply Hrange in Hidx. apply lookup_lt_is_Some_2 in Hidx as [cs ->]. eauto.
Qed.

Lemma convertStatement_fields cpn neighAddr occommset ccs im statement g logs :
  policy.convertStatement SetCommunityOptions_String cpn neighAddr occommset ccs im statement
    = Some (g, logs) ->
  gobgpoc.Statement_Name g = cpn +:+ ":" +:+ oc.GetString (oc.Statement_Name statement) /\
  policy.neighborSetOf g = neighAddr.
Proof.
  unfold policy.convertStatement. intros E.
  destruct (policy.convertSetCommunities _ ccs im) as [[l e1]|]; [|discriminate].
  cbn in E. destruct (policy.convertMED _) as [setmed e2].
  injection E as <- _. split; reflexivity.
Qed.

Lemma convertStatement_returns cpn neighAddr occommset ccs im statement :
  policy.indexesInRange ccs im ->
  is_Some (policy.convertStatement SetCommunityOptions_String cpn neighAddr occommset ccs im
             statement).
Proof.
  intros Hrange. unfold policy.convertStatement.
  destruct (convertSetCommunities_returns (policy.GetSetCommunity statement) ccs im Hrange)
    as [[l e1] ->].
  cbn. destruct (policy.convertMED _). eauto.
Qed.

Lemma convertStatements_returns cpn neighAddr occommset ccs im statements :
  policy.indexesInRange ccs im ->
  is_Some (policy.convertStatements SetCommunityOptions_String cpn neighAddr occommset ccs im
             statements).
Proof.
  intros Hrange. induction statements as [|st rest [[sts l2] IH]]; cbn; [eauto|].
  destruct (convertStatement_returns cpn neighAddr occommset ccs im st Hrange) as [[g l1] ->].
  cbn. rewrite IH. cbn. eauto.
Qed.

(** The emitted statements follow the intended ones, one for one. *)
Lemma convertStatements_lookup cpn neighAddr occommset ccs im statements sts logs :
  policy.convertStatements SetCommunityOptions_String cpn neighAddr occommset ccs im statements
    = Some (sts, logs) ->
  length sts = length statements /\
  forall (i : nat) (g : gobgpoc.Statement),
    sts !! i = Some g ->
    exists statement, statements !! i = Some statement /\
      gobgpoc.Statement_Name g = cpn +:+ ":" +:+ oc.GetString (oc.Statement_Name statement) /\
      policy.neighborSetOf g = neighAddr.
Proof.
  revert sts logs. induction statements as [|st rest IH]; intros sts logs E; cbn in E.
  - injection E as <- <-. split; [reflexivity|]. intros i g Hg. destruct i; discriminate.
  - destruct (policy.convertStatement _ _ _ _ _ _ st) as [[g0 l1]|] eqn:E1; [|discriminate].
    cbn in E.
    destruct (policy.convertStatements _ _ _ _ _ _ rest) as [[sts' l2]|] eqn:E2; [|discriminate].
    cbn in E. injection E as <- <-.
    destruct (IH _ _ eq_refl) as [Hlen Hall].
    split; [cbn; now rewrite Hlen|].
    intros [|i] g Hg; cbn in Hg.
    + injection Hg as <-. exists st. split; [reflexivity|].
      now apply convertStatement_fields in E1.
    + apply Hall in Hg as [statement [Hs Hf]]. exists statement. now split.
Qed.

(** The index map built by [convertCommunitySet] points into the slice built
    with it, at the set of that name. *)
Lemma convertCommunitySet_indexes (occommset : gmap string oc.CommunitySet) :
  forall k index,
    snd (policy.convertCommunitySet occommset) !! k = Some index ->
    exists cs, fst (policy.convertCommunitySet occommset) !! index = Some cs /\
      gobgpoc.CommunitySetName cs = k.
Proof.
  unfold policy.convertCommunitySet.
  generalize (policy.sortedKeys occommset). intros names.
  assert (Hinit : forall k index, (∅ : gmap string nat) !! k = Some index ->
            exists cs, ([] : list gobgpoc.CommunitySet) !! index = Some cs /\
              gobgpoc.CommunitySetName cs = k)
    by (intros k index Hk; rewrite lookup_empty in Hk; discriminate).
  revert Hinit. generalize (∅ : gmap string nat). generalize ([] : list gobgpoc.CommunitySet).
  induction names as [|name names IH]; intros commsets indexMap Hinv; cbn; [exact Hinv|].
  apply IH. intros k index Hk.
  destruct (decide (name = k)) as [->|Hne].
  - rewrite lookup_insert_eq in Hk. injection Hk as <-.
    eexists. split; [apply list_lookup_middle; reflexivity | reflexivity].
  - rewrite lookup_insert_ne in Hk by exact Hne.
    apply Hinv in Hk as [cs [Hcs Hn]]. exists cs. split; [|exact Hn].
    now apply lookup_app_l_Some.
Qed.

Lemma convertCommunitySet_indexesInRange (occommset : gmap string oc.CommunitySet) :
  policy.indexesInRange (fst (policy.convertCommunitySet occommset))
                 (snd (policy.convertCommunitySet occommset)).
Proof.
  intros k index Hk. apply convertCommunitySet_indexes in Hk as [cs [Hcs _]].
  now apply lookup_lt_Some in Hcs.
Qed.

(** C8.  Every statement of a translated policy definition matches on the
    owning neighbour's address, whatever neighbour set the intended statement
    names; the translation gives a definition whenever the index map points
    into the converted community sets. *)
Theorem convertPolicyDefinition_matches_owning_neighbor
    (policy : oc.PolicyDefinition) (neighAddr : string)
    (occommset : gmap string oc.CommunitySet)
    (convertedCommSets : list gobgpoc.CommunitySet) (commSetIndexMap : gmap string nat) :
  (policy.indexesInRange convertedCommSets commSetIndexMap ->
   is_Some (policy.convertPolicyDefinition SetCommunityOptions_String policy neighAddr
              occommset convertedCommSets commSetIndexMap)) /\
  (forall pd logs,
      policy.convertPolicyDefinition SetCommunityOptions_String policy neighAddr
        occommset convertedCommSets commSetIndexMap = Some (pd, logs) ->
      length (gobgpoc.Statements pd) = length (oc.PolicyDefinition_Statement policy) /\
      Forall (fun st => policy.neighborSetOf st = neighAddr) (gobgpoc.Statements pd)).
Proof.
  unfold policy.convertPolicyDefinition. split.
  - intros Hrange.
    destruct (convertStatements_returns
                (policy.convertPolicyName neighAddr
                   (oc.GetString (oc.PolicyDefinition_Name policy)))
                neighAddr occommset convertedCommSets commSetIndexMap
                (oc.PolicyDefinition_Statement policy) Hrange) as [[sts l] ->].
    cbn. eauto.
  - intros pd logs E.
    destruct (policy.convertStatements _ _ _ _ _ _ _) as [[sts l]|] eqn:E1; [|discriminate].
    cbn in E. injection E as <- <-. cbn.
    apply convertStatements_lookup in E1 as [Hlen Hall]. split; [exact Hlen|].
    apply Forall_lookup. intros i g Hg. apply Hall in Hg as [st [_ [_ Hn]]]. exact Hn.
Qed.

End PolicyDefinitions.

Lemma convertPolicyDefinition_matches_owning_neighbor_witness :
  exists pd logs,
    policy.convertPolicyDefinition scripted.SetCommunityOptions_String
      (scripted.policyNamed "p" [scripted.statementForNeighborSet "s" "192.0.2.7"])
      "10.0.0.1" ∅ [] ∅ = Some (pd, logs) /\
    length (gobgpoc.Statements pd) = 1%nat /\
    Forall (fun st => policy.neighborSetOf st = "10.0.0.1") (gobgpoc.Statements pd).
Proof.
  destruct (proj1 (convertPolicyDefinition_matches_owning_neighbor
                     scripted.SetCommunityOptions_String
                     (scripted.policyNamed "p" [scripted.statementForNeighborSet "s" "192.0.2.7"])
                     "10.0.0.1" ∅ [] ∅) (map_Forall_empty _)) as [[pd logs] E].
  exists pd, logs. split; [exact E|].
  exact (proj2 (convertPolicyDefinition_matches_owning_neighbor
                  scripted.SetCommunityOptions_String
                  (scripted.policyNamed "p" [scripted.statementForNeighborSet "s" "192.0.2.7"])
                  "10.0.0.1" ∅ [] ∅) pd logs E).
Defined.

Section QualifiedNames.
Variable SetCommunityOptions_String : oc.E_BgpPolicy_BgpSetCommunityOptionType -> string.

Lemma convertPolicyName_inj_neighbor (a1 a2 p : string) :
  policy.convertPolicyName a1 p = policy.convertPolicyName a2 p -> a1 = a2.
Proof. unfold policy.convertPolicyName. apply append_inv_tail. Qed.

Lemma convertPolicyName_cut (a p : string) :
  GoString.contains "|" a = false ->
  GoString.cut "|" (policy.convertPolicyName a p) = Some (a, p).
Proof. intros Ha. unfold policy.convertPolicyName. now apply (cut_append "|" a p). Qed.

(** The statement emitted for the [i]-th intended statement, and how its
    name and the name of its policy are taken apart again. *)
Lemma convertPolicyDefinition_decode pol a occ ccs im pd logs i st :
  policy.convertPolicyDefinition SetCommunityOptions_String pol a occ ccs im = Some (pd, logs) ->
  oc.PolicyDefinition_Statement pol !! i = Some st ->
  GoString.contains "|" a = false ->
  GoString.contains ":" (oc.GetString (oc.Statement_Name st)) = false ->
  exists g, gobgpoc.Statements pd !! i = Some g /\
    GoString.cut_last ":" (gobgpoc.Statement_Name g)
      = Some (gobgpoc.PolicyDefinition_Name pd, oc.GetString (oc.Statement_Name st)) /\
    GoString.cut "|" (gobgpoc.PolicyDefinition_Name pd)
      = Some (a, oc.GetString (oc.PolicyDefinition_Name pol)).
Proof.
  unfold policy.convertPolicyDefinition. intros E Hst Ha Hs.
  destruct (policy.convertStatements _ _ _ _ _ _ _) as [[sts l]|] eqn:E1; [|discriminate].
  cbn in E. injection E as <- <-. cbn [gobgpoc.Statements gobgpoc.PolicyDefinition_Name].
  apply convertStatements_lookup in E1 as [Hlen Hall].
  destruct (lookup_lt_is_Some_2 sts i) as [g Hg].
  { rewrite Hlen. now apply lookup_lt_Some in Hst. }
  exists g. split; [exact Hg|].
  destruct (Hall i g Hg) as [st' [Hst' [Hname _]]].
  rewrite Hst in Hst'. injection Hst' as <-.
  split; [|now apply convertPolicyName_cut].
  rewrite Hname. now apply (cut_last_append ":").
Qed.

(** The name of the statement emitted for the [i]-th intended statement:
    the qualified policy name, ':' and the statement name. *)
Lemma convertPolicyDefinition_statement_name pol a occ ccs im pd logs i st :
  policy.convertPolicyDefinition SetCommunityOptions_String pol a occ ccs im = Some (pd, logs) ->
  oc.PolicyDefinition_Statement pol !! i = Some st ->
  gobgpoc.PolicyDefinition_Name pd
    = policy.convertPolicyName a (oc.GetString (oc.PolicyDefinition_Name pol)) /\
  exists g, gobgpoc.Statements pd !! i = Some g /\
    gobgpoc.Statement_Name g
    = policy.convertPolicyName a (oc.GetString (oc.PolicyDefinition_Name pol))
      +:+ ":" +:+ oc.GetString (oc.Statement_Name st).
Proof.
  unfold policy.convertPolicyDefinition. intros E Hst.
  destruct (policy.convertStatements _ _ _ _ _ _ _) as [[sts l]|] eqn:E1; [|discriminate].
  cbn in E. injection E as <- <-. cbn [gobgpoc.Statements gobgpoc.PolicyDefinition_Name].
  split; [reflexivity|].
  apply convertStatements_lookup in E1 as [Hlen Hall].
  destruct (lookup_lt_is_Some_2 sts i) as [g Hg].
  { rewrite Hlen. now apply lookup_lt_Some in Hst. }
  exists g. split; [exact Hg|].
  destruct (Hall i g Hg) as [st' [Hst' [Hname _]]].
  rewrite Hst in Hst'. injection Hst' as <-. exact Hname.
Qed.

(** The name of every emitted statement splits at its first '|' into the
    neighbour address and the rest, whatever the policy and the statement
    are called. *)
Lemma statement_name_cut pol a occ ccs im pd logs g :
  policy.convertPolicyDefinition SetCommunityOptions_String pol a occ ccs im = Some (pd, logs) ->
  g ∈ gobgpoc.Statements pd ->
  GoString.contains "|" a = false ->
  exists rest, GoString.cut "|" (gobgpoc.Statement_Name g) = Some (a, rest).
Proof.
  unfold policy.convertPolicyDefinition. intros E Hg Ha.
  destruct (policy.convertStatements _ _ _ _ _ _ _) as [[sts l]|] eqn:E1; [|discriminate].
  cbn in E. injection E as <- <-. cbn [gobgpoc.Statements] in Hg.
  apply convertStatements_lookup in E1 as [_ Hall].
  apply list_elem_of_lookup in Hg as [i Hi].
  destruct (Hall i g Hi) as [st [_ [Hname _]]].
  exists (oc.GetString (oc.PolicyDefinition_Name pol)
          +:+ ":" +:+ oc.GetString (oc.Statement_Name st)).
  rewrite Hname. unfold policy.convertPolicyName. rewrite append_assoc.
  apply (cut_append "|" a).  exact Ha.
Qed.

(** Statements of two neighbours never get one name. *)
Lemma statement_names_differ_across_neighbors
    pol1 a1 occ1 ccs1 im1 pd1 logs1 g1 pol2 a2 occ2 ccs2 im2 pd2 logs2 g2 :
  policy.convertPolicyDefinition SetCommunityOptions_String pol1 a1 occ1 ccs1 im1
    = Some (pd1, logs1) ->
  policy.convertPolicyDefinition SetCommunityOptions_String pol2 a2 occ2 ccs2 im2
    = Some (pd2, logs2) ->
  g1 ∈ gobgpoc.Statements pd1 ->
  g2 ∈ gobgpoc.Statements pd2 ->
  GoString.contains "|" a1 = false ->
  GoString.contains "|" a2 = false ->
  a1 <> a2 ->
  gobgpoc.Statement_Name g1 <> gobgpoc.Statement_Name g2.
Proof.
  intros E1 E2 Hg1 Hg2 Ha1 Ha2 Hne Heq.
  destruct (statement_name_cut _ _ _ _ _ _ _ _ E1 Hg1 Ha1) as [r1 H1].
  destruct (statement_name_cut _ _ _ _ _ _ _ _ E2 Hg2 Ha2) as [r2 H2].
  rewrite Heq, H2 in H1. injection H1 as Ha _. now apply Hne.
Qed.

(** Within one neighbour the qualification does not separate the policy
    name from the statement name: the statement [x:s] of a policy [p] and
    the statement [s] of the policy [p:x] are emitted under one name, while
    the two policies keep different names. *)
Lemma statement_names_collide_within_neighbor
    pol1 pol2 a occ1 ccs1 im1 occ2 ccs2 im2 pd1 logs1 pd2 logs2 i1 i2 st1 st2 (x : string) :
  policy.convertPolicyDefinition SetCommunityOptions_String pol1 a occ1 ccs1 im1
    = Some (pd1, logs1) ->
  policy.convertPolicyDefinition SetCommunityOptions_String pol2 a occ2 ccs2 im2
    = Some (pd2, logs2) ->
  oc.PolicyDefinition_Statement pol1 !! i1 = Some st1 ->
  oc.PolicyDefinition_Statement pol2 !! i2 = Some st2 ->
  oc.GetString (oc.PolicyDefinition_Name pol2)
    = oc.GetString (oc.PolicyDefinition_Name pol1) +:+ ":" +:+ x ->
  oc.GetString (oc.Statement_Name st1) = x +:+ ":" +:+ oc.GetString (oc.Statement_Name st2) ->
  exists g1 g2,
    gobgpoc.Statements pd1 !! i1 = Some g1 /\
    gobgpoc.Statements pd2 !! i2 = Some g2 /\
    gobgpoc.Statement_Name g1 = gobgpoc.Statement_Name g2 /\
    gobgpoc.PolicyDefinition_Name pd1 <> gobgpoc.PolicyDefinition_Name pd2.
Proof.
  intros E1 E2 H1 H2 Hp Hs.
  destruct (convertPolicyDefinition_statement_name _ _ _ _ _ _ _ _ _ E1 H1)
    as [Hn1 [g1 [Hg1 Hname1]]].
  destruct (convertPolicyDefinition_statement_name _ _ _ _ _ _ _ _ _ E2 H2)
    as [Hn2 [g2 [Hg2 Hname2]]].
  exists g1, g2. split; [exact Hg1|]. split; [exact Hg2|]. split.
  - rewrite Hname1, Hname2, Hp, Hs. unfold policy.convertPolicyName.
    rewrite !append_assoc. reflexivity.
  - rewrite Hn1, Hn2, Hp. unfold policy.convertPolicyName. intros Heq.
    apply (f_equal String.length) in Heq. rewrite !length_append in Heq.
    cbn [String.length] in Heq. lia.
Qed.

End QualifiedNames.

(** C7: the code at one neighbour with two policies.  The statement
    "v4:deny" of the policy "export" and the statement "deny" of the policy
    "export:v4" are emitted under one and the same name, while the two
    policies keep different qualified names: qualifying a statement with
    the name of its policy does not make its name unique. *)
Theorem qualified_statement_names_collide :
  let r1 :=
    policy.convertPolicyDefinition scripted.SetCommunityOptions_String
      (scripted.policyNamed "export" [scripted.statementNamed "v4:deny"]) "10.0.0.1" ∅ [] ∅ in
  let r2 :=
    policy.convertPolicyDefinition scripted.SetCommunityOptions_String
      (scripted.policyNamed "export:v4" [scripted.statementNamed "deny"]) "10.0.0.1" ∅ [] ∅ in
  (gobgpoc.PolicyDefinition_Name ∘ fst) <$> r1 = Some "10.0.0.1|export" /\
  (gobgpoc.PolicyDefinition_Name ∘ fst) <$> r2 = Some "10.0.0.1|export:v4" /\
  (policy.statementNames ∘ fst) <$> r1 = Some ["10.0.0.1|export:v4:deny"] /\
  (policy.statementNames ∘ fst) <$> r2 = Some ["10.0.0.1|export:v4:deny"].
Proof. cbv zeta. repeat split. Qed.

(** ** The config translator *)

Section ConfigTranslator.

Lemma intendedToGoBGP_neighbors (bgpoc : oc.Bgp) (zapiURL : string) (listenPort : Z) :
  map (fun n => bgpconfig.NeighborConfig_NeighborAddress (bgpconfig.Neighbor_Config n))
      (bgpconfig.Neighbors (gobgp.intendedToGoBGP bgpoc zapiURL listenPort))
    = map fst (map_to_list (oc.Bgp_Neighbor bgpoc)).
Proof.
  unfold gobgp.intendedToGoBGP. cbn. rewrite map_map.
  apply map_ext. now intros [addr neigh].
Qed.

Lemma intendedToGoBGP_config_state_agree (bgpoc : oc.Bgp) (zapiURL : string) (listenPort : Z) :
  Forall (fun n =>
            bgpconfig.NeighborConfig_PeerAs (bgpconfig.Neighbor_Config n)
              = bgpconfig.NeighborState_PeerAs (bgpconfig.Neighbor_State n) /\
            bgpconfig.NeighborConfig_NeighborAddress (bgpconfig.Neighbor_Config n)
              = bgpconfig.NeighborState_NeighborAddress (bgpconfig.Neighbor_State n))
         (bgpconfig.Neighbors (gobgp.intendedToGoBGP bgpoc zapiURL listenPort)).
Proof.
  unfold gobgp.intendedToGoBGP. cbn. apply Forall_fmap, Forall_forall.
  intros [addr neigh] _. split; reflexivity.
Qed.

(** *** An IPv4 address prints as it was written *)

Lemma isDigit_digitChar (c : ascii) :
  netip.isDigit c = true ->
  0 <= netip.byte_of c - 48 <= 9 /\ c = netip.digitChar (netip.byte_of c - 48).
Proof.
  unfold netip.isDigit, netip.byte_of, netip.digitChar. intros Hd.
  apply andb_true_iff in Hd as [H1 H2]. apply Z.leb_le in H1, H2.
  split; [lia|].
  replace (Z.to_nat (48 + (Z.of_nat (nat_of_ascii c) - 48))) with (nat_of_ascii c) by lia.
  now rewrite ascii_nat_embedding.
Qed.

Lemma FormatUint_digit (d : Z) :
  0 <= d <= 9 -> GoString.FormatUint d = String (netip.digitChar d) "".
Proof.
  intros Hd.
  assert (Hin : d ∈ seqZ 0 10) by (apply elem_of_seqZ; lia).
  clear Hd. revert d Hin. apply Forall_forall. vm_compute. repeat constructor.
Qed.

Lemma FormatUint_snoc (v d : Z) :
  1 <= v <= 25 -> 0 <= d <= 9 ->
  GoString.FormatUint (v * 10 + d) = GoString.FormatUint v +:+ String (netip.digitChar d) "".
Proof.
  intros Hv Hd.
  assert (Hv' : v ∈ seqZ 1 25) by (apply elem_of_seqZ; lia).
  assert (Hd' : d ∈ seqZ 0 10) by (apply elem_of_seqZ; lia).
  clear Hv Hd. revert d Hd'. revert v Hv'.
  assert (forallb (fun v => forallb (fun d => String.eqb (GoString.FormatUint (v * 10 + d)) (GoString.FormatUint v +:+ String (netip.digitChar d) "")) (seqZ 0 10)) (seqZ 1 25) = true) as Hb by (vm_compute; reflexivity).
  intros v Hv d Hd.
  rewrite forallb_forall in Hb. specialize (Hb v). rewrite <- list_elem_of_In in Hb.
  specialize (Hb Hv). rewrite forallb_forall in Hb. specialize (Hb d).
  rewrite <- list_elem_of_In in Hb. apply String.eqb_eq. auto.
Qed.

Lemma append_empty_r (a : string) : a +:+ "" = a.
Proof.
  induction a as [|x a IH]; [reflexivity|].
  change (String x (a +:+ "") = String x a). now rewrite IH.
Qed.

Lemma dotted_snoc (fields : list Z) (val : Z) :
  netip.dotted (fields ++ [val]) = netip.dotted fields +:+ GoString.FormatUint val +:+ ".".
Proof.
  induction fields as [|f r IH].
  - change (GoString.FormatUint val +:+ "." +:+ "" = "" +:+ GoString.FormatUint val +:+ ".").
    now rewrite append_empty_r.
  - change (GoString.FormatUint f +:+ "." +:+ netip.dotted (r ++ [val])
            = (GoString.FormatUint f +:+ "." +:+ netip.dotted r) +:+ GoString.FormatUint val +:+ ".").
    rewrite IH, !append_assoc. reflexivity.
Qed.

Lemma parseIPv4Fields_loop_text (s : string) :
  forall (first prevDot : bool) (val digLen : Z) (fields fs : list Z),
    (length fields <= 3)%nat ->
    0 <= digLen ->
    (first = true -> fields = []) ->
    (prevDot = true -> s <> "") ->
    (digLen = 0 -> val = 0 /\ (first = true \/ prevDot = true)) ->
    (0 < digLen -> 0 <= val <= 255 /\ (val = 0 -> digLen = 1) /\
                   first = false /\ prevDot = false) ->
    netip.parseIPv4Fields_loop s first prevDot val digLen fields = Some fs ->
    netip.string4 fs = netip.dotted fields +:+ netip.curText val digLen +:+ s.
Proof.
  induction s as [|c r IH]; intros first prevDot val digLen fields fs Hlen Hdl Hfirst Hprev H0 Hpos E.
  - cbn [netip.parseIPv4Fields_loop] in E.
    destruct (Nat.ltb_spec (length fields) 3) as [|Hge]; [discriminate|].
    injection E as <-.
    assert (Hd : 0 < digLen).
    { destruct (Z.eq_dec digLen 0) as [Hz|]; [|lia].
      destruct (H0 Hz) as [_ [Hf|Hp]].
      - rewrite (Hfirst Hf) in Hge. cbn in Hge. lia.
      - now destruct (Hprev Hp). }
    unfold netip.curText. destruct (Z.eqb_spec digLen 0); [lia|].
    destruct fields as [|a [|b [|c [|? ?]]]]; cbn in Hlen, Hge; try lia.
    cbn [app netip.string4 netip.dotted]. rewrite !append_assoc, !append_empty_r. reflexivity.
  - cbn [netip.parseIPv4Fields_loop] in E.
    destruct (netip.isDigit c) eqn:Hdig.
    + apply isDigit_digitChar in Hdig as [Hd Hc].
      destruct ((digLen =? 1) && (val =? 0)) eqn:Hlead; [discriminate|].
      destruct (Z.gtb_spec (val * 10 + netip.byte_of c - 48) 255) as [|Hle]; [discriminate|].
      assert (Hnz : 0 < digLen -> 1 <= val).
      { intros Hp. destruct (Hpos Hp) as [Hv [Hz _]].
        destruct (Z.eq_dec val 0) as [Hv0|]; [|lia].
        rewrite (Hz Hv0), Hv0 in Hlead. discriminate. }
      apply IH in E; try lia; try discriminate.
      rewrite E. f_equal. unfold netip.curText.
      destruct (Z.eqb_spec (digLen + 1) 0); [lia|].
      destruct (Z.eqb_spec digLen 0) as [Hz|Hz].
      * destruct (H0 Hz) as [-> _].
        replace (0 * 10 + netip.byte_of c - 48) with (netip.byte_of c - 48) by lia.
        rewrite FormatUint_digit by lia. now rewrite <- Hc.
      * replace (val * 10 + netip.byte_of c - 48) with (val * 10 + (netip.byte_of c - 48))
          by lia.
        rewrite FormatUint_snoc by lia. rewrite <- Hc, append_assoc. reflexivity.
    + destruct (Ascii.eqb_spec c ".") as [->|]; [|discriminate].
      destruct first; [discriminate|]. cbn [orb] in E.
      destruct (String.eqb_spec r "") as [|Hr]; [discriminate|]. cbn [orb] in E.
      destruct prevDot; [discriminate|].
      destruct (Nat.eqb_spec (length fields) 3) as [|Hne]; [discriminate|].
      assert (Hp : 0 < digLen).
      { destruct (Z.eq_dec digLen 0) as [Hz|]; [|lia].
        destruct (H0 Hz) as [_ [|]]; discriminate. }
      apply IH in E; try lia; try discriminate; try (rewrite length_app; cbn; lia); auto.
      rewrite E, dotted_snoc. unfold netip.curText.
      destruct (Z.eqb_spec digLen 0); [lia|]. cbn [Z.eqb].
      rewrite !append_assoc. reflexivity.
Qed.

Lemma parseIPv4_text (s : string) (a : netip.Addr) :
  netip.parseIPv4 s = Some a -> netip.Addr_String a = s.
Proof.
  unfold netip.parseIPv4, netip.parseIPv4Fields.
  destruct (netip.parseIPv4Fields_loop s true false 0 0 []) as [fs|] eqn:E; [|discriminate].
  intros [= <-]. apply parseIPv4Fields_loop_text in E; try lia; try discriminate; auto.
Qed.

Lemma parseIPv6_is_Addr6 (s : string) (a : netip.Addr) :
  netip.parseIPv6 s = Some a -> exists ip zone, a = netip.Addr6 ip zone.
Proof.
  unfold netip.parseIPv6.
  destruct (netip.splitZone s) as [[s1 zone]|]; [|discriminate]. cbn [mbind option_bind].
  destruct (bool_decide _); [intros [= <-]; eauto|].
  destruct (netip.parseIPv6_loop 8 _ [] _) as [[[ip e'] rest]|]; [|discriminate].
  cbn [mbind option_bind].
  destruct (negb _); [discriminate|].
  destruct (_ <? _)%nat; destruct e'; try discriminate; intros [= <-]; eauto.
Qed.

Lemma ParseAddr_IPv4_text (s : string) (fields : list Z) :
  netip.ParseAddr s = Some (netip.Addr4 fields) -> netip.Addr_String (netip.Addr4 fields) = s.
Proof.
  unfold netip.ParseAddr. generalize s at 2. intros s'.
  induction s' as [|c r IH]; cbn [netip.ParseAddr_scan]; [discriminate|].
  destruct (Ascii.eqb c "."); [apply parseIPv4_text|].
  destruct (Ascii.eqb c ":").
  { intros E. apply parseIPv6_is_Addr6 in E as [ip [zone [=]]]. }
  destruct (Ascii.eqb c "%"); [discriminate | exact IH].
Qed.

(** A text without ':' that parses is an IPv4 address, and prints as it was
    written. *)
Lemma ParseAddr_scan_no_colon (input s : string) (a : netip.Addr) :
  GoString.contains ":" s = false ->
  netip.ParseAddr_scan input s = Some a -> exists fields, a = netip.Addr4 fields.
Proof.
  induction s as [|c r IH]; cbn [netip.ParseAddr_scan GoString.contains]; [discriminate|].
  intros Hc. destruct (Ascii.eqb c ".").
  - unfold netip.parseIPv4. destruct (netip.parseIPv4Fields input) as [fs|]; [|discriminate].
    intros [= <-]. eauto.
  - destruct (Ascii.eqb_spec c ":") as [->|Hne].
    + rewrite Ascii.eqb_refl in Hc. discriminate.
    + destruct (Ascii.eqb_spec ":" c) as [Heq|_]; [now destruct Hne|].
      destruct (Ascii.eqb c "%"); [discriminate | now apply IH].
Qed.

Lemma ParseAddr_text_no_colon (s : string) (a : netip.Addr) :
  GoString.contains ":" s = false ->
  netip.ParseAddr s = Some a -> netip.Addr_String a = s.
Proof.
  intros Hc Hparse.
  destruct (ParseAddr_scan_no_colon s s a Hc Hparse) as [fields ->].
  now apply ParseAddr_IPv4_text.
Qed.

(** C9.  For a router-id written without ':', as the dotted quad of a BGP
    router-id is, every neighbour of the engine config gets as local
    address the router-id itself when the router-id parses as an IP address
    that is a loopback address, and the empty string otherwise.  For any
    router-id the address is what [intendedToGoBGP] stores, the text of the
    parsed router-id.  Router-id "1.1.1.1" gives "", and "127.0.0.1" gives
    itself. *)
Theorem intendedToGoBGP_local_address :
  (forall (bgpoc : oc.Bgp) (zapiURL : string) (listenPort : Z),
      GoString.contains ":" (oc.GetRouterId (oc.Bgp_Global bgpoc)) = false ->
      Forall (fun n =>
                gobgp.localAddressOf n =
                  match netip.ParseAddr (oc.GetRouterId (oc.Bgp_Global bgpoc)) with
                  | Some localAddr =>
                      if netip.IsLoopback localAddr
                      then oc.GetRouterId (oc.Bgp_Global bgpoc) else ""
                  | None => ""
                  end)
             (bgpconfig.Neighbors (gobgp.intendedToGoBGP bgpoc zapiURL listenPort))) /\
  (forall (bgpoc : oc.Bgp) (zapiURL : string) (listenPort : Z),
      Forall (fun n =>
                gobgp.localAddressOf n =
                  match netip.ParseAddr (oc.GetRouterId (oc.Bgp_Global bgpoc)) with
                  | Some localAddr =>
                      if netip.IsLoopback localAddr then netip.Addr_String localAddr else ""
                  | None => ""
                  end)
             (bgpconfig.Neighbors (gobgp.intendedToGoBGP bgpoc zapiURL listenPort))) /\
  map gobgp.localAddressOf (bgpconfig.Neighbors scripted.goodConfig) = [""] /\
  bgpconfig.As (bgpconfig.Global_Config scripted.goodConfig) = 65001 /\
  bgpconfig.RouterId (bgpconfig.Global_Config scripted.goodConfig) = "1.1.1.1" /\
  map gobgp.localAddressOf
      (bgpconfig.Neighbors
         (gobgp.intendedToGoBGP
            (scripted.bgpWith (Some 65001) (Some "127.0.0.1")
               {[ "10.0.0.2" := scripted.neighbor "10.0.0.2" 65002 ]})
            "unix:/var/run/zserv.api" 179))
    = ["127.0.0.1"].
Proof.
  assert (Hall : forall bgpoc zapiURL listenPort,
             Forall (fun n =>
                       gobgp.localAddressOf n =
                         match netip.ParseAddr (oc.GetRouterId (oc.Bgp_Global bgpoc)) with
                         | Some localAddr =>
                             if netip.IsLoopback localAddr
                             then netip.Addr_String localAddr else ""
                         | None => ""
                         end)
                    (bgpconfig.Neighbors (gobgp.intendedToGoBGP bgpoc zapiURL listenPort))).
  { intros bgpoc zapiURL listenPort. unfold gobgp.intendedToGoBGP. cbn.
    apply Forall_fmap, Forall_forall. intros [addr neigh] _. reflexivity. }
  split; [|split; [exact Hall | repeat split]].
  intros bgpoc zapiURL listenPort Hc.
  specialize (Hall bgpoc zapiURL listenPort).
  destruct (netip.ParseAddr (oc.GetRouterId (oc.Bgp_Global bgpoc))) as [localAddr|] eqn:Hparse;
    [|exact Hall].
  now rewrite (ParseAddr_text_no_colon _ _ Hc Hparse) in Hall.
Qed.

Lemma intendedToGoBGP_local_address_witness :
  Forall (fun n => gobgp.localAddressOf n = "127.0.0.1")
         (bgpconfig.Neighbors
            (gobgp.intendedToGoBGP
               (scripted.bgpWith (Some 65001) (Some "127.0.0.1")
                  {[ "10.0.0.2" := scripted.neighbor "10.0.0.2" 65002 ]})
               "unix:/var/run/zserv.api" 179)) /\
  Forall (fun n => gobgp.localAddressOf n = "")
         (bgpconfig.Neighbors
            (gobgp.intendedToGoBGP
               (scripted.bgpWith (Some 65001) (Some "1.1.1.1")
                  {[ "10.0.0.2" := scripted.neighbor "10.0.0.2" 65002 ]})
               "unix:/var/run/zserv.api" 179)).
Proof.
  split.
  - exact (proj1 intendedToGoBGP_local_address
             (scripted.bgpWith (Some 65001) (Some "127.0.0.1")
                {[ "10.0.0.2" := scripted.neighbor "10.0.0.2" 65002 ]})
             "unix:/var/run/zserv.api" 179 eq_refl).
  - exact (proj1 intendedToGoBGP_local_address
             (scripted.bgpWith (Some 65001) (Some "1.1.1.1")
                {[ "10.0.0.2" := scripted.neighbor "10.0.0.2" 65002 ]})
             "unix:/var/run/zserv.api" 179 eq_refl).
Defined.

End ConfigTranslator.

(** ** The applied state and its single entry point *)

Section AppliedState.
Context `{gobgp.Collaborators}.

Lemma updateAppliedStateHelper_frame (sub : gobgp.Subtree) (t : gobgp.bgpDeclTask) :
  gobgp.appliedState (gobgp.updateAppliedStateHelper sub t) = gobgp.appliedState t /\
  gobgp.currentConfig (gobgp.updateAppliedStateHelper sub t) = gobgp.currentConfig t /\
  gobgp.bgpStarted (gobgp.updateAppliedStateHelper sub t) = gobgp.bgpStarted t /\
  gobgp.bgpServer (gobgp.updateAppliedStateHelper sub t) = gobgp.bgpServer t /\
  gobgp.yclient (gobgp.updateAppliedStateHelper sub t)
    = fst (gobgp.Replace (gobgp.yclient t) sub) /\
  exists l, gobgp.glog (gobgp.updateAppliedStateHelper sub t) = gobgp.glog t ++ l.
Proof.
  unfold gobgp.updateAppliedStateHelper.
  destruct (gobgp.Replace (gobgp.yclient t) sub) as [c [e|]]; cbn; repeat split; eauto.
  exists []. now rewrite app_nil_r.
Qed.

(** A pass through [updateAppliedState] leaves the applied tree as the
    mutator left it, and keeps what the mutator logged. *)
Lemma updateAppliedState_appliedState (f : gobgp.mutator) (t : gobgp.bgpDeclTask) :
  gobgp.appliedState (snd (gobgp.updateAppliedState f t)) = gobgp.appliedState (snd (f t)) /\
  exists l, gobgp.glog (snd (gobgp.updateAppliedState f t)) = gobgp.glog (snd (f t)) ++ l.
Proof.
  unfold gobgp.updateAppliedState. destruct (f t) as [[e|] t1]; cbn.
  - split; [reflexivity|]. exists []. now rewrite app_nil_r.
  - set (t2 := gobgp.updateAppliedStateHelper (gobgp.AtBGPStatePath _) t1).
    destruct (updateAppliedStateHelper_frame
                (gobgp.AtRoutingPolicyStatePath (gobgp.appliedRoutingPolicy t2)) t2)
      as [Ha [_ [_ [_ [_ [l2 Hl2]]]]]].
    destruct (updateAppliedStateHelper_frame
                (gobgp.AtBGPStatePath (gobgp.appliedBGP t1)) t1)
      as [Ha1 [_ [_ [_ [_ [l1 Hl1]]]]]].
    fold t2 in Ha1, Hl1. split; [now rewrite Ha, Ha1|].
    exists (l1 ++ l2). now rewrite Hl2, Hl1, app_assoc.
Qed.

(** C1.  When the mutator returns an error, [updateAppliedState] returns
    that error and stops there: the task, and with it the central cache, is
    as the mutator left it.  When the mutator succeeds, the applied BGP
    sub-tree and then the applied routing-policy sub-tree, both as the
    mutator left them, are written to the central cache with [Replace], and
    [updateAppliedState] returns no error. *)
Theorem updateAppliedState_publishes_on_success (f : gobgp.mutator) (t : gobgp.bgpDeclTask) :
  (forall e t1, f t = (Some e, t1) -> gobgp.updateAppliedState f t = (Some e, t1)) /\
  (forall t1, f t = (None, t1) ->
     exists t2,
       gobgp.updateAppliedState f t = (None, t2) /\
       gobgp.yclient t2 =
         fst (gobgp.Replace
                (fst (gobgp.Replace (gobgp.yclient t1) (gobgp.AtBGPStatePath (gobgp.appliedBGP t1))))
                (gobgp.AtRoutingPolicyStatePath (gobgp.appliedRoutingPolicy t1))) /\
       gobgp.appliedState t2 = gobgp.appliedState t1 /\
       gobgp.currentConfig t2 = gobgp.currentConfig t1 /\
       gobgp.bgpStarted t2 = gobgp.bgpStarted t1).
Proof.
  unfold gobgp.updateAppliedState. split.
  - intros e t1 ->. reflexivity.
  - intros t1 ->. eexists. split; [reflexivity|].
    set (t2 := gobgp.updateAppliedStateHelper (gobgp.AtBGPStatePath _) t1).
    destruct (updateAppliedStateHelper_frame
                (gobgp.AtRoutingPolicyStatePath (gobgp.appliedRoutingPolicy t2)) t2)
      as [Ha [Hc [Hs [_ [Hy _]]]]].
    destruct (updateAppliedStateHelper_frame
                (gobgp.AtBGPStatePath (gobgp.appliedBGP t1)) t1)
      as [Ha1 [Hc1 [Hs1 [_ [Hy1 _]]]]].
    fold t2 in Ha1, Hc1, Hs1, Hy1.
    rewrite Ha, Hc, Hs, Hy, Ha1, Hc1, Hs1, Hy1.
    unfold gobgp.appliedRoutingPolicy. rewrite Ha1. repeat split.
Qed.

End AppliedState.

Lemma updateAppliedState_publishes_on_success_witness :
  let t := scripted.task scripted.workingEngine tt [] tt false None oc.Bgp_zero in
  gobgp.updateAppliedState scripted.failingMutator t
    = (Some (gobgp.ErrExternal "mutator failed"), t) /\
  exists t2,
    gobgp.updateAppliedState scripted.idleMutator t = (None, t2) /\
    gobgp.yclient t2
      = [gobgp.AtBGPStatePath oc.Bgp_zero;
         gobgp.AtRoutingPolicyStatePath scripted.emptyRoutingPolicy].
Proof.
  cbv zeta. split.
  - apply (proj1 (updateAppliedState_publishes_on_success scripted.failingMutator
                    (scripted.task scripted.workingEngine tt [] tt false None oc.Bgp_zero))).
    reflexivity.
  - destruct (proj2 (updateAppliedState_publishes_on_success scripted.idleMutator
                       (scripted.task scripted.workingEngine tt [] tt false None oc.Bgp_zero))
                _ eq_refl) as [t2 [E [Hy _]]].
    exists t2. split; [exact E | exact Hy].
Defined.

(** ** Peer events *)

Section PeerEvents.
Context `{gobgp.Collaborators}.

Lemma lookupSessionState_Some table name enumCode :
  gobgp.lookupSessionState table name = Some enumCode -> (enumCode, name) ∈ table.
Proof.
  induction table as [|[c v] rest IH]; cbn; [discriminate|].
  destruct (String.eqb_spec v name) as [->|Hne].
  - intros [= ->]. apply list_elem_of_here.
  - intros E. apply list_elem_of_further. now apply IH.
Qed.

Lemma lookupSessionState_None table name :
  gobgp.lookupSessionState table name = None -> forall enumCode, (enumCode, name) ∉ table.
Proof.
  induction table as [|[c v] rest IH]; cbn; intros E enumCode Hin.
  - inversion Hin.
  - destruct (String.eqb_spec v name) as [->|Hne]; [discriminate|].
    apply elem_of_cons in Hin as [[= -> ->]|Hin]; [now apply Hne|].
    now apply (IH E enumCode).
Qed.

Lemma GetOrCreateNeighbor_lookup (b : oc.Bgp) (addr : string) :
  oc.Bgp_Neighbor (fst (oc.GetOrCreateNeighbor b addr)) !! addr
    = Some (snd (oc.GetOrCreateNeighbor b addr)).
Proof.
  unfold oc.GetOrCreateNeighbor. destruct (oc.Bgp_Neighbor b !! addr) eqn:E; cbn.
  - exact E.
  - apply lookup_insert_eq.
Qed.

Lemma GetOrCreateNeighbor_keeps (b : oc.Bgp) (addr a : string) (n : oc.Neighbor) :
  oc.Bgp_Neighbor b !! a = Some n ->
  oc.Bgp_Neighbor (fst (oc.GetOrCreateNeighbor b addr)) !! a = Some n.
Proof.
  unfold oc.GetOrCreateNeighbor. intros Ha.
  destruct (oc.Bgp_Neighbor b !! addr) eqn:E; cbn; [exact Ha|].
  rewrite lookup_insert_ne; [exact Ha|]. intros ->. congruence.
Qed.

Lemma set_appliedBGP_same (t : gobgp.bgpDeclTask) :
  gobgp.appliedState (gobgp.set_appliedBGP (gobgp.appliedBGP t) t) = gobgp.appliedState t.
Proof. destruct t as [? ? ? ? ? ? [? ? ?] ?]. reflexivity. Qed.

Lemma sessionStateOf_store (t : gobgp.bgpDeclTask) (b : oc.Bgp) (addr : string)
    (s : oc.E_Bgp_Neighbor_SessionState) :
  is_Some (oc.Bgp_Neighbor b !! addr) ->
  gobgp.sessionStateOf (gobgp.set_appliedBGP (gobgp.store_SessionState addr s b) t) addr
    = Some s.
Proof.
  intros [n Hn]. unfold gobgp.sessionStateOf. cbn.
  now rewrite lookup_alter_eq, Hn.
Qed.

(** What the mutator of a peer event does to the applied tree and the log,
    by the three cases of the callback. *)
Lemma peerEventMutator_cases (ps : api.PeerState) (t : gobgp.bgpDeclTask) :
  let addr := api.NeighborAddress ps in
  let name := api.SessionState_String (api.SessionState ps) in
  let t1 := snd (gobgp.peerEventMutator ps t) in
  fst (gobgp.peerEventMutator ps t) = None /\
  (name = "UNKNOWN" ->
   gobgp.sessionStateOf t1 addr = Some oc.Bgp_Neighbor_SessionState_UNSET) /\
  (name <> "UNKNOWN" ->
   forall enumCode, gobgp.lookupSessionState gobgp.SessionState_ΛMap name = Some enumCode ->
     gobgp.sessionStateOf t1 addr = Some enumCode) /\
  (name <> "UNKNOWN" ->
   gobgp.lookupSessionState gobgp.SessionState_ΛMap name = None ->
   gobgp.appliedBGP t1 = fst (oc.GetOrCreateNeighbor (gobgp.appliedBGP t) addr) /\
   gobgp.glog t1 = gobgp.glog t ++ [gobgp.LogUnknownSessionState (api.SessionState ps)]).
Proof.
  cbv zeta. unfold gobgp.peerEventMutator.
  pose proof (GetOrCreateNeighbor_lookup (gobgp.appliedBGP t) (api.NeighborAddress ps)) as Hl.
  destruct (oc.GetOrCreateNeighbor (gobgp.appliedBGP t) (api.NeighborAddress ps))
    as [b neigh]. cbn [fst snd] in Hl.
  destruct (String.eqb_spec (api.SessionState_String (api.SessionState ps)) "UNKNOWN")
    as [Hu|Hu].
  - cbn [fst snd]. split; [reflexivity|]. split; [|split]; try (intros Hne; contradiction).
    intros _. apply sessionStateOf_store. eauto.
  - destruct (gobgp.lookupSessionState gobgp.SessionState_ΛMap _) as [enumCode|] eqn:El.
    + destruct (Z.eqb_spec (oc.Neighbor_SessionState neigh) enumCode) as [Heq|Hneq];
        cbn [fst snd]; (split; [reflexivity|]); (split; [intros; contradiction|]);
        (split; [|intros _ [=]]); intros _ code [= <-].
      * unfold gobgp.sessionStateOf. cbn. now rewrite Hl, <- Heq.
      * apply sessionStateOf_store. eauto.
    + cbn [fst snd]. split; [reflexivity|]. split; [intros; contradiction|].
      split; [intros _ code [=]|]. intros _ _. split; reflexivity.
Qed.

(** C4, as the code has it.  The engine's "UNKNOWN" sets the session state
    of the neighbour's record to the local unset value; a name of the local
    enumeration sets it to a value of that name; any other name is logged
    and changes no record that was there: the applied tree is as before,
    but for a fresh record (the address, session state unset) when the
    neighbour had none. *)
Theorem onPeerEvent_session_state (ps : api.PeerState) (t : gobgp.bgpDeclTask) :
  let addr := api.NeighborAddress ps in
  let name := api.SessionState_String (api.SessionState ps) in
  let t' := gobgp.onPeerEvent ps t in
  (name = "UNKNOWN" ->
   gobgp.sessionStateOf t' addr = Some oc.Bgp_Neighbor_SessionState_UNSET) /\
  (name <> "UNKNOWN" ->
   (exists enumCode, (enumCode, name) ∈ gobgp.SessionState_ΛMap) ->
   exists enumCode, (enumCode, name) ∈ gobgp.SessionState_ΛMap /\
     gobgp.sessionStateOf t' addr = Some enumCode) /\
  (name <> "UNKNOWN" ->
   (forall enumCode, (enumCode, name) ∉ gobgp.SessionState_ΛMap) ->
   gobgp.LogUnknownSessionState (api.SessionState ps) ∈ gobgp.glog t' /\
   gobgp.appliedBGP t' = fst (oc.GetOrCreateNeighbor (gobgp.appliedBGP t) addr) /\
   (is_Some (oc.Bgp_Neighbor (gobgp.appliedBGP t) !! addr) ->
    gobgp.appliedState t' = gobgp.appliedState t) /\
   (oc.Bgp_Neighbor (gobgp.appliedBGP t) !! addr = None ->
    oc.Bgp_Neighbor (gobgp.appliedBGP t')
      = <[addr := oc.newNeighbor addr]> (oc.Bgp_Neighbor (gobgp.appliedBGP t))) /\
   (forall a n, oc.Bgp_Neighbor (gobgp.appliedBGP t) !! a = Some n ->
                oc.Bgp_Neighbor (gobgp.appliedBGP t') !! a = Some n)).
Proof.
  cbv zeta. unfold gobgp.onPeerEvent.
  destruct (updateAppliedState_appliedState (gobgp.peerEventMutator ps) t) as [Ha [l Hl]].
  destruct (peerEventMutator_cases ps t) as [_ [Hunknown [Hknown Hother]]].
  cbv zeta in Hunknown, Hknown, Hother.
  assert (Hs : forall a,
             gobgp.sessionStateOf (snd (gobgp.updateAppliedState (gobgp.peerEventMutator ps) t)) a
             = gobgp.sessionStateOf (snd (gobgp.peerEventMutator ps t)) a).
  { intros a. unfold gobgp.sessionStateOf, gobgp.appliedBGP. now rewrite Ha. }
  split; [|split].
  - intros Hu. rewrite Hs. now apply Hunknown.
  - intros Hu [code Hin].
    destruct (gobgp.lookupSessionState gobgp.SessionState_ΛMap
                (api.SessionState_String (api.SessionState ps))) as [enumCode|] eqn:El.
    + exists enumCode. split; [now apply lookupSessionState_Some|].
      rewrite Hs. now apply Hknown.
    + exfalso. now apply (lookupSessionState_None _ _ El code).
  - intros Hu Hnone.
    destruct (gobgp.lookupSessionState gobgp.SessionState_ΛMap
                (api.SessionState_String (api.SessionState ps))) as [enumCode|] eqn:El.
    { exfalso. apply (Hnone enumCode). now apply lookupSessionState_Some. }
    destruct (Hother Hu eq_refl) as [Hb Hg].
    assert (Hb' : gobgp.appliedBGP
                    (snd (gobgp.updateAppliedState (gobgp.peerEventMutator ps) t))
                  = fst (oc.GetOrCreateNeighbor (gobgp.appliedBGP t) (api.NeighborAddress ps))).
    { unfold gobgp.appliedBGP at 1. rewrite Ha. exact Hb. }
    split; [|split; [exact Hb'|split; [|split]]].
    + rewrite Hl, Hg. apply elem_of_app. left. apply elem_of_app. right.
      apply list_elem_of_here.
    + intros [n Hn]. rewrite Ha.
      unfold gobgp.peerEventMutator.
      unfold oc.GetOrCreateNeighbor. rewrite Hn.
      destruct (String.eqb_spec (api.SessionState_String (api.SessionState ps)) "UNKNOWN");
        [contradiction|].
      rewrite El. cbn. apply set_appliedBGP_same.
    + intros Hn. rewrite Hb'. unfold oc.GetOrCreateNeighbor. now rewrite Hn.
    + intros a n Hn. rewrite Hb'. now apply GetOrCreateNeighbor_keeps.
Qed.

End PeerEvents.

Lemma onPeerEvent_session_state_witness :
  gobgp.sessionStateOf
    (gobgp.onPeerEvent (scripted.peerEvent api.PeerState_UNKNOWN) scripted.idleTask) "10.0.0.2"
    = Some oc.Bgp_Neighbor_SessionState_UNSET /\
  (exists enumCode,
      (enumCode, "ESTABLISHED") ∈ scripted.SessionState_names /\
      gobgp.sessionStateOf
        (gobgp.onPeerEvent (scripted.peerEvent api.PeerState_ESTABLISHED) scripted.idleTask)
        "10.0.0.2" = Some enumCode) /\
  gobgp.LogUnknownSessionState (api.PeerState_other 99)
    ∈ gobgp.glog (gobgp.onPeerEvent (scripted.peerEvent (api.PeerState_other 99))
                    scripted.idleTask).
Proof.
  split; [|split].
  - apply (proj1 (onPeerEvent_session_state (scripted.peerEvent api.PeerState_UNKNOWN)
                    scripted.idleTask)).
    reflexivity.
  - apply (proj1 (proj2 (onPeerEvent_session_state
                           (scripted.peerEvent api.PeerState_ESTABLISHED) scripted.idleTask))).
    + discriminate.
    + exists 6. repeat constructor.
  - apply (proj2 (proj2 (onPeerEvent_session_state
                           (scripted.peerEvent (api.PeerState_other 99)) scripted.idleTask))).
    + discriminate.
    + intros enumCode Hin. repeat (apply elem_of_cons in Hin as [Hin|Hin]; [discriminate|]).
      inversion Hin.
Defined.

(** C4, as it is worded, fails: an unrecognized session state for a
    neighbour the applied tree does not know yet adds a record for it. *)
Lemma onPeerEvent_unrecognized_adds_neighbor :
  let ps := scripted.peerEvent (api.PeerState_other 99) in
  api.SessionState_String (api.SessionState ps) = "99" /\
  gobgp.lookupSessionState scripted.SessionState_names "99" = None /\
  oc.Bgp_Neighbor (gobgp.appliedBGP scripted.idleTask) !! "10.0.0.2" = None /\
  oc.Bgp_Neighbor (gobgp.appliedBGP (gobgp.onPeerEvent ps scripted.idleTask)) !! "10.0.0.2"
    = Some (oc.newNeighbor "10.0.0.2") /\
  gobgp.appliedState (gobgp.onPeerEvent ps scripted.idleTask)
    <> gobgp.appliedState scripted.idleTask.
Proof.
  cbv zeta. split; [reflexivity|]. split; [reflexivity|]. split; [reflexivity|].
  assert (Hl : oc.Bgp_Neighbor
                 (gobgp.appliedBGP
                    (gobgp.onPeerEvent (scripted.peerEvent (api.PeerState_other 99))
                       scripted.idleTask)) !! "10.0.0.2"
               = Some (oc.newNeighbor "10.0.0.2")) by (vm_compute; reflexivity).
  split; [exact Hl|].
  intros E. unfold gobgp.appliedBGP in Hl. rewrite E in Hl. discriminate Hl.
Qed.

(** ** Reconciliation *)

Section Reconcile.
Context `{gobgp.Collaborators}.

(** After a failed update the snapshot is what the engine returned next to
    the error, whatever it was before. *)
Lemma reconcile_failed_update_snapshot (intended : oc.Root gobgp.RootOther)
    (t : gobgp.bgpDeclTask) cfg e b srv :
  gobgp.bgpStarted t = true ->
  gobgp.bgpShouldStart intended = true ->
  gobgp.UpdateConfig (gobgp.appliedBGP t) (gobgp.bgpServer t) (gobgp.currentConfig t)
    (gobgp.intendedToGoBGP (oc.Root_Bgp intended) (gobgp.zapiURL t) (gobgp.listenPort t))
    = (cfg, Some e, b, srv) ->
  exists newConfig t',
    gobgp.reconcile intended t = (Some (gobgp.ErrUpdateConfig newConfig), t') /\
    gobgp.currentConfig t' = cfg /\
    gobgp.bgpStarted t' = true.
Proof.
  intros Hstarted Hshould Hupdate. unfold gobgp.reconcile.
  unfold gobgp.bgpShouldStart in Hshould. rewrite Hshould, Hstarted. cbn [negb andb].
  rewrite Hupdate. eexists _, _. split; [reflexivity|]. cbn. split; [reflexivity|exact Hstarted].
Qed.

(** After a failed start the snapshot is what the engine returned next to
    the error, and the task has not started. *)
Lemma reconcile_failed_start_snapshot (intended : oc.Root gobgp.RootOther)
    (t : gobgp.bgpDeclTask) cfg e b srv :
  gobgp.bgpStarted t = false ->
  gobgp.bgpShouldStart intended = true ->
  gobgp.InitialConfig (gobgp.appliedBGP t) (gobgp.bgpServer t)
    (gobgp.intendedToGoBGP (oc.Root_Bgp intended) (gobgp.zapiURL t) (gobgp.listenPort t))
    gobgp.gracefulRestart
    = (cfg, Some e, b, srv) ->
  exists newConfig t',
    gobgp.reconcile intended t = (Some (gobgp.ErrInitialConfig newConfig), t') /\
    gobgp.currentConfig t' = cfg /\
    gobgp.bgpStarted t' = false.
Proof.
  intros Hstarted Hshould Hinit. unfold gobgp.reconcile.
  unfold gobgp.bgpShouldStart in Hshould. rewrite Hshould, Hstarted. cbn [negb andb].
  rewrite Hinit. eexists _, _. split; [reflexivity|]. cbn. split; [reflexivity|exact Hstarted].
Qed.

(** A successful start or update records the snapshot the engine returned. *)
Lemma reconcile_success_snapshot (intended : oc.Root gobgp.RootOther)
    (t t' : gobgp.bgpDeclTask) :
  gobgp.bgpShouldStart intended = true ->
  gobgp.reconcile intended t = (None, t') ->
  gobgp.bgpStarted t' = true /\
  gobgp.currentConfig t' =
    fst (fst (fst
      (if gobgp.bgpStarted t
       then gobgp.UpdateConfig (gobgp.appliedBGP t) (gobgp.bgpServer t) (gobgp.currentConfig t)
              (gobgp.intendedToGoBGP (oc.Root_Bgp intended) (gobgp.zapiURL t)
                 (gobgp.listenPort t))
       else gobgp.InitialConfig (gobgp.appliedBGP t) (gobgp.bgpServer t)
              (gobgp.intendedToGoBGP (oc.Root_Bgp intended) (gobgp.zapiURL t)
                 (gobgp.listenPort t)) gobgp.gracefulRestart))).
Proof.
  intros Hshould. unfold gobgp.reconcile.
  unfold gobgp.bgpShouldStart in Hshould. rewrite Hshould.
  destruct (gobgp.bgpStarted t) eqn:Hstarted; cbn [negb andb].
  - destruct (gobgp.UpdateConfig _ _ _ _) as [[[cfg [e|]] b] srv]; [discriminate|].
    intros [= <-]. cbn. split; [exact Hstarted | reflexivity].
  - destruct (gobgp.InitialConfig _ _ _ _) as [[[cfg [e|]] b] srv]; [discriminate|].
    intros [= <-]. cbn. split; reflexivity.
Qed.

(** C10.  When a started task meets an intended tree without AS or
    router-id and the engine stops, [reconcile] resets the applied BGP
    sub-tree to the defaults of the empty tree and the snapshot to the empty
    config set, and marks the task as not started; the applied routing-policy
    sub-tree, the rest of the applied tree, the cache and the log are as
    before. *)
Theorem reconcile_stop_resets_only_bgp (intended : oc.Root gobgp.RootOther)
    (t : gobgp.bgpDeclTask) (srv : gobgp.Server) :
  gobgp.bgpStarted t = true ->
  gobgp.bgpShouldStart intended = false ->
  gobgp.StopBgp (gobgp.bgpServer t) = (None, srv) ->
  exists t',
    gobgp.reconcile intended t = (None, t') /\
    gobgp.bgpStarted t' = false /\
    gobgp.currentConfig t' = Some bgpconfig.BgpConfigSet_zero /\
    gobgp.appliedBGP t' = gobgp.PopulateDefaults oc.Bgp_zero /\
    gobgp.appliedRoutingPolicy t' = gobgp.appliedRoutingPolicy t /\
    oc.Root_Other (gobgp.appliedState t') = oc.Root_Other (gobgp.appliedState t) /\
    gobgp.yclient t' = gobgp.yclient t /\
    gobgp.glog t' = gobgp.glog t /\
    gobgp.zapiURL t' = gobgp.zapiURL t /\
    gobgp.listenPort t' = gobgp.listenPort t.
Proof.
  intros Hstarted Hshould Hstop. unfold gobgp.reconcile.
  unfold gobgp.bgpShouldStart in Hshould. rewrite Hshould, Hstarted. cbn [negb andb].
  rewrite Hstop. eexists. split; [reflexivity|]. cbn. repeat split.
Qed.

End Reconcile.

Lemma reconcile_stop_resets_only_bgp_witness :
  exists t',
    @gobgp.reconcile scripted.workingEngine scripted.intendedStop
      (scripted.task scripted.workingEngine tt [] tt true (Some scripted.goodConfig)
         scripted.appliedRunning) = (None, t') /\
    gobgp.bgpStarted t' = false /\
    gobgp.currentConfig t' = Some bgpconfig.BgpConfigSet_zero /\
    gobgp.appliedBGP t' = oc.Bgp_zero /\
    gobgp.appliedRoutingPolicy t' = scripted.emptyRoutingPolicy.
Proof.
  destruct (@reconcile_stop_resets_only_bgp scripted.workingEngine scripted.intendedStop
              (scripted.task scripted.workingEngine tt [] tt true (Some scripted.goodConfig)
                 scripted.appliedRunning) tt eq_refl eq_refl eq_refl)
    as [t' [E [Hs [Hc [Hb [Hr _]]]]]].
  exists t'. repeat split; assumption.
Defined.

(** C3: the code at an engine whose calls fail with a nil config set.  A
    failed update of a started task returns the error and leaves the
    snapshot nil, not the config set of the last successful pass; a failed
    start returns the error, leaves the task not started and the snapshot
    nil, not the empty config set it held. *)
Theorem reconcile_failure_loses_snapshot :
  let started :=
    scripted.task scripted.failingEngine tt [] tt true (Some scripted.goodConfig)
      scripted.appliedRunning in
  let fresh :=
    scripted.task scripted.failingEngine tt [] tt false (Some bgpconfig.BgpConfigSet_zero)
      oc.Bgp_zero in
  (fst (@gobgp.reconcile scripted.failingEngine scripted.intendedStart started)
     = Some (gobgp.ErrUpdateConfig scripted.goodConfig) /\
   gobgp.currentConfig started = Some scripted.goodConfig /\
   gobgp.currentConfig (snd (@gobgp.reconcile scripted.failingEngine scripted.intendedStart started)) = None /\
   gobgp.bgpStarted (snd (@gobgp.reconcile scripted.failingEngine scripted.intendedStart started)) = true) /\
  (fst (@gobgp.reconcile scripted.failingEngine scripted.intendedStart fresh)
     = Some (gobgp.ErrInitialConfig scripted.goodConfig) /\
   gobgp.currentConfig fresh = Some bgpconfig.BgpConfigSet_zero /\
   gobgp.currentConfig (snd (@gobgp.reconcile scripted.failingEngine scripted.intendedStart fresh)) = None /\
   gobgp.bgpStarted (snd (@gobgp.reconcile scripted.failingEngine scripted.intendedStart fresh)) = false).
Proof. cbv zeta. repeat split. Qed.

(** * Further properties of the translator *)

Section CommunitySets.

Lemma sortedKeys_NoDup {V} (m : gmap string V) : NoDup (policy.sortedKeys m).
Proof.
  unfold policy.sortedKeys. rewrite merge_sort_Permutation. apply NoDup_fst_map_to_list.
Qed.

Lemma sortedKeys_length {V} (m : gmap string V) : length (policy.sortedKeys m) = size m.
Proof.
  unfold policy.sortedKeys. rewrite merge_sort_Permutation, length_map.
  apply length_map_to_list.
Qed.

Lemma sortedKeys_StronglySorted {V} (m : gmap string V) :
  StronglySorted String.le (policy.sortedKeys m).
Proof. apply (StronglySorted_merge_sort String.le). Qed.

(** The loop of [convertCommunitySet] over any list of distinct names: the
    slice holds the converted sets in the order of the names, and the index
    map sends each name to its position. *)
Lemma convertCommunitySet_fold (occommset : gmap string oc.CommunitySet) (names : list string) :
  NoDup names ->
  let r := fold_left (policy.convertCommunitySet_step occommset) names ([], ∅) in
  fst r = map (fun name =>
                 {| gobgpoc.CommunitySetName := name;
                    gobgpoc.CommunityList :=
                      map policy.convertCommunity
                        (from_option oc.CommunitySet_CommunityMember []
                           (occommset !! name)) |}) names /\
  forall name index, snd r !! name = Some index <-> names !! index = Some name.
Proof.
  induction names as [|x names IH] using rev_ind; intros Hnd.
  - cbn. split; [reflexivity|]. intros name index. rewrite lookup_empty. split; discriminate.
  - apply NoDup_app in Hnd as [Hnd [Hx _]]. specialize (IH Hnd). cbv zeta in IH |- *.
    rewrite fold_left_app. cbn [fold_left].
    destruct (fold_left _ names _) as [commsets indexMap]. cbn [fst snd] in IH.
    destruct IH as [Hc Hi]. unfold policy.convertCommunitySet_step. cbn [fst snd].
    split.
    + rewrite map_app, Hc. reflexivity.
    + intros name index. rewrite Hc, length_map.
      destruct (decide (x = name)) as [->|Hne].
      * rewrite lookup_insert_eq. split.
        -- intros [= <-]. now rewrite lookup_app_r, Nat.sub_diag.
        -- intros Hl. f_equal.
           destruct (decide (index < length names)%nat) as [Hlt|Hge].
           ++ rewrite lookup_app_l in Hl by exact Hlt.
              exfalso. apply (Hx name); [|apply list_elem_of_here].
              apply list_elem_of_lookup. eauto.
           ++ rewrite lookup_app_r in Hl by lia.
              destruct (index - length names)%nat as [|k] eqn:Hk; [lia|].
              destruct k; discriminate.
      * rewrite lookup_insert_ne by exact Hne. rewrite Hi. split.
        -- intros Hl. now apply lookup_app_l_Some.
        -- intros Hl. destruct (decide (index < length names)%nat) as [Hlt|Hge].
           ++ now rewrite lookup_app_l in Hl.
           ++ rewrite lookup_app_r in Hl by lia.
              destruct (index - length names)%nat as [|k]; [now injection Hl|].
              destruct k; discriminate.
Qed.

(** The index map of [convertCommunitySet] has an entry for a name exactly
    when the name is at that position of the sorted names. *)
Lemma convertCommunitySet_index_position (occommset : gmap string oc.CommunitySet)
    (name : string) (index : nat) :
  snd (policy.convertCommunitySet occommset) !! name = Some index <->
  policy.sortedKeys occommset !! index = Some name.
Proof.
  unfold policy.convertCommunitySet.
  apply (convertCommunitySet_fold occommset (policy.sortedKeys occommset)
           (sortedKeys_NoDup occommset)).
Qed.

(** The slice of [convertCommunitySet] holds the converted sets in the order
    of the sorted names. *)
Lemma convertCommunitySet_slice (occommset : gmap string oc.CommunitySet) :
  fst (policy.convertCommunitySet occommset)
  = map (fun name =>
           {| gobgpoc.CommunitySetName := name;
              gobgpoc.CommunityList :=
                map policy.convertCommunity
                  (from_option oc.CommunitySet_CommunityMember [] (occommset !! name)) |})
      (policy.sortedKeys occommset).
Proof.
  unfold policy.convertCommunitySet.
  apply (convertCommunitySet_fold occommset (policy.sortedKeys occommset)
           (sortedKeys_NoDup occommset)).
Qed.

(** X1.  [convertCommunitySet] gives every community set of its input an
    index, and the slice holds at that index the set of that name with its
    members converted; a name that is not in the input has no index, and the
    slice has as many sets as the input. *)
Theorem convertCommunitySet_index_map (occommset : gmap string oc.CommunitySet) :
  length (fst (policy.convertCommunitySet occommset)) = size occommset /\
  (forall name cs,
      occommset !! name = Some cs ->
      exists index,
        snd (policy.convertCommunitySet occommset) !! name = Some index /\
        fst (policy.convertCommunitySet occommset) !! index
          = Some {| gobgpoc.CommunitySetName := name;
                    gobgpoc.CommunityList :=
                      map policy.convertCommunity (oc.CommunitySet_CommunityMember cs) |}) /\
  (forall name,
      occommset !! name = None ->
      snd (policy.convertCommunitySet occommset) !! name = None).
Proof.
  unfold policy.convertCommunitySet.
  destruct (convertCommunitySet_fold occommset (policy.sortedKeys occommset)
              (sortedKeys_NoDup occommset)) as [Hc Hi].
  split; [|split].
  - now rewrite Hc, length_map, sortedKeys_length.
  - intros name cs Hcs.
    assert (Hin : name ∈ policy.sortedKeys occommset) by (apply elem_of_sortedKeys; eauto).
    apply list_elem_of_lookup in Hin as [index Hl]. exists index.
    split; [now apply Hi|]. rewrite Hc, list_lookup_fmap, Hl. cbn. now rewrite Hcs.
  - intros name Hnone.
    destruct (snd (fold_left _ _ _) !! name) as [index|] eqn:E; [|reflexivity].
    apply Hi in E. assert (Hin : name ∈ policy.sortedKeys occommset)
      by (apply list_elem_of_lookup; eauto).
    apply elem_of_sortedKeys in Hin as [cs Hcs]. congruence.
Qed.

Lemma convertCommunitySet_index_map_witness :
  exists index,
    snd (policy.convertCommunitySet
           {[ "internal" := {| oc.CommunitySet_CommunityMember :=
                                 [oc.Community_UnionString "65001:100"];
                               oc.CommunitySet_MatchSetOptions :=
                                 oc.RoutingPolicy_MatchSetOptionsType_ANY |} ]}) !! "internal"
      = Some index /\
    fst (policy.convertCommunitySet
           {[ "internal" := {| oc.CommunitySet_CommunityMember :=
                                 [oc.Community_UnionString "65001:100"];
                               oc.CommunitySet_MatchSetOptions :=
                                 oc.RoutingPolicy_MatchSetOptionsType_ANY |} ]}) !! index
      = Some {| gobgpoc.CommunitySetName := "internal";
                gobgpoc.CommunityList := ["65001:100"] |}.
Proof.
  exact (proj1 (proj2 (convertCommunitySet_index_map _)) "internal" _
           (lookup_singleton_eq _ _)).
Defined.

(** X2.  [convertCommunitySet] emits the community sets in ascending order
    of their names, each name once. *)
Theorem convertCommunitySet_sorted (occommset : gmap string oc.CommunitySet) :
  StronglySorted String.le
    (map gobgpoc.CommunitySetName (fst (policy.convertCommunitySet occommset))) /\
  NoDup (map gobgpoc.CommunitySetName (fst (policy.convertCommunitySet occommset))) /\
  (forall name,
      name ∈ map gobgpoc.CommunitySetName (fst (policy.convertCommunitySet occommset))
      <-> is_Some (occommset !! name)).
Proof.
  unfold policy.convertCommunitySet.
  destruct (convertCommunitySet_fold occommset (policy.sortedKeys occommset)
              (sortedKeys_NoDup occommset)) as [Hc _].
  rewrite Hc, map_map. cbn. rewrite map_id.
  split; [apply sortedKeys_StronglySorted|]. split; [apply sortedKeys_NoDup|].
  intros name. apply elem_of_sortedKeys.
Qed.

(** X3.  [convertPrefixSets] emits one prefix set for each prefix set of its
    input, in ascending order of their names, and each with as many prefixes
    as the intended set has. *)
Theorem convertPrefixSets_sorted_complete (ocprefixsets : gmap string oc.PrefixSet) :
  length (policy.convertPrefixSets ocprefixsets) = size ocprefixsets /\
  StronglySorted String.le
    (map gobgpoc.PrefixSetName (policy.convertPrefixSets ocprefixsets)) /\
  NoDup (map gobgpoc.PrefixSetName (policy.convertPrefixSets ocprefixsets)) /\
  (forall name ps,
      ocprefixsets !! name = Some ps ->
      {| gobgpoc.PrefixSetName := name;
         gobgpoc.PrefixList := map policy.convertPrefix (oc.PrefixSet_Prefix ps) |}
        ∈ policy.convertPrefixSets ocprefixsets).
Proof.
  rewrite convertPrefixSets_names.
  split; [|split; [apply sortedKeys_StronglySorted|split; [apply sortedKeys_NoDup|]]].
  - unfold policy.convertPrefixSets. now rewrite length_map, sortedKeys_length.
  - intros name ps Hps. unfold policy.convertPrefixSets.
    apply list_elem_of_fmap. exists name. split.
    + now rewrite Hps.
    + apply elem_of_sortedKeys. eauto.
Qed.

Lemma convertPrefixSets_sorted_complete_witness :
  {| gobgpoc.PrefixSetName := "reject";
     gobgpoc.PrefixList :=
       [ {| gobgpoc.IpPrefix := "10.33.0.0/16"; gobgpoc.MasklengthRange := "" |} ] |}
    ∈ policy.convertPrefixSets
        {[ "reject" := {| oc.PrefixSet_Prefix := [scripted.prefix "10.33.0.0/16" "exact"] |} ]}.
Proof.
  exact (proj2 (proj2 (proj2 (convertPrefixSets_sorted_complete _))) "reject"
           {| oc.PrefixSet_Prefix := [scripted.prefix "10.33.0.0/16" "exact"] |}
           (lookup_singleton_eq _ _)).
Defined.

End CommunitySets.

Section PrefixesAndReferences.

(** X4.  No prefix that [convertPrefixSets] emits has the range "exact", and
    two intended prefixes are emitted as the same prefix exactly when they
    have the same ipPrefix and either the same range or ranges that are both
    among "exact" and the empty string. *)
Theorem convertPrefix_exact_sentinel :
  (forall ocprefixsets : gmap string oc.PrefixSet,
      Forall (fun out =>
                Forall (fun p => gobgpoc.MasklengthRange p <> "exact") (gobgpoc.PrefixList out))
             (policy.convertPrefixSets ocprefixsets)) /\
  (forall p1 p2 : oc.Prefix,
      policy.convertPrefix p1 = policy.convertPrefix p2 <->
      oc.GetString (oc.Prefix_IpPrefix p1) = oc.GetString (oc.Prefix_IpPrefix p2) /\
      (oc.GetString (oc.Prefix_MasklengthRange p1) = oc.GetString (oc.Prefix_MasklengthRange p2)
       \/ (oc.GetString (oc.Prefix_MasklengthRange p1) ∈ ["exact"; ""] /\
           oc.GetString (oc.Prefix_MasklengthRange p2) ∈ ["exact"; ""]))).
Proof.
  split.
  - intros m. unfold policy.convertPrefixSets. apply Forall_fmap, Forall_forall.
    intros name _. cbn. apply Forall_fmap, Forall_forall. intros p _. cbn.
    destruct (String.eqb_spec (oc.GetString (oc.Prefix_MasklengthRange p)) "exact");
      [discriminate | assumption].
  - intros p1 p2. unfold policy.convertPrefix.
    destruct (String.eqb_spec (oc.GetString (oc.Prefix_MasklengthRange p1)) "exact") as [E1|N1];
      destruct (String.eqb_spec (oc.GetString (oc.Prefix_MasklengthRange p2)) "exact")
        as [E2|N2]; split.
    + intros [= Hip]. split; [exact Hip|]. left. congruence.
    + intros [-> _]. reflexivity.
    + intros [= Hip Hr]. split; [exact Hip|]. right. rewrite E1, <- Hr.
      split; [apply list_elem_of_here | apply list_elem_of_further, list_elem_of_here].
    + intros [-> [Hr|[_ H2]]]; [congruence|].
      apply elem_of_cons in H2 as [H2|H2]; [contradiction|].
      apply elem_of_cons in H2 as [->|H2]; [reflexivity | inversion H2].
    + intros [= Hip Hr]. split; [exact Hip|]. right. rewrite E2, Hr.
      split; [apply list_elem_of_further, list_elem_of_here | apply list_elem_of_here].
    + intros [-> [Hr|[H1 _]]]; [congruence|].
      apply elem_of_cons in H1 as [H1|H1]; [contradiction|].
      apply elem_of_cons in H1 as [->|H1]; [reflexivity | inversion H1].
    + intros [= Hip Hr]. split; [exact Hip | now left].
    + intros [-> [->|[H1 H2]]]; [reflexivity|].
      apply elem_of_cons in H1 as [H1|H1]; [contradiction|].
      apply elem_of_cons in H1 as [->|H1]; [|inversion H1].
      apply elem_of_cons in H2 as [H2|H2]; [contradiction|].
      apply elem_of_cons in H2 as [->|H2]; [reflexivity | inversion H2].
Qed.

(** X5.  [convertSetCommunities] returns an error exactly when the action
    is by reference, the reference is not empty and the index map has no
    entry for it; the list it returns with the error is empty.  It returns
    (without panic) whenever the indexes of the map are positions of the
    slice. *)
Theorem convertSetCommunities_error_iff (setCommunity : option oc.SetCommunity)
    (convertedCommSets : list gobgpoc.CommunitySet) (commSetIndexMap : gmap string nat) :
  policy.indexesInRange convertedCommSets commSetIndexMap ->
  exists l e,
    policy.convertSetCommunities setCommunity convertedCommSets commSetIndexMap = Some (l, e) /\
    (e = Some (policy.ErrCommunitySetNotInIndexMap (policy.communitySetRefOf setCommunity)) <->
     policy.referenceUnresolved commSetIndexMap setCommunity = true) /\
    (policy.referenceUnresolved commSetIndexMap setCommunity = false -> e = None) /\
    (policy.referenceUnresolved commSetIndexMap setCommunity = true -> l = []).
Proof.
  intros Hrange. unfold policy.convertSetCommunities, policy.referenceUnresolved.
  fold (policy.communitySetRefOf setCommunity).
  destruct (from_option _ _ setCommunity);
    try (eexists _, _; split; [reflexivity|]; repeat split; congruence).
  destruct (String.eqb_spec (policy.communitySetRefOf setCommunity) "") as [Hr|Hr]; cbn [negb andb].
  { eexists _, _. split; [reflexivity|]. repeat split; congruence. }
  destruct (commSetIndexMap !! _) as [index|] eqn:Hidx.
  - apply Hrange in Hidx as Hlt. apply lookup_lt_is_Some_2 in Hlt as [cs ->].
    eexists _, _. split; [reflexivity|].
    rewrite bool_decide_eq_false_2 by discriminate. repeat split; congruence.
  - eexists _, _. split; [reflexivity|].
    rewrite bool_decide_eq_true_2 by reflexivity. repeat split; congruence.
Qed.

Lemma convertSetCommunities_error_iff_witness :
  let byReference name :=
    Some {| oc.SetCommunity_Method := oc.SetCommunity_Method_REFERENCE;
            oc.SetCommunity_Inline := None;
            oc.SetCommunity_Reference :=
              Some {| oc.Reference_CommunitySetRef := Some name |};
            oc.SetCommunity_Options := oc.BgpPolicy_BgpSetCommunityOptionType_ADD |} in
  let convertedCommSets :=
    [{| gobgpoc.CommunitySetName := "internal";
        gobgpoc.CommunityList := ["65001:100"] |}] in
  let commSetIndexMap : gmap string nat := {[ "internal" := 0%nat ]} in
  (exists l,
      policy.convertSetCommunities (byReference "internal") convertedCommSets commSetIndexMap
      = Some (l, None)) /\
  policy.convertSetCommunities (byReference "missing") convertedCommSets commSetIndexMap
  = Some ([], Some (policy.ErrCommunitySetNotInIndexMap "missing")).
Proof.
  cbv zeta.
  assert (Hrange : policy.indexesInRange
                     [{| gobgpoc.CommunitySetName := "internal";
                         gobgpoc.CommunityList := ["65001:100"] |}]
                     ({[ "internal" := 0%nat ]} : gmap string nat)).
  { apply map_Forall_singleton. cbn. lia. }
  split.
  - destruct (convertSetCommunities_error_iff
                (Some {| oc.SetCommunity_Method := oc.SetCommunity_Method_REFERENCE;
                         oc.SetCommunity_Inline := None;
                         oc.SetCommunity_Reference :=
                           Some {| oc.Reference_CommunitySetRef := Some "internal" |};
                         oc.SetCommunity_Options :=
                           oc.BgpPolicy_BgpSetCommunityOptionType_ADD |})
                _ _ Hrange) as [l [e [E [_ [Hnone _]]]]].
    exists l. rewrite E, (Hnone eq_refl). reflexivity.
  - destruct (convertSetCommunities_error_iff
                (Some {| oc.SetCommunity_Method := oc.SetCommunity_Method_REFERENCE;
                         oc.SetCommunity_Inline := None;
                         oc.SetCommunity_Reference :=
                           Some {| oc.Reference_CommunitySetRef := Some "missing" |};
                         oc.SetCommunity_Options :=
                           oc.BgpPolicy_BgpSetCommunityOptionType_ADD |})
                _ _ Hrange) as [l [e [E [Hiff [_ Hnil]]]]].
    rewrite E, (Hnil eq_refl), (proj2 Hiff eq_refl). reflexivity.
Defined.

(** X6.  After [convertCommunitySet], a set-community action by reference to
    a community set of the input resolves to the converted members of that
    set, with no error; a reference to a name that is not in the input
    yields the error and no communities. *)
Theorem convertSetCommunities_resolves_reference
    (occommset : gmap string oc.CommunitySet) (setCommunity : oc.SetCommunity) :
  oc.SetCommunity_Method setCommunity = oc.SetCommunity_Method_REFERENCE ->
  policy.communitySetRefOf (Some setCommunity) <> "" ->
  (forall cs,
      occommset !! policy.communitySetRefOf (Some setCommunity) = Some cs ->
      policy.convertSetCommunities (Some setCommunity)
        (fst (policy.convertCommunitySet occommset)) (snd (policy.convertCommunitySet occommset))
        = Some (map policy.convertCommunity (oc.CommunitySet_CommunityMember cs), None)) /\
  (occommset !! policy.communitySetRefOf (Some setCommunity) = None ->
   policy.convertSetCommunities (Some setCommunity)
     (fst (policy.convertCommunitySet occommset)) (snd (policy.convertCommunitySet occommset))
     = Some ([], Some (policy.ErrCommunitySetNotInIndexMap
                         (policy.communitySetRefOf (Some setCommunity))))).
Proof.
  intros Hm Hr. unfold policy.convertSetCommunities.
  fold (policy.communitySetRefOf (Some setCommunity)). cbn [from_option]. rewrite Hm.
  destruct (String.eqb_spec (policy.communitySetRefOf (Some setCommunity)) "");
    [contradiction|].
  split.
  - intros cs Hcs.
    assert (Hin : policy.communitySetRefOf (Some setCommunity) ∈ policy.sortedKeys occommset)
      by (apply elem_of_sortedKeys; eauto).
    apply list_elem_of_lookup in Hin as [index Hl].
    rewrite (proj2 (convertCommunitySet_index_position occommset _ index) Hl).
    rewrite convertCommunitySet_slice, list_lookup_fmap, Hl.
    cbn [fmap option_fmap option_map mbind option_bind]. rewrite Hcs. reflexivity.
  - intros Hcs.
    destruct (snd (policy.convertCommunitySet occommset)
                !! policy.communitySetRefOf (Some setCommunity)) as [index|] eqn:E;
      [|reflexivity].
    apply convertCommunitySet_index_position in E.
    assert (Hin : policy.communitySetRefOf (Some setCommunity) ∈ policy.sortedKeys occommset)
      by (apply list_elem_of_lookup; eauto).
    apply elem_of_sortedKeys in Hin as [cs Hcs']. congruence.
Qed.

Lemma convertSetCommunities_resolves_reference_witness :
  policy.convertSetCommunities
    (Some {| oc.SetCommunity_Method := oc.SetCommunity_Method_REFERENCE;
             oc.SetCommunity_Inline := None;
             oc.SetCommunity_Reference :=
               Some {| oc.Reference_CommunitySetRef := Some "missing" |};
             oc.SetCommunity_Options := oc.BgpPolicy_BgpSetCommunityOptionType_ADD |})
    (fst (policy.convertCommunitySet ∅)) (snd (policy.convertCommunitySet ∅))
    = Some ([], Some (policy.ErrCommunitySetNotInIndexMap "missing")).
Proof.
  apply (proj2 (convertSetCommunities_resolves_reference ∅
                  {| oc.SetCommunity_Method := oc.SetCommunity_Method_REFERENCE;
                     oc.SetCommunity_Inline := None;
                     oc.SetCommunity_Reference :=
                       Some {| oc.Reference_CommunitySetRef := Some "missing" |};
                     oc.SetCommunity_Options := oc.BgpPolicy_BgpSetCommunityOptionType_ADD |}
                  eq_refl ltac:(discriminate))).
  apply lookup_empty.
Defined.

End PrefixesAndReferences.

Section Degradation.
Variable SetCommunityOptions_String : oc.E_BgpPolicy_BgpSetCommunityOptionType -> string.

Lemma convertSetCommunities_result setCommunity convertedCommSets commSetIndexMap l e :
  policy.convertSetCommunities setCommunity convertedCommSets commSetIndexMap = Some (l, e) ->
  (e = None <-> policy.referenceUnresolved commSetIndexMap setCommunity = false) /\
  (policy.referenceUnresolved commSetIndexMap setCommunity = true -> l = []).
Proof.
  unfold policy.convertSetCommunities, policy.referenceUnresolved.
  fold (policy.communitySetRefOf setCommunity).
  destruct (from_option _ _ setCommunity); try (intros [= <- <-]; repeat split; congruence).
  destruct (String.eqb_spec (policy.communitySetRefOf setCommunity) ""); cbn [negb andb].
  { intros [= <- <-]. repeat split; congruence. }
  destruct (commSetIndexMap !! _) as [index|].
  - destruct (convertedCommSets !! index); [|discriminate]. intros [= <- <-].
    rewrite bool_decide_eq_false_2 by discriminate. repeat split; congruence.
  - intros [= <- <-]. rewrite bool_decide_eq_true_2 by reflexivity.
    repeat split; congruence.
Qed.

Lemma convertMED_result (med : option oc.SetMed_Union) :
  (snd (policy.convertMED med) = None <-> policy.medUnsupported med = false) /\
  (policy.medUnsupported med = true -> fst (policy.convertMED med) = "").
Proof. destruct med as [[s|n|c]|]; cbn; repeat split; congruence. Qed.

(** One round of the loop: what is logged and what is left empty. *)
Lemma convertStatement_degrades cpn neighAddr occommset ccs im statement g logs :
  policy.convertStatement SetCommunityOptions_String cpn neighAddr occommset ccs im statement
    = Some (g, logs) ->
  (logs = [] <->
   policy.referenceUnresolved im (policy.GetSetCommunity statement) = false /\
   policy.medUnsupported (policy.GetBgpActions statement ≫= oc.BgpActions_SetMed) = false) /\
  (policy.referenceUnresolved im (policy.GetSetCommunity statement) = true ->
   policy.communitiesOf g = []) /\
  (policy.medUnsupported (policy.GetBgpActions statement ≫= oc.BgpActions_SetMed) = true ->
   policy.medOf g = "").
Proof.
  unfold policy.convertStatement. intros E.
  destruct (policy.convertSetCommunities _ ccs im) as [[l e1]|] eqn:E1; [|discriminate].
  cbn in E. apply convertSetCommunities_result in E1 as [He1 Hl].
  pose proof (convertMED_result (policy.GetBgpActions statement ≫= oc.BgpActions_SetMed))
    as [He2 Hm].
  destruct (policy.convertMED _) as [setmed e2]. cbn [fst snd] in He2, Hm.
  injection E as <- <-. unfold policy.communitiesOf, policy.medOf. cbn.
  split; [|split; assumption].
  rewrite <- He1, <- He2. destruct e1, e2; cbn; split; try discriminate; try tauto.
  all: intros [? ?]; discriminate.
Qed.

(** X7.  A translation error never aborts [convertPolicyDefinition]: the
    definition it returns has a statement for every intended statement.  It
    logs nothing exactly when no statement has a set-community reference
    that the index map lacks or a MED of the enumeration; a statement with
    such a reference is emitted with no communities, one with such a MED
    with an empty MED. *)
Theorem convertPolicyDefinition_degrades
    (pol : oc.PolicyDefinition) (neighAddr : string) (occommset : gmap string oc.CommunitySet)
    (convertedCommSets : list gobgpoc.CommunitySet) (commSetIndexMap : gmap string nat)
    (pd : gobgpoc.PolicyDefinition) (logs : list policy.LogEntry) :
  policy.convertPolicyDefinition SetCommunityOptions_String pol neighAddr occommset
    convertedCommSets commSetIndexMap = Some (pd, logs) ->
  length (gobgpoc.Statements pd) = length (oc.PolicyDefinition_Statement pol) /\
  (logs = [] <->
   Forall (fun statement =>
             policy.referenceUnresolved commSetIndexMap (policy.GetSetCommunity statement)
               = false /\
             policy.medUnsupported (policy.GetBgpActions statement ≫= oc.BgpActions_SetMed)
               = false)
          (oc.PolicyDefinition_Statement pol)) /\
  (forall i statement g,
      oc.PolicyDefinition_Statement pol !! i = Some statement ->
      gobgpoc.Statements pd !! i = Some g ->
      (policy.referenceUnresolved commSetIndexMap (policy.GetSetCommunity statement) = true ->
       policy.communitiesOf g = []) /\
      (policy.medUnsupported (policy.GetBgpActions statement ≫= oc.BgpActions_SetMed) = true ->
       policy.medOf g = "")).
Proof.
  unfold policy.convertPolicyDefinition. intros E.
  destruct (policy.convertStatements _ _ _ _ _ _ _) as [[sts l]|] eqn:E1; [|discriminate].
  cbn in E. injection E as <- <-. cbn [gobgpoc.Statements].
  revert sts l E1.
  generalize (policy.convertPolicyName neighAddr
                (oc.GetString (oc.PolicyDefinition_Name pol))) as cpn.
  intros cpn. induction (oc.PolicyDefinition_Statement pol) as [|st rest IH];
    intros sts l E1; cbn in E1.
  - injection E1 as <- <-. split; [reflexivity|]. split.
    + split; [constructor | reflexivity].
    + intros i statement g Hs. destruct i; discriminate.
  - destruct (policy.convertStatement _ _ _ _ _ _ st) as [[g0 l1]|] eqn:E0; [|discriminate].
    cbn in E1.
    destruct (policy.convertStatements _ _ _ _ _ _ rest) as [[sts' l2]|] eqn:E2;
      [|discriminate].
    cbn in E1. injection E1 as <- <-.
    destruct (IH _ _ eq_refl) as [Hlen [Hlogs Hdeg]].
    apply convertStatement_degrades in E0 as [Hl1 Hd0].
    split; [cbn; now rewrite Hlen|]. split.
    + rewrite Forall_cons, <- Hl1, <- Hlogs. split.
      * intros Happ. now apply app_eq_nil in Happ.
      * intros [-> ->]. reflexivity.
    + intros [|i] statement g Hs Hg; cbn in Hs, Hg.
      * injection Hs as <-. injection Hg as <-. exact Hd0.
      * now apply (Hdeg i).
Qed.

End Degradation.

Lemma convertPolicyDefinition_degrades_witness :
  exists pd logs,
    policy.convertPolicyDefinition scripted.SetCommunityOptions_String
      (scripted.policyNamed "p" [scripted.statementWithMedIGP "s"]) "10.0.0.1" ∅ [] ∅
      = Some (pd, logs) /\
    length (gobgpoc.Statements pd) = 1%nat /\
    logs <> [] /\
    (forall g, gobgpoc.Statements pd !! 0%nat = Some g -> policy.medOf g = "").
Proof.
  eexists _, _. split; [reflexivity|].
  destruct (convertPolicyDefinition_degrades scripted.SetCommunityOptions_String
              (scripted.policyNamed "p" [scripted.statementWithMedIGP "s"])
              "10.0.0.1" ∅ [] ∅ _ _ eq_refl)
    as [Hlen [Hlogs Hdeg]].
  split; [exact Hlen|]. split.
  - intros Hnil. apply Hlogs in Hnil. inversion Hnil as [|? ? [_ Hmed] _]. discriminate Hmed.
  - intros g Hg. now apply (Hdeg 0%nat (scripted.statementWithMedIGP "s") g).
Defined.

Section EnumerationsAndApplyPolicy.

(** X8.  The enumeration translators only emit values of the engine's
    enumerations: a match-set option becomes "any", "all" or "invert", and
    "any" unless it is ALL or INVERT; a restricted one becomes "any" or
    "invert", never "all", and "any" unless it is INVERT; a policy result
    becomes "accept-route" or "reject-route" only for ACCEPT_ROUTE and
    REJECT_ROUTE, and "none" otherwise. *)
Theorem enumeration_translators_total :
  (forall o : oc.E_RoutingPolicy_MatchSetOptionsType,
      policy.convertMatchSetOptionsType o
        ∈ [gobgpoc.MATCH_SET_OPTIONS_TYPE_ANY; gobgpoc.MATCH_SET_OPTIONS_TYPE_ALL;
           gobgpoc.MATCH_SET_OPTIONS_TYPE_INVERT] /\
      (o <> oc.RoutingPolicy_MatchSetOptionsType_ALL ->
       o <> oc.RoutingPolicy_MatchSetOptionsType_INVERT ->
       policy.convertMatchSetOptionsType o = gobgpoc.MATCH_SET_OPTIONS_TYPE_ANY)) /\
  (forall o : oc.E_RoutingPolicy_MatchSetOptionsRestrictedType,
      policy.convertMatchSetOptionsRestrictedType o
        ∈ [gobgpoc.MATCH_SET_OPTIONS_RESTRICTED_TYPE_ANY;
           gobgpoc.MATCH_SET_OPTIONS_RESTRICTED_TYPE_INVERT] /\
      (o <> oc.RoutingPolicy_MatchSetOptionsRestrictedType_INVERT ->
       policy.convertMatchSetOptionsRestrictedType o
         = gobgpoc.MATCH_SET_OPTIONS_RESTRICTED_TYPE_ANY)) /\
  (forall r : oc.E_RoutingPolicy_PolicyResultType,
      (policy.convertRouteDisposition r = gobgpoc.ROUTE_DISPOSITION_ACCEPT_ROUTE <->
       r = oc.RoutingPolicy_PolicyResultType_ACCEPT_ROUTE) /\
      (policy.convertRouteDisposition r = gobgpoc.ROUTE_DISPOSITION_REJECT_ROUTE <->
       r = oc.RoutingPolicy_PolicyResultType_REJECT_ROUTE) /\
      (r <> oc.RoutingPolicy_PolicyResultType_ACCEPT_ROUTE ->
       r <> oc.RoutingPolicy_PolicyResultType_REJECT_ROUTE ->
       policy.convertRouteDisposition r = gobgpoc.ROUTE_DISPOSITION_NONE)).
Proof.
  split; [|split].
  - intros o. split.
    + destruct o; cbn; repeat (first [apply list_elem_of_here | apply list_elem_of_further]).
    + intros Hall Hinv. destruct o; try contradiction; reflexivity.
  - intros o. split.
    + destruct o; cbn; repeat (first [apply list_elem_of_here | apply list_elem_of_further]).
    + intros Hinv. destruct o; try contradiction; reflexivity.
  - intros r. destruct r; cbn; repeat split; intros; try discriminate; try contradiction;
      reflexivity.
Qed.

Lemma enumeration_translators_total_witness :
  policy.convertMatchSetOptionsType oc.RoutingPolicy_MatchSetOptionsType_UNSET
    = gobgpoc.MATCH_SET_OPTIONS_TYPE_ANY /\
  policy.convertMatchSetOptionsRestrictedType
    (oc.RoutingPolicy_MatchSetOptionsRestrictedType_other 3)
    = gobgpoc.MATCH_SET_OPTIONS_RESTRICTED_TYPE_ANY /\
  policy.convertRouteDisposition oc.RoutingPolicy_PolicyResultType_UNSET
    = gobgpoc.ROUTE_DISPOSITION_NONE.
Proof.
  split; [|split].
  - apply (proj1 enumeration_translators_total); discriminate.
  - apply (proj1 (proj2 enumeration_translators_total)); discriminate.
  - apply (proj2 (proj2 enumeration_translators_total)); discriminate.
Defined.

(** X9.  [convertNeighborApplyPolicy] gives a neighbour without an
    apply-policy container the default "reject-route" in both directions and
    no policies; for any neighbour a default is "accept-route" only when the
    intended default is ACCEPT_ROUTE, and the import and export policy lists
    are those of the neighbour. *)
Theorem convertNeighborApplyPolicy_defaults (neigh : oc.Neighbor) :
  let cfg := gobgpoc.ApplyPolicy_Config (policy.convertNeighborApplyPolicy neigh) in
  (oc.Neighbor_ApplyPolicy neigh = None ->
   cfg = {| gobgpoc.DefaultImportPolicy := gobgpoc.DEFAULT_POLICY_TYPE_REJECT_ROUTE;
            gobgpoc.DefaultExportPolicy := gobgpoc.DEFAULT_POLICY_TYPE_REJECT_ROUTE;
            gobgpoc.ImportPolicyList := [];
            gobgpoc.ExportPolicyList := [] |}) /\
  (gobgpoc.DefaultImportPolicy cfg = gobgpoc.DEFAULT_POLICY_TYPE_ACCEPT_ROUTE <->
   oc.ApplyPolicy_DefaultImportPolicy <$> oc.Neighbor_ApplyPolicy neigh
     = Some oc.RoutingPolicy_DefaultPolicyType_ACCEPT_ROUTE) /\
  (gobgpoc.DefaultExportPolicy cfg = gobgpoc.DEFAULT_POLICY_TYPE_ACCEPT_ROUTE <->
   oc.ApplyPolicy_DefaultExportPolicy <$> oc.Neighbor_ApplyPolicy neigh
     = Some oc.RoutingPolicy_DefaultPolicyType_ACCEPT_ROUTE) /\
  (forall ap, oc.Neighbor_ApplyPolicy neigh = Some ap ->
     gobgpoc.ImportPolicyList cfg = oc.ApplyPolicy_ImportPolicy ap /\
     gobgpoc.ExportPolicyList cfg = oc.ApplyPolicy_ExportPolicy ap).
Proof.
  cbv zeta. unfold policy.convertNeighborApplyPolicy. cbn.
  destruct (oc.Neighbor_ApplyPolicy neigh) as [ap|]; cbn.
  - split; [discriminate|]. rewrite !convertDefaultPolicy_cases.
    split; [|split].
    + split; [intros ->; reflexivity | now intros [= ->]].
    + split; [intros ->; reflexivity | now intros [= ->]].
    + intros ap' [= <-]. split; reflexivity.
  - split; [reflexivity|]. repeat split; discriminate.
Qed.

Lemma convertNeighborApplyPolicy_defaults_witness :
  gobgpoc.ApplyPolicy_Config
    (policy.convertNeighborApplyPolicy (scripted.neighbor "10.0.0.2" 65002))
  = {| gobgpoc.DefaultImportPolicy := gobgpoc.DEFAULT_POLICY_TYPE_REJECT_ROUTE;
       gobgpoc.DefaultExportPolicy := gobgpoc.DEFAULT_POLICY_TYPE_REJECT_ROUTE;
       gobgpoc.ImportPolicyList := [];
       gobgpoc.ExportPolicyList := [] |}.
Proof.
  exact (proj1 (convertNeighborApplyPolicy_defaults (scripted.neighbor "10.0.0.2" 65002))
           eq_refl).
Defined.

End EnumerationsAndApplyPolicy.

Section CommunitiesToOC.

Lemma FormatUint_inj (a b : Z) :
  0 <= a -> 0 <= b -> GoString.FormatUint a = GoString.FormatUint b -> a = b.
Proof.
  unfold GoString.FormatUint. intros Ha Hb E.
  apply (f_equal NilEmpty.uint_of_string) in E. rewrite !NilEmpty.usu in E.
  injection E as E. apply DecimalN.Unsigned.to_uint_inj in E. lia.
Qed.

Lemma FormatUint_no_colon (a : Z) : GoString.contains ":" (GoString.FormatUint a) = false.
Proof.
  unfold GoString.FormatUint. generalize (N.to_uint (Z.to_N a)) as d.
  induction d as [|d IH|d IH|d IH|d IH|d IH|d IH|d IH|d IH|d IH|d IH]; [reflexivity|..];
    exact IH.
Qed.

Lemma high16_low16 (y : Z) :
  0 <= y -> y = Z.shiftr y 16 * 65536 + Z.land y 65535 /\
             0 <= Z.shiftr y 16 /\ 0 <= Z.land y 65535 < 65536.
Proof.
  intros Hy. rewrite Z.shiftr_div_pow2 by lia.
  change 65535 with (Z.ones 16). rewrite Z.land_ones by lia.
  change (2 ^ 16) with 65536.
  pose proof (Z.div_mod y 65536). pose proof (Z.mod_pos_bound y 65536).
  assert (0 <= y / 65536) by (apply Z.div_pos; lia). lia.
Qed.

(** X10.  [convertCommunityOC] writes a community as the decimal of its
    upper 16 bits, a colon and the decimal of its lower 16 bits, and sends
    different communities to different strings; [communitiesToOC] does so
    for each community of a list, in order. *)
Theorem convertCommunityOC_injective :
  (forall y : Z,
      0 <= y < 2 ^ 32 ->
      GoString.cut ":" (policy.convertCommunityOC y)
        = Some (GoString.FormatUint (y / 65536), GoString.FormatUint (y mod 65536))) /\
  (forall y1 y2 : Z,
      0 <= y1 < 2 ^ 32 -> 0 <= y2 < 2 ^ 32 ->
      policy.convertCommunityOC y1 = policy.convertCommunityOC y2 -> y1 = y2) /\
  (forall l1 l2 : list Z,
      Forall (fun y => 0 <= y < 2 ^ 32) l1 -> Forall (fun y => 0 <= y < 2 ^ 32) l2 ->
      policy.communitiesToOC l1 = policy.communitiesToOC l2 -> l1 = l2).
Proof.
  assert (Hcut : forall y, 0 <= y ->
            GoString.cut ":" (policy.convertCommunityOC y)
            = Some (GoString.FormatUint (Z.shiftr y 16), GoString.FormatUint (Z.land y 65535))).
  { intros y Hy. unfold policy.convertCommunityOC.
    apply (cut_append ":"). apply FormatUint_no_colon. }
  assert (Hinj : forall y1 y2, 0 <= y1 -> 0 <= y2 ->
            policy.convertCommunityOC y1 = policy.convertCommunityOC y2 -> y1 = y2).
  { intros y1 y2 H1 H2 E. apply (f_equal (GoString.cut ":")) in E.
    rewrite !Hcut in E by assumption. injection E as Eh El.
    destruct (high16_low16 y1 H1) as [D1 [Hh1 Hl1]].
    destruct (high16_low16 y2 H2) as [D2 [Hh2 Hl2]].
    apply FormatUint_inj in Eh; [|assumption..].
    apply FormatUint_inj in El; [|lia..]. lia. }
  split; [|split].
  - intros y Hy. rewrite Hcut by lia.
    rewrite Z.shiftr_div_pow2 by lia. change 65535 with (Z.ones 16).
    rewrite Z.land_ones by lia. reflexivity.
  - intros y1 y2 H1 H2. apply Hinj; lia.
  - intros l1. induction l1 as [|y1 l1 IH]; intros [|y2 l2] F1 F2 E; try discriminate.
    + reflexivity.
    + cbn in E. injection E as Ey El.
      apply Forall_cons in F1 as [H1 F1]. apply Forall_cons in F2 as [H2 F2].
      f_equal; [apply Hinj; [lia..|exact Ey] | now apply IH].
Qed.

Lemma convertCommunityOC_injective_witness :
  GoString.cut ":" (policy.convertCommunityOC 4294967041) = Some ("65535", "65281") /\
  65537 = 65537.
Proof.
  split.
  - exact (proj1 convertCommunityOC_injective 4294967041 ltac:(lia)).
  - exact (proj1 (proj2 convertCommunityOC_injective) 65537 65537 ltac:(lia) ltac:(lia)
             eq_refl).
Defined.

End CommunitiesToOC.

(** * Further properties of the task *)

Section ConfigNeighbors.

(** X11.  [intendedToGoBGP] emits one neighbour for each intended neighbour:
    the addresses of the emitted neighbours are the keys of the intended
    neighbour map, each once, and every emitted neighbour carries the
    peer-AS of the record at its address, the same in its config and in its
    state part. *)
Theorem intendedToGoBGP_one_neighbor_each (bgpoc : oc.Bgp) (zapiURL : string)
    (listenPort : Z) :
  let neighbors := bgpconfig.Neighbors (gobgp.intendedToGoBGP bgpoc zapiURL listenPort) in
  length neighbors = size (oc.Bgp_Neighbor bgpoc) /\
  NoDup (map (fun n => bgpconfig.NeighborConfig_NeighborAddress (bgpconfig.Neighbor_Config n))
             neighbors) /\
  (forall addr,
      addr ∈ map (fun n => bgpconfig.NeighborConfig_NeighborAddress
                             (bgpconfig.Neighbor_Config n)) neighbors
      <-> is_Some (oc.Bgp_Neighbor bgpoc !! addr)) /\
  Forall (fun n =>
            exists neigh,
              oc.Bgp_Neighbor bgpoc
                !! bgpconfig.NeighborConfig_NeighborAddress (bgpconfig.Neighbor_Config n)
                = Some neigh /\
              bgpconfig.NeighborConfig_PeerAs (bgpconfig.Neighbor_Config n)
                = oc.GetPeerAs neigh /\
              bgpconfig.NeighborState_PeerAs (bgpconfig.Neighbor_State n)
                = oc.GetPeerAs neigh /\
              bgpconfig.NeighborState_NeighborAddress (bgpconfig.Neighbor_State n)
                = bgpconfig.NeighborConfig_NeighborAddress (bgpconfig.Neighbor_Config n))
         neighbors.
Proof.
  cbv zeta. rewrite intendedToGoBGP_neighbors.
  split; [|split; [apply NoDup_fst_map_to_list|split]].
  - unfold gobgp.intendedToGoBGP. cbn. rewrite length_map. apply length_map_to_list.
  - intros addr. rewrite list_elem_of_fmap. split.
    + intros [[a n] [-> Hin]]. apply elem_of_map_to_list in Hin. eauto.
    + intros [n Hn]. exists (addr, n). split; [reflexivity|]. now apply elem_of_map_to_list.
  - unfold gobgp.intendedToGoBGP. cbn. apply Forall_fmap, Forall_forall.
    intros [addr neigh] Hin. apply elem_of_map_to_list in Hin. cbn. eauto.
Qed.

End ConfigNeighbors.

Section Publishing.
Context `{gobgp.Collaborators}.

Lemma updateAppliedStateHelper_log (sub : gobgp.Subtree) (t : gobgp.bgpDeclTask) :
  gobgp.glog (gobgp.updateAppliedStateHelper sub t)
    = gobgp.glog t
      ++ from_option (fun e => [gobgp.LogFailedToUpdateState sub e]) []
           (snd (gobgp.Replace (gobgp.yclient t) sub)).
Proof.
  unfold gobgp.updateAppliedStateHelper.
  destruct (gobgp.Replace (gobgp.yclient t) sub) as [c [e|]]; cbn; [reflexivity|].
  now rewrite app_nil_r.
Qed.

(** After a successful mutator [updateAppliedState] returns no error, has
    made the two [Replace] calls in order, and has kept the applied tree,
    the snapshot and the started flag as the mutator left them. *)
Lemma updateAppliedState_after_mutator (f : gobgp.mutator) (t t1 : gobgp.bgpDeclTask) :
  f t = (None, t1) ->
  fst (gobgp.updateAppliedState f t) = None /\
  gobgp.yclient (snd (gobgp.updateAppliedState f t))
    = fst (gobgp.Replace
             (fst (gobgp.Replace (gobgp.yclient t1)
                     (gobgp.AtBGPStatePath (gobgp.appliedBGP t1))))
             (gobgp.AtRoutingPolicyStatePath (gobgp.appliedRoutingPolicy t1))) /\
  gobgp.appliedState (snd (gobgp.updateAppliedState f t)) = gobgp.appliedState t1 /\
  gobgp.currentConfig (snd (gobgp.updateAppliedState f t)) = gobgp.currentConfig t1 /\
  gobgp.bgpStarted (snd (gobgp.updateAppliedState f t)) = gobgp.bgpStarted t1.
Proof.
  intros Hf. unfold gobgp.updateAppliedState. rewrite Hf. cbn [fst snd].
  set (t2 := gobgp.updateAppliedStateHelper (gobgp.AtBGPStatePath (gobgp.appliedBGP t1)) t1).
  destruct (updateAppliedStateHelper_frame (gobgp.AtBGPStatePath (gobgp.appliedBGP t1)) t1)
    as [Ha [Hc [Hs [_ [Hy _]]]]].
  fold t2 in Ha, Hc, Hs, Hy.
  assert (Hrp : gobgp.appliedRoutingPolicy t2 = gobgp.appliedRoutingPolicy t1)
    by (unfold gobgp.appliedRoutingPolicy; now rewrite Ha).
  destruct (updateAppliedStateHelper_frame
              (gobgp.AtRoutingPolicyStatePath (gobgp.appliedRoutingPolicy t2)) t2)
    as [Ha2 [Hc2 [Hs2 [_ [Hy2 _]]]]].
  rewrite Ha2, Hc2, Hs2, Hy2, Ha, Hc, Hs, Hy, Hrp. repeat split.
Qed.

(** X12.  A failure of the central cache is logged and not returned: after
    a successful mutator [updateAppliedState] returns no error whatever the
    two [Replace] calls answer, the second call is made on the cache the
    first one left, and the log grows by one line for each call that
    failed, in the order of the calls. *)
Theorem updateAppliedState_swallows_cache_errors (f : gobgp.mutator)
    (t t1 : gobgp.bgpDeclTask) :
  f t = (None, t1) ->
  let r1 := gobgp.Replace (gobgp.yclient t1) (gobgp.AtBGPStatePath (gobgp.appliedBGP t1)) in
  let r2 := gobgp.Replace (fst r1)
              (gobgp.AtRoutingPolicyStatePath (gobgp.appliedRoutingPolicy t1)) in
  fst (gobgp.updateAppliedState f t) = None /\
  gobgp.yclient (snd (gobgp.updateAppliedState f t)) = fst r2 /\
  gobgp.glog (snd (gobgp.updateAppliedState f t))
    = gobgp.glog t1
      ++ from_option
           (fun e => [gobgp.LogFailedToUpdateState
                        (gobgp.AtBGPStatePath (gobgp.appliedBGP t1)) e]) [] (snd r1)
      ++ from_option
           (fun e => [gobgp.LogFailedToUpdateState
                        (gobgp.AtRoutingPolicyStatePath (gobgp.appliedRoutingPolicy t1)) e])
           [] (snd r2).
Proof.
  intros Hf. cbv zeta. unfold gobgp.updateAppliedState. rewrite Hf. cbn [fst snd].
  set (t2 := gobgp.updateAppliedStateHelper (gobgp.AtBGPStatePath (gobgp.appliedBGP t1)) t1).
  destruct (updateAppliedStateHelper_frame (gobgp.AtBGPStatePath (gobgp.appliedBGP t1)) t1)
    as [Ha [_ [_ [_ [Hy _]]]]].
  fold t2 in Ha, Hy.
  assert (Hrp : gobgp.appliedRoutingPolicy t2 = gobgp.appliedRoutingPolicy t1)
    by (unfold gobgp.appliedRoutingPolicy; now rewrite Ha).
  destruct (updateAppliedStateHelper_frame
              (gobgp.AtRoutingPolicyStatePath (gobgp.appliedRoutingPolicy t2)) t2)
    as [_ [_ [_ [_ [Hy2 _]]]]].
  split; [reflexivity|]. split.
  - now rewrite Hy2, Hy, Hrp.
  - rewrite updateAppliedStateHelper_log. unfold t2 at 1.
    rewrite updateAppliedStateHelper_log, Hy, Hrp, <- app_assoc. reflexivity.
Qed.

End Publishing.

Lemma updateAppliedState_swallows_cache_errors_witness :
  let t := scripted.task scripted.refusingCache tt [] tt false None oc.Bgp_zero in
  fst (@gobgp.updateAppliedState scripted.refusingCache (fun t => (None, t)) t) = None /\
  length (gobgp.glog
            (snd (@gobgp.updateAppliedState scripted.refusingCache (fun t => (None, t)) t)))
    = 2%nat.
Proof.
  cbv zeta.
  destruct (@updateAppliedState_swallows_cache_errors scripted.refusingCache
              (fun t => (None, t))
              (scripted.task scripted.refusingCache tt [] tt false None oc.Bgp_zero)
              _ eq_refl) as [Herr [_ Hlog]].
  split; [exact Herr|]. rewrite Hlog. reflexivity.
Defined.

Section ReconcileMachine.
Context `{gobgp.Collaborators}.

(** [reconcile] does not publish: the central cache, the log and the applied
    routing-policy sub-tree are as before. *)
Lemma reconcile_does_not_publish (intended : oc.Root gobgp.RootOther)
    (t : gobgp.bgpDeclTask) :
  gobgp.appliedRoutingPolicy (snd (gobgp.reconcile intended t))
    = gobgp.appliedRoutingPolicy t /\
  gobgp.yclient (snd (gobgp.reconcile intended t)) = gobgp.yclient t /\
  gobgp.glog (snd (gobgp.reconcile intended t)) = gobgp.glog t.
Proof.
  unfold gobgp.reconcile.
  destruct (bool_decide _ && bool_decide _); destruct (gobgp.bgpStarted t); cbn [negb andb].
  - destruct (gobgp.UpdateConfig _ _ _ _) as [[[cfg [e|]] b] srv]; cbn; repeat split.
  - destruct (gobgp.InitialConfig _ _ _ _) as [[[cfg [e|]] b] srv]; cbn; repeat split.
  - destruct (gobgp.StopBgp _) as [[e|] srv]; cbn; repeat split.
  - cbn. repeat split.
Qed.

(** X13.  Whatever branch it takes and whether it fails or not,
    [reconcile] writes nothing but the server, the snapshot, the started
    flag and the applied BGP sub-tree: the applied routing-policy sub-tree,
    the rest of the applied tree, the central cache, the log, the zebra URL
    and the listen port are as before. *)
Theorem reconcile_frame (intended : oc.Root gobgp.RootOther) (t : gobgp.bgpDeclTask) :
  let t' := snd (gobgp.reconcile intended t) in
  gobgp.appliedRoutingPolicy t' = gobgp.appliedRoutingPolicy t /\
  oc.Root_Other (gobgp.appliedState t') = oc.Root_Other (gobgp.appliedState t) /\
  gobgp.yclient t' = gobgp.yclient t /\
  gobgp.glog t' = gobgp.glog t /\
  gobgp.zapiURL t' = gobgp.zapiURL t /\
  gobgp.listenPort t' = gobgp.listenPort t.
Proof.
  cbv zeta. unfold gobgp.reconcile.
  destruct (bool_decide _ && bool_decide _); destruct (gobgp.bgpStarted t); cbn [negb andb].
  - destruct (gobgp.UpdateConfig _ _ _ _) as [[[cfg [e|]] b] srv]; cbn; repeat split.
  - destruct (gobgp.InitialConfig _ _ _ _) as [[[cfg [e|]] b] srv]; cbn; repeat split.
  - destruct (gobgp.StopBgp _) as [[e|] srv]; cbn; repeat split.
  - cbn. repeat split.
Qed.

(** X14.  A pass of [reconcile] that returns an error leaves the started
    flag as it was; a pass that returns no error leaves the task started
    exactly when the intended tree has both an AS and a router-id. *)
Theorem reconcile_started_flag (intended : oc.Root gobgp.RootOther)
    (t t' : gobgp.bgpDeclTask) :
  (forall e, gobgp.reconcile intended t = (Some e, t') ->
             gobgp.bgpStarted t' = gobgp.bgpStarted t) /\
  (gobgp.reconcile intended t = (None, t') ->
   gobgp.bgpStarted t' = gobgp.bgpShouldStart intended).
Proof.
  unfold gobgp.reconcile, gobgp.bgpShouldStart.
  destruct (bool_decide _ && bool_decide _); destruct (gobgp.bgpStarted t) eqn:Hs;
    cbn [negb andb].
  - destruct (gobgp.UpdateConfig _ _ _ _) as [[[cfg [e|]] b] srv];
      split; intros; simplify_eq; cbn; assumption.
  - destruct (gobgp.InitialConfig _ _ _ _) as [[[cfg [e|]] b] srv];
      split; intros; simplify_eq; cbn; (assumption || reflexivity).
  - destruct (gobgp.StopBgp _) as [[e|] srv];
      split; intros; simplify_eq; cbn; (assumption || reflexivity).
  - split; intros; simplify_eq; assumption.
Qed.

(** X15.  When the engine refuses to stop, [reconcile] returns its
    stop error and touches nothing but the server: the task stays started,
    with its snapshot and its applied tree, so that the next pass tries
    again. *)
Theorem reconcile_failed_stop_keeps_state (intended : oc.Root gobgp.RootOther)
    (t : gobgp.bgpDeclTask) (e : gobgp.error) (srv : gobgp.Server) :
  gobgp.bgpStarted t = true ->
  gobgp.bgpShouldStart intended = false ->
  gobgp.StopBgp (gobgp.bgpServer t) = (Some e, srv) ->
  gobgp.reconcile intended t = (Some gobgp.ErrStopBgp, gobgp.set_bgpServer srv t) /\
  gobgp.bgpStarted (gobgp.set_bgpServer srv t) = true /\
  gobgp.currentConfig (gobgp.set_bgpServer srv t) = gobgp.currentConfig t /\
  gobgp.appliedState (gobgp.set_bgpServer srv t) = gobgp.appliedState t.
Proof.
  intros Hstarted Hshould Hstop. unfold gobgp.reconcile.
  unfold gobgp.bgpShouldStart in Hshould. rewrite Hshould, Hstarted. cbn [negb andb].
  rewrite Hstop. repeat split. exact Hstarted.
Qed.

(** X16.  A pass on a task that is not started, for an intended tree that
    lacks the AS or the router-id, returns no error and the task as it was;
    so after a pass that stopped BGP, a second pass for the same intended
    tree changes nothing. *)
Theorem reconcile_idle_is_noop (intended : oc.Root gobgp.RootOther) (t : gobgp.bgpDeclTask) :
  gobgp.bgpShouldStart intended = false ->
  (gobgp.bgpStarted t = false -> gobgp.reconcile intended t = (None, t)) /\
  (forall t', gobgp.bgpStarted t = true ->
              gobgp.reconcile intended t = (None, t') ->
              gobgp.reconcile intended t' = (None, t')).
Proof.
  intros Hshould.
  assert (Hidle : forall u, gobgp.bgpStarted u = false -> gobgp.reconcile intended u = (None, u)).
  { intros u Hu. unfold gobgp.reconcile. unfold gobgp.bgpShouldStart in Hshould.
    rewrite Hshould, Hu. reflexivity. }
  split; [apply Hidle|].
  intros t' Hstarted E. apply Hidle.
  unfold gobgp.reconcile in E. unfold gobgp.bgpShouldStart in Hshould.
  rewrite Hshould, Hstarted in E. cbn [negb andb] in E.
  destruct (gobgp.StopBgp _) as [[e|] srv]; simplify_eq. reflexivity.
Qed.

(** X17.  The watch callback publishes nothing when the pass fails: the
    central cache and the log are as before.  When the pass succeeds the
    cache receives the applied BGP sub-tree as the pass left it and then
    the applied routing-policy sub-tree, which the pass has not changed. *)
Theorem onIntended_publishes_only_on_success (intended : oc.Root gobgp.RootOther)
    (t : gobgp.bgpDeclTask) :
  (is_Some (fst (gobgp.reconcile intended t)) ->
   gobgp.yclient (gobgp.onIntended intended t) = gobgp.yclient t /\
   gobgp.glog (gobgp.onIntended intended t) = gobgp.glog t) /\
  (fst (gobgp.reconcile intended t) = None ->
   gobgp.yclient (gobgp.onIntended intended t)
   = fst (gobgp.Replace
            (fst (gobgp.Replace (gobgp.yclient t)
                    (gobgp.AtBGPStatePath
                       (gobgp.appliedBGP (snd (gobgp.reconcile intended t))))))
            (gobgp.AtRoutingPolicyStatePath (gobgp.appliedRoutingPolicy t)))).
Proof.
  destruct (reconcile_does_not_publish intended t) as [Hrp [Hy Hl]].
  unfold gobgp.onIntended. split.
  - intros [e He]. unfold gobgp.updateAppliedState.
    destruct (gobgp.reconcile intended t) as [e' t1]. cbn [fst snd] in *. subst e'.
    cbn. split; assumption.
  - intros He. destruct (gobgp.reconcile intended t) as [e' t1] eqn:E.
    cbn [fst snd] in *. subst e'.
    destruct (updateAppliedState_after_mutator (gobgp.reconcile intended) t t1 E)
      as [_ [Hc _]].
    rewrite Hc, Hy, Hrp. reflexivity.
Qed.

End ReconcileMachine.

Lemma reconcile_started_flag_witness :
  gobgp.bgpStarted
    (snd (@gobgp.reconcile scripted.failingEngine scripted.intendedStart
            (scripted.task scripted.failingEngine tt [] tt false None oc.Bgp_zero)))
    = false /\
  gobgp.bgpStarted
    (snd (@gobgp.reconcile scripted.workingEngine scripted.intendedStart
            (scripted.task scripted.workingEngine tt [] tt false None oc.Bgp_zero)))
    = true.
Proof.
  split.
  - exact (proj1 (@reconcile_started_flag scripted.failingEngine scripted.intendedStart
                    (scripted.task scripted.failingEngine tt [] tt false None oc.Bgp_zero) _)
             _ eq_refl).
  - exact (proj2 (@reconcile_started_flag scripted.workingEngine scripted.intendedStart
                    (scripted.task scripted.workingEngine tt [] tt false None oc.Bgp_zero) _)
             eq_refl).
Defined.

Lemma reconcile_failed_stop_keeps_state_witness :
  let t := scripted.task scripted.unstoppableEngine tt [] tt true (Some scripted.goodConfig)
             scripted.appliedRunning in
  @gobgp.reconcile scripted.unstoppableEngine scripted.intendedStop t
    = (Some gobgp.ErrStopBgp, t).
Proof.
  exact (proj1 (@reconcile_failed_stop_keeps_state scripted.unstoppableEngine
                  scripted.intendedStop
                  (scripted.task scripted.unstoppableEngine tt [] tt true
                     (Some scripted.goodConfig) scripted.appliedRunning)
                  (gobgp.ErrExternal "stop refused") tt eq_refl eq_refl eq_refl)).
Defined.

Lemma reconcile_idle_is_noop_witness :
  @gobgp.reconcile scripted.workingEngine scripted.intendedStop scripted.idleTask
    = (None, scripted.idleTask) /\
  (forall t',
      @gobgp.reconcile scripted.workingEngine scripted.intendedStop
        (scripted.task scripted.workingEngine tt [] tt true (Some scripted.goodConfig)
           scripted.appliedRunning) = (None, t') ->
      @gobgp.reconcile scripted.workingEngine scripted.intendedStop t' = (None, t')).
Proof.
  split.
  - exact (proj1 (@reconcile_idle_is_noop scripted.workingEngine scripted.intendedStop
                    scripted.idleTask eq_refl) eq_refl).
  - intros t'.
    exact (proj2 (@reconcile_idle_is_noop scripted.workingEngine scripted.intendedStop
                    (scripted.task scripted.workingEngine tt [] tt true
                       (Some scripted.goodConfig) scripted.appliedRunning) eq_refl)
             t' eq_refl).
Defined.

Lemma onIntended_publishes_only_on_success_witness :
  gobgp.yclient
    (@gobgp.onIntended scripted.failingEngine scripted.intendedStart
       (scripted.task scripted.failingEngine tt [] tt false None oc.Bgp_zero)) = [] /\
  length (gobgp.yclient
            (@gobgp.onIntended scripted.workingEngine scripted.intendedStart
               (scripted.task scripted.workingEngine tt [] tt false None oc.Bgp_zero)))
    = 2%nat.
Proof.
  split.
  - exact (proj1 (proj1 (@onIntended_publishes_only_on_success scripted.failingEngine
                           scripted.intendedStart
                           (scripted.task scripted.failingEngine tt [] tt false None
                              oc.Bgp_zero))
                    (ex_intro _ _ eq_refl))).
  - rewrite (proj2 (@onIntended_publishes_only_on_success scripted.workingEngine
                      scripted.intendedStart
                      (scripted.task scripted.workingEngine tt [] tt false None oc.Bgp_zero))
               eq_refl).
    reflexivity.
Defined.

Section PeerEventFrame.
Context `{gobgp.Collaborators}.

Lemma store_SessionState_lookup_ne (addr a : string) s (b : oc.Bgp) :
  addr <> a ->
  oc.Bgp_Neighbor (gobgp.store_SessionState addr s b) !! a = oc.Bgp_Neighbor b !! a.
Proof. intros Hne. cbn. now apply lookup_alter_ne. Qed.

Lemma GetOrCreateNeighbor_lookup_ne (b : oc.Bgp) (addr a : string) :
  addr <> a ->
  oc.Bgp_Neighbor (fst (oc.GetOrCreateNeighbor b addr)) !! a = oc.Bgp_Neighbor b !! a.
Proof.
  intros Hne. unfold oc.GetOrCreateNeighbor.
  destruct (oc.Bgp_Neighbor b !! addr); cbn; [reflexivity|]. now apply lookup_insert_ne.
Qed.

Lemma GetOrCreateNeighbor_global_rib (b : oc.Bgp) (addr : string) :
  oc.Bgp_Global (fst (oc.GetOrCreateNeighbor b addr)) = oc.Bgp_Global b /\
  oc.Bgp_Rib (fst (oc.GetOrCreateNeighbor b addr)) = oc.Bgp_Rib b.
Proof.
  unfold oc.GetOrCreateNeighbor. destruct (oc.Bgp_Neighbor b !! addr); split; reflexivity.
Qed.

(** The applied BGP sub-tree after the mutator of a peer event: the tree
    with the neighbour's record, and in that record at most the session
    state changed. *)
Lemma peerEventMutator_appliedBGP (ps : api.PeerState) (t : gobgp.bgpDeclTask) :
  let b := fst (oc.GetOrCreateNeighbor (gobgp.appliedBGP t) (api.NeighborAddress ps)) in
  let t1 := snd (gobgp.peerEventMutator ps t) in
  (gobgp.appliedBGP t1 = b \/
   exists s, gobgp.appliedBGP t1 = gobgp.store_SessionState (api.NeighborAddress ps) s b) /\
  gobgp.appliedRoutingPolicy t1 = gobgp.appliedRoutingPolicy t /\
  oc.Root_Other (gobgp.appliedState t1) = oc.Root_Other (gobgp.appliedState t) /\
  gobgp.yclient t1 = gobgp.yclient t /\
  gobgp.currentConfig t1 = gobgp.currentConfig t /\
  gobgp.bgpStarted t1 = gobgp.bgpStarted t /\
  gobgp.bgpServer t1 = gobgp.bgpServer t.
Proof.
  cbv zeta. unfold gobgp.peerEventMutator.
  destruct (oc.GetOrCreateNeighbor (gobgp.appliedBGP t) (api.NeighborAddress ps))
    as [b neigh]. cbn [fst].
  destruct (String.eqb _ "UNKNOWN").
  - cbn. repeat split. right. eauto.
  - destruct (gobgp.lookupSessionState _ _) as [enumCode|].
    + destruct (Z.eqb _ enumCode); cbn; repeat split; [now left | right; eauto].
    + cbn. repeat split. now left.
Qed.

(** X18.  A peer event touches one record only: the records of all other
    neighbours, the global settings and the RIB of the applied BGP sub-tree,
    the applied routing policy, the snapshot and the started flag are as
    before, and a record the neighbour already had keeps every field except
    possibly its session state. *)
Theorem onPeerEvent_frame (ps : api.PeerState) (t : gobgp.bgpDeclTask) :
  let t' := gobgp.onPeerEvent ps t in
  (forall a, a <> api.NeighborAddress ps ->
             oc.Bgp_Neighbor (gobgp.appliedBGP t') !! a
             = oc.Bgp_Neighbor (gobgp.appliedBGP t) !! a) /\
  (forall n, oc.Bgp_Neighbor (gobgp.appliedBGP t) !! api.NeighborAddress ps = Some n ->
             exists s, oc.Bgp_Neighbor (gobgp.appliedBGP t') !! api.NeighborAddress ps
                       = Some (gobgp.set_SessionState s n)) /\
  oc.Bgp_Global (gobgp.appliedBGP t') = oc.Bgp_Global (gobgp.appliedBGP t) /\
  oc.Bgp_Rib (gobgp.appliedBGP t') = oc.Bgp_Rib (gobgp.appliedBGP t) /\
  gobgp.appliedRoutingPolicy t' = gobgp.appliedRoutingPolicy t /\
  gobgp.currentConfig t' = gobgp.currentConfig t /\
  gobgp.bgpStarted t' = gobgp.bgpStarted t.
Proof.
  cbv zeta. unfold gobgp.onPeerEvent.
  destruct (updateAppliedState_appliedState (gobgp.peerEventMutator ps) t) as [Ha _].
  destruct (peerEventMutator_cases ps t) as [Hnone _].
  destruct (gobgp.peerEventMutator ps t) as [e t1] eqn:E. cbn [fst snd] in *. subst e.
  destruct (updateAppliedState_after_mutator (gobgp.peerEventMutator ps) t t1 E)
    as [_ [_ [_ [Hc Hs]]]].
  set (t2 := snd (gobgp.updateAppliedState (gobgp.peerEventMutator ps) t)) in *.
  pose proof (peerEventMutator_appliedBGP ps t) as Hm. cbv zeta in Hm. rewrite E in Hm.
  cbn [snd] in Hm. destruct Hm as [Hb [Hrp [_ [_ [Hc1 [Hs1 _]]]]]].
  assert (Hb2 : gobgp.appliedBGP t2 = gobgp.appliedBGP t1)
    by (unfold gobgp.appliedBGP; now rewrite Ha).
  assert (Hrp2 : gobgp.appliedRoutingPolicy t2 = gobgp.appliedRoutingPolicy t1)
    by (unfold gobgp.appliedRoutingPolicy; now rewrite Ha).
  rewrite Hb2, Hrp2, Hc, Hs, Hrp, Hc1, Hs1.
  destruct (GetOrCreateNeighbor_global_rib (gobgp.appliedBGP t) (api.NeighborAddress ps))
    as [Hg Hr].
  split; [|split; [|split; [|split; [|repeat split]]]].
  - intros a Hne. destruct Hb as [->|[s ->]].
    + now apply GetOrCreateNeighbor_lookup_ne.
    + rewrite store_SessionState_lookup_ne by congruence.
      now apply GetOrCreateNeighbor_lookup_ne.
  - intros n Hn.
    pose proof (GetOrCreateNeighbor_keeps _ (api.NeighborAddress ps) _ _ Hn) as Hk.
    destruct Hb as [->|[s ->]].
    + exists (oc.Neighbor_SessionState n). rewrite Hk. f_equal. now destruct n.
    + exists s. cbn. now rewrite lookup_alter_eq, Hk.
  - destruct Hb as [->|[s ->]]; exact Hg.
  - destruct Hb as [->|[s ->]]; exact Hr.
Qed.

(** X19.  The mutator of a peer event never fails, so every event,
    recognized or not, ends in a publish: the cache receives the applied BGP
    sub-tree as the event left it and then the applied routing-policy
    sub-tree. *)
Theorem onPeerEvent_always_publishes (ps : api.PeerState) (t : gobgp.bgpDeclTask) :
  fst (gobgp.updateAppliedState (gobgp.peerEventMutator ps) t) = None /\
  gobgp.yclient (gobgp.onPeerEvent ps t)
  = fst (gobgp.Replace
           (fst (gobgp.Replace (gobgp.yclient t)
                   (gobgp.AtBGPStatePath (gobgp.appliedBGP (gobgp.onPeerEvent ps t)))))
           (gobgp.AtRoutingPolicyStatePath (gobgp.appliedRoutingPolicy t))).
Proof.
  unfold gobgp.onPeerEvent.
  destruct (updateAppliedState_appliedState (gobgp.peerEventMutator ps) t) as [Ha _].
  destruct (peerEventMutator_cases ps t) as [Hnone _].
  pose proof (peerEventMutator_appliedBGP ps t) as Hm. cbv zeta in Hm.
  destruct Hm as [_ [Hrp [_ [Hy _]]]].
  destruct (gobgp.peerEventMutator ps t) as [e t1] eqn:E. cbn [fst snd] in *. subst e.
  destruct (updateAppliedState_after_mutator (gobgp.peerEventMutator ps) t t1 E)
    as [Herr [Hc _]].
  split; [exact Herr|].
  rewrite Hc, Hy, Hrp. unfold gobgp.appliedBGP at 2. now rewrite Ha.
Qed.

End PeerEventFrame.

Lemma onPeerEvent_frame_witness :
  exists s,
    oc.Bgp_Neighbor
      (gobgp.appliedBGP
         (gobgp.onPeerEvent (scripted.peerEvent api.PeerState_ESTABLISHED)
            (scripted.task scripted.workingEngine tt [] tt true (Some scripted.goodConfig)
               scripted.appliedRunning))) !! "10.0.0.2"
    = Some (gobgp.set_SessionState s (scripted.neighbor "10.0.0.2" 65002)).
Proof.
  exact (proj1 (proj2 (onPeerEvent_frame (scripted.peerEvent api.PeerState_ESTABLISHED)
                         (scripted.task scripted.workingEngine tt [] tt true
                            (Some scripted.goodConfig) scripted.appliedRunning)))
           (scripted.neighbor "10.0.0.2" 65002) (lookup_singleton_eq _ _)).
Defined.

Section PeerEventIdempotence.
Context `{gobgp.Collaborators}.

Lemma peerEventMutator_appliedState (ps : api.PeerState) (t : gobgp.bgpDeclTask) :
  gobgp.appliedState (snd (gobgp.peerEventMutator ps t))
  = {| oc.Root_Bgp := gobgp.peerEventBgp ps (gobgp.appliedBGP t);
       oc.Root_RoutingPolicy := gobgp.appliedRoutingPolicy t;
       oc.Root_Other := oc.Root_Other (gobgp.appliedState t) |}.
Proof.
  unfold gobgp.peerEventMutator, gobgp.peerEventBgp.
  destruct (oc.GetOrCreateNeighbor (gobgp.appliedBGP t) (api.NeighborAddress ps))
    as [b neigh].
  destruct (String.eqb _ "UNKNOWN"); [reflexivity|].
  destruct (gobgp.lookupSessionState _ _) as [enumCode|]; [|reflexivity].
  destruct (Z.eqb _ enumCode); reflexivity.
Qed.

Lemma GetOrCreateNeighbor_found (b : oc.Bgp) (addr : string) (n : oc.Neighbor) :
  oc.Bgp_Neighbor b !! addr = Some n -> oc.GetOrCreateNeighbor b addr = (b, n).
Proof. intros Hn. unfold oc.GetOrCreateNeighbor. now rewrite Hn. Qed.

Lemma store_SessionState_twice (addr : string) s (b : oc.Bgp) :
  gobgp.store_SessionState addr s (gobgp.store_SessionState addr s b)
  = gobgp.store_SessionState addr s b.
Proof.
  unfold gobgp.store_SessionState. cbn. f_equal.
  rewrite alter_alter_eq. apply alter_ext. intros n _. reflexivity.
Qed.

Lemma peerEventBgp_twice (ps : api.PeerState) (b0 : oc.Bgp) :
  gobgp.peerEventBgp ps (gobgp.peerEventBgp ps b0) = gobgp.peerEventBgp ps b0.
Proof.
  unfold gobgp.peerEventBgp at 2 3.
  pose proof (GetOrCreateNeighbor_lookup b0 (api.NeighborAddress ps)) as Hl.
  destruct (oc.GetOrCreateNeighbor b0 (api.NeighborAddress ps)) as [b neigh].
  cbn [fst snd] in Hl.
  assert (Hstored : forall s,
             oc.GetOrCreateNeighbor (gobgp.store_SessionState (api.NeighborAddress ps) s b)
               (api.NeighborAddress ps)
             = (gobgp.store_SessionState (api.NeighborAddress ps) s b,
                gobgp.set_SessionState s neigh)).
  { intros s. apply GetOrCreateNeighbor_found. cbn. now rewrite lookup_alter_eq, Hl. }
  unfold gobgp.peerEventBgp.
  destruct (String.eqb _ "UNKNOWN").
  - rewrite Hstored. apply store_SessionState_twice.
  - destruct (gobgp.lookupSessionState _ _) as [enumCode|].
    + destruct (Z.eqb_spec (oc.Neighbor_SessionState neigh) enumCode) as [Heq|Hne].
      * rewrite (GetOrCreateNeighbor_found _ _ _ Hl).
        now destruct (Z.eqb_spec (oc.Neighbor_SessionState neigh) enumCode).
      * rewrite Hstored. cbn [gobgp.set_SessionState oc.Neighbor_SessionState].
        now rewrite Z.eqb_refl.
    + now rewrite (GetOrCreateNeighbor_found _ _ _ Hl).
Qed.

(** X20.  A peer event that arrives twice leaves the applied tree as one
    arrival does: the second arrival changes no record. *)
Theorem onPeerEvent_idempotent (ps : api.PeerState) (t : gobgp.bgpDeclTask) :
  gobgp.appliedState (gobgp.onPeerEvent ps (gobgp.onPeerEvent ps t))
  = gobgp.appliedState (gobgp.onPeerEvent ps t).
Proof.
  assert (Hstep : forall u,
             gobgp.appliedState (gobgp.onPeerEvent ps u)
             = {| oc.Root_Bgp := gobgp.peerEventBgp ps (gobgp.appliedBGP u);
                  oc.Root_RoutingPolicy := gobgp.appliedRoutingPolicy u;
                  oc.Root_Other := oc.Root_Other (gobgp.appliedState u) |}).
  { intros u. unfold gobgp.onPeerEvent.
    rewrite (proj1 (updateAppliedState_appliedState (gobgp.peerEventMutator ps) u)).
    apply peerEventMutator_appliedState. }
  rewrite (Hstep (gobgp.onPeerEvent ps t)).
  unfold gobgp.appliedBGP at 1, gobgp.appliedRoutingPolicy at 1.
  rewrite !(Hstep t). cbn. now rewrite peerEventBgp_twice.
Qed.

End PeerEventIdempotence.

(** * Properties of the RIB poller *)

Section RibPollerFacts.
Context `{C : gobgp.Collaborators} `{!gobgp.PathLister C}.

Lemma elem_of_addRoute {K : Type} `{EqDecision K} (x k : K) (table : list K) :
  x ∈ gobgp.addRoute k table <-> x = k \/ x ∈ table.
Proof.
  unfold gobgp.addRoute. destruct (decide (k ∈ table)) as [Hin|Hout].
  - split; [now right | intros [->|Hx]; assumption].
  - rewrite elem_of_app, elem_of_cons. split.
    + intros [Hx|[->|Hx]]; [now right | now left | inversion Hx].
    + intros [->|Hx]; [right; now left | now left].
Qed.

Lemma NoDup_addRoute {K : Type} `{EqDecision K} (k : K) (table : list K) :
  NoDup table -> NoDup (gobgp.addRoute k table).
Proof.
  intros Hnd. unfold gobgp.addRoute. destruct (decide (k ∈ table)) as [Hin|Hout];
    [exact Hnd|].
  apply NoDup_app. split; [exact Hnd|]. split; [|apply NoDup_singleton].
  intros x Hx Hk. apply elem_of_cons in Hk as [->|Hk]; [contradiction | inversion Hk].
Qed.

(** A property that each round of the loops keeps is kept by the loops. *)
Lemma forPaths_inv {S : Type} (P : S -> Prop) (f : Z -> api.Path -> S -> S)
    (paths : list api.Path) :
  (forall j path s, P s -> P (f j path s)) ->
  forall j s, P s -> P (gobgp.forPaths f j paths s).
Proof.
  intros Hstep. induction paths as [|path rest IH]; intros j s Hs; cbn; [exact Hs|].
  apply IH, Hstep, Hs.
Qed.

Lemma forRoutes_inv {S : Type} (P : S -> Prop) (f : string -> Z -> api.Path -> S -> S)
    (routes : list api.Destination) :
  (forall prefix j path s, P s -> P (f prefix j path s)) ->
  forall s, P s -> P (gobgp.forRoutes f routes s).
Proof.
  intros Hstep. unfold gobgp.forRoutes.
  induction routes as [|route rest IH]; intros s Hs; cbn; [exact Hs|].
  apply IH. apply forPaths_inv; [apply Hstep | exact Hs].
Qed.

(** [queryTable] keeps what its callback keeps, and on an error keeps the
    state itself. *)
Lemma queryTable_inv {S : Type} (P : S -> Prop) neighbor tableName tableType
    (f : list api.Destination -> S -> S) (srv : gobgp.Server) (s : S) :
  (forall routes s, P s -> P (f routes s)) ->
  P s -> P (fst (fst (gobgp.queryTable neighbor tableName tableType f srv s))).
Proof.
  intros Hf Hs. unfold gobgp.queryTable.
  destruct (gobgp.ListPath srv _) as [[routes [e|]] srv']; cbn; [exact Hs | now apply Hf].
Qed.

Lemma queryTable_failed {S : Type} neighbor tableName tableType
    (f : list api.Destination -> S -> S) (srv : gobgp.Server) (s : S) :
  is_Some (snd (fst (gobgp.ListPath srv
                       {| api.Name := neighbor; api.TableType_ := tableType;
                          api.EnableFiltered := true |}))) ->
  fst (fst (gobgp.queryTable neighbor tableName tableType f srv s)) = s.
Proof.
  unfold gobgp.queryTable.
  destruct (gobgp.ListPath srv _) as [[routes [e|]] srv']; cbn; [reflexivity|].
  intros [e He]. discriminate.
Qed.

Lemma pollNeighbor_inv (P : oc.Rib -> Prop) (neigh : string)
    (acc : oc.Rib * gobgp.Server * list gobgp.RibLogEntry) :
  (forall prefix j path s, P s -> P (gobgp.addAdjIn prefix j path s)) ->
  (forall n prefix j path s, P s -> P (gobgp.addAdjOut n prefix j path s)) ->
  P (fst (fst acc)) -> P (fst (fst (gobgp.pollNeighbor neigh acc))).
Proof.
  intros Hin Hout Hacc. destruct acc as [[v4uni srv] l]. unfold gobgp.pollNeighbor.
  pose proof (queryTable_inv P neigh "adj-rib-in" api.TableType_ADJ_IN
                (gobgp.forRoutes gobgp.addAdjIn) srv v4uni) as H1.
  destruct (gobgp.queryTable neigh "adj-rib-in" _ _ srv v4uni) as [[v1 srv1] l1].
  pose proof (queryTable_inv P neigh "adj-rib-out" api.TableType_ADJ_OUT
                (gobgp.forRoutes (gobgp.addAdjOut neigh)) srv1 v1) as H2.
  destruct (gobgp.queryTable neigh "adj-rib-out" _ _ srv1 v1) as [[v2 srv2] l2].
  cbn [fst] in *. apply H2.
  - intros routes s Hs. apply forRoutes_inv; [apply Hout | exact Hs].
  - apply H1; [|exact Hacc]. intros routes s Hs. apply forRoutes_inv; [apply Hin | exact Hs].
Qed.

Lemma pollNeighbors_inv (P : oc.Rib -> Prop) (neighs : list string)
    (acc : oc.Rib * gobgp.Server * list gobgp.RibLogEntry) :
  (forall prefix j path s, P s -> P (gobgp.addAdjIn prefix j path s)) ->
  (forall n prefix j path s, P s -> P (gobgp.addAdjOut n prefix j path s)) ->
  P (fst (fst acc)) ->
  P (fst (fst (fold_left (fun acc neigh => gobgp.pollNeighbor neigh acc) neighs acc))).
Proof.
  intros Hin Hout. revert acc. induction neighs as [|neigh rest IH]; intros acc Hacc; cbn;
    [exact Hacc|].
  apply IH. now apply pollNeighbor_inv.
Qed.

(** The RIB that [pollRIB] leaves is the one its loops end with. *)
Lemma pollRIB_rib (b : oc.Bgp) (srv : gobgp.Server) :
  oc.Bgp_Rib (fst (fst (gobgp.pollRIB b srv)))
  = Some (fst (fst (fold_left (fun acc neigh => gobgp.pollNeighbor neigh acc)
                      (map fst (map_to_list (oc.Bgp_Neighbor b)))
                      (gobgp.queryTable "" "local" api.TableType_LOCAL gobgp.setLocRib srv
                         (default gobgp.Rib_zero (oc.Bgp_Rib b)))))) /\
  oc.Bgp_Global (fst (fst (gobgp.pollRIB b srv))) = oc.Bgp_Global b /\
  oc.Bgp_Neighbor (fst (fst (gobgp.pollRIB b srv))) = oc.Bgp_Neighbor b.
Proof.
  unfold gobgp.pollRIB. destruct (fold_left _ _ _) as [[v srv'] l]. repeat split.
Qed.

(** The keys that the loops of the local table add. *)
Lemma forPaths_locRib (prefix : string) (paths : list api.Path) :
  forall (j : Z) (table : list (string * option string * Z)) k,
    k ∈ gobgp.forPaths
          (fun j path locRib =>
             gobgp.addRoute (prefix, gobgp.originOf path, gobgp.uint32 j) locRib)
          j paths table
    <-> k ∈ table \/
        exists i path, paths !! i = Some path /\
          k = (prefix, gobgp.originOf path, gobgp.uint32 (j + Z.of_nat i)).
Proof.
  induction paths as [|path rest IH]; intros j table k; cbn [gobgp.forPaths].
  - split; [now left | intros [Hk|[i [p [Hp _]]]]; [exact Hk | destruct i; discriminate]].
  - rewrite IH, elem_of_addRoute. split.
    + intros [[->|Hk]|[i [p [Hp ->]]]].
      * right. exists 0%nat, path. split; [reflexivity|]. do 2 f_equal. lia.
      * now left.
      * right. exists (S i), p. split; [exact Hp|]. do 2 f_equal. lia.
    + intros [Hk|[[|i] [p [Hp ->]]]].
      * left. now right.
      * cbn in Hp. injection Hp as <-. left. left. do 2 f_equal. lia.
      * right. exists i, p. split; [exact Hp|]. do 2 f_equal. lia.
Qed.

Lemma forRoutes_locRib (routes : list api.Destination) :
  forall (table : list (string * option string * Z)) k,
    k ∈ gobgp.forRoutes
          (fun prefix j path locRib =>
             gobgp.addRoute (prefix, gobgp.originOf path, gobgp.uint32 j) locRib)
          routes table
    <-> k ∈ table \/ gobgp.locRibKeyOf routes k.
Proof.
  unfold gobgp.forRoutes, gobgp.locRibKeyOf.
  induction routes as [|route rest IH]; intros table k; cbn [fold_left].
  - split; [now left | intros [Hk|[r [i [p [Hr _]]]]]; [exact Hk | inversion Hr]].
  - rewrite IH, forPaths_locRib. split.
    + intros [[Hk|[i [p [Hp ->]]]]|[r [i [p [Hr [Hp ->]]]]]].
      * now left.
      * right. exists route, i, p. split; [apply list_elem_of_here|]. now split.
      * right. exists r, i, p. split; [now apply list_elem_of_further|]. now split.
    + intros [Hk|[r [i [p [Hr [Hp ->]]]]]].
      * left. now left.
      * apply elem_of_cons in Hr as [->|Hr].
        -- left. right. exists i, p. now split.
        -- right. exists r, i, p. now split.
Qed.

Lemma addAdj_LocRib :
  (forall prefix j path s,
      oc.Rib_LocRib (gobgp.addAdjIn prefix j path s) = oc.Rib_LocRib s) /\
  (forall n prefix j path s,
      oc.Rib_LocRib (gobgp.addAdjOut n prefix j path s) = oc.Rib_LocRib s).
Proof. split; reflexivity. Qed.

(** X21.  The poller replaces the local table only when its query
    succeeds: then the table holds exactly one key (prefix, origin, index)
    for each path of each destination returned, the origin being unset for a
    path without a source, and nothing of what it held before; when the
    query fails the table is as before. *)
Theorem pollRIB_local_table (b : oc.Bgp) (srv srv' : gobgp.Server)
    (routes : list api.Destination) (err : option gobgp.error) :
  gobgp.ListPath srv {| api.Name := ""; api.TableType_ := api.TableType_LOCAL;
                        api.EnableFiltered := true |} = (routes, err, srv') ->
  exists v4uni,
    oc.Bgp_Rib (fst (fst (gobgp.pollRIB b srv))) = Some v4uni /\
    (is_Some err ->
     oc.Rib_LocRib v4uni = oc.Rib_LocRib (default gobgp.Rib_zero (oc.Bgp_Rib b))) /\
    (err = None ->
     NoDup (oc.Rib_LocRib v4uni) /\
     forall k, k ∈ oc.Rib_LocRib v4uni <-> gobgp.locRibKeyOf routes k).
Proof.
  intros Hlist. destruct (pollRIB_rib b srv) as [-> _]. eexists. split; [reflexivity|].
  destruct addAdj_LocRib as [Hin Hout].
  set (q := gobgp.queryTable "" "local" api.TableType_LOCAL gobgp.setLocRib srv
              (default gobgp.Rib_zero (oc.Bgp_Rib b))).
  assert (Hkeep : oc.Rib_LocRib
                    (fst (fst (fold_left (fun acc neigh => gobgp.pollNeighbor neigh acc)
                                 (map fst (map_to_list (oc.Bgp_Neighbor b))) q)))
                  = oc.Rib_LocRib (fst (fst q))).
  { apply (pollNeighbors_inv (fun r => oc.Rib_LocRib r = oc.Rib_LocRib (fst (fst q)))).
    - intros prefix j path s Hs. now rewrite Hin.
    - intros n prefix j path s Hs. now rewrite Hout.
    - reflexivity. }
  rewrite Hkeep. unfold q, gobgp.queryTable. rewrite Hlist. split.
  - intros [e ->]. reflexivity.
  - intros ->. cbn [fst]. unfold gobgp.setLocRib. cbn [oc.Rib_LocRib]. split.
    + apply (forRoutes_inv (fun l => NoDup l)); [|apply NoDup_nil_2].
      intros prefix j path s Hs. now apply NoDup_addRoute.
    + intros k. rewrite forRoutes_locRib. split; [|now right].
      intros [Hk|Hk]; [inversion Hk | exact Hk].
Qed.

End RibPollerFacts.

Section AdjacencyTables.
Context `{C : gobgp.Collaborators} `{!gobgp.PathLister C}.

Lemma adjRibWithin_refl (r : oc.Rib) : gobgp.adjRibWithin r r.
Proof. intros addr a Ha. exists a. repeat split; (exact Ha || intros x Hx; exact Hx). Qed.

Lemma adjRibWithin_trans (r1 r2 r3 : oc.Rib) :
  gobgp.adjRibWithin r1 r2 -> gobgp.adjRibWithin r2 r3 -> gobgp.adjRibWithin r1 r3.
Proof.
  intros H12 H23 addr a1 Ha1.
  destruct (H12 addr a1 Ha1) as [a2 [Ha2 [P1 [P2 [P3 P4]]]]].
  destruct (H23 addr a2 Ha2) as [a3 [Ha3 [Q1 [Q2 [Q3 Q4]]]]].
  exists a3. split; [exact Ha3|].
  repeat split; intros x Hx; [apply Q1, P1 | apply Q2, P2 | apply Q3, P3 | apply Q4, P4];
    exact Hx.
Qed.

Lemma addRoute_grows {K : Type} `{EqDecision K} (k : K) (table : list K) :
  table ⊆ gobgp.addRoute k table.
Proof. intros x Hx. apply elem_of_addRoute. now right. Qed.

(** A write to one record of the RIB that only adds routes. *)
Lemma updateRibNeighbor_grows (addr : string) (g : oc.AdjRib -> oc.AdjRib) (r : oc.Rib) :
  (forall a, oc.AdjRibInPre a ⊆ oc.AdjRibInPre (g a) /\
             oc.AdjRibInPost a ⊆ oc.AdjRibInPost (g a) /\
             oc.AdjRibOutPre a ⊆ oc.AdjRibOutPre (g a) /\
             oc.AdjRibOutPost a ⊆ oc.AdjRibOutPost (g a)) ->
  gobgp.adjRibWithin r (gobgp.updateRibNeighbor addr g r).
Proof.
  intros Hg a0 a1 Ha1. unfold gobgp.updateRibNeighbor. cbn.
  destruct (decide (addr = a0)) as [->|Hne].
  - rewrite lookup_insert_eq, Ha1. cbn. eexists. split; [reflexivity | apply Hg].
  - rewrite lookup_insert_ne by exact Hne. exists a1.
    repeat split; (exact Ha1 || intros x Hx; exact Hx).
Qed.

Lemma addAdjIn_grows prefix j path (r : oc.Rib) :
  gobgp.adjRibWithin r (gobgp.addAdjIn prefix j path r).
Proof.
  apply updateRibNeighbor_grows. intros a. cbn. repeat split;
    try (intros x Hx; exact Hx); try apply addRoute_grows.
  destruct (api.Filtered path); [intros x Hx; exact Hx | apply addRoute_grows].
Qed.

Lemma addAdjOut_grows neigh prefix j path (r : oc.Rib) :
  gobgp.adjRibWithin r (gobgp.addAdjOut neigh prefix j path r).
Proof.
  apply updateRibNeighbor_grows. intros a. cbn. repeat split;
    try (intros x Hx; exact Hx); try apply addRoute_grows.
  destruct (api.Filtered path); [intros x Hx; exact Hx | apply addRoute_grows].
Qed.

(** A write to one record that keeps each post-policy table within its
    pre-policy table. *)
Lemma updateRibNeighbor_postWithinPre (addr : string) (g : oc.AdjRib -> oc.AdjRib)
    (r : oc.Rib) :
  (forall a, oc.AdjRibInPost a ⊆ oc.AdjRibInPre a /\ oc.AdjRibOutPost a ⊆ oc.AdjRibOutPre a ->
             oc.AdjRibInPost (g a) ⊆ oc.AdjRibInPre (g a) /\
             oc.AdjRibOutPost (g a) ⊆ oc.AdjRibOutPre (g a)) ->
  gobgp.postWithinPre r -> gobgp.postWithinPre (gobgp.updateRibNeighbor addr g r).
Proof.
  intros Hg Hr a0 a1. unfold gobgp.updateRibNeighbor. cbn.
  destruct (decide (addr = a0)) as [->|Hne].
  - rewrite lookup_insert_eq. intros [= <-]. apply Hg.
    destruct (oc.Rib_Neighbor r !! a0) as [a|] eqn:Ha; cbn.
    + now apply (Hr a0).
    + split; intros x Hx; inversion Hx.
  - rewrite lookup_insert_ne by exact Hne. apply Hr.
Qed.

Lemma addRoute_both {K : Type} `{EqDecision K} (k : K) (post pre : list K) :
  post ⊆ pre -> gobgp.addRoute k post ⊆ gobgp.addRoute k pre.
Proof.
  intros Hsub x Hx. apply elem_of_addRoute in Hx. apply elem_of_addRoute.
  destruct Hx as [->|Hx]; [now left | right; now apply Hsub].
Qed.

Lemma addAdjIn_postWithinPre prefix j path (r : oc.Rib) :
  gobgp.postWithinPre r -> gobgp.postWithinPre (gobgp.addAdjIn prefix j path r).
Proof.
  apply updateRibNeighbor_postWithinPre. intros a [Hi Ho]. cbn. split; [|exact Ho].
  destruct (api.Filtered path).
  - intros x Hx. apply addRoute_grows, Hi, Hx.
  - now apply addRoute_both.
Qed.

Lemma addAdjOut_postWithinPre neigh prefix j path (r : oc.Rib) :
  gobgp.postWithinPre r -> gobgp.postWithinPre (gobgp.addAdjOut neigh prefix j path r).
Proof.
  apply updateRibNeighbor_postWithinPre. intros a [Hi Ho]. cbn. split; [exact Hi|].
  destruct (api.Filtered path).
  - intros x Hx. apply addRoute_grows, Ho, Hx.
  - now apply addRoute_both.
Qed.

(** X22.  A poll never removes a route from an adjacency table: every
    neighbour of the RIB and every route of its four tables is still there
    after the poll.  It also keeps the post-policy tables within the
    pre-policy tables: when that holds of every neighbour before the poll
    (as it does of an empty RIB), it holds after. *)
Theorem pollRIB_adjacency_tables_grow (b : oc.Bgp) (srv : gobgp.Server) :
  exists v4uni,
    oc.Bgp_Rib (fst (fst (gobgp.pollRIB b srv))) = Some v4uni /\
    gobgp.adjRibWithin (default gobgp.Rib_zero (oc.Bgp_Rib b)) v4uni /\
    (gobgp.postWithinPre (default gobgp.Rib_zero (oc.Bgp_Rib b)) ->
     gobgp.postWithinPre v4uni).
Proof.
  destruct (pollRIB_rib b srv) as [-> _]. eexists. split; [reflexivity|].
  set (r0 := default gobgp.Rib_zero (oc.Bgp_Rib b)). split.
  - apply (pollNeighbors_inv (fun r => gobgp.adjRibWithin r0 r)).
    + intros prefix j path s Hs. eapply adjRibWithin_trans; [exact Hs | apply addAdjIn_grows].
    + intros n prefix j path s Hs.
      eapply adjRibWithin_trans; [exact Hs | apply addAdjOut_grows].
    + apply (queryTable_inv (fun r => gobgp.adjRibWithin r0 r)); [|apply adjRibWithin_refl].
      intros routes s Hs addr a Ha. exact (Hs addr a Ha).
  - intros H0. apply (pollNeighbors_inv gobgp.postWithinPre).
    + intros prefix j path s. apply addAdjIn_postWithinPre.
    + intros n prefix j path s. apply addAdjOut_postWithinPre.
    + apply (queryTable_inv gobgp.postWithinPre); [|exact H0].
      intros routes s Hs addr a Ha. exact (Hs addr a Ha).
Qed.

(** X23.  When every query of a poll fails, the tables are as before: the
    poll leaves the RIB it found (an empty one when there was none), and
    the global settings and the neighbours untouched. *)
Theorem pollRIB_all_queries_fail (b : oc.Bgp) (srv : gobgp.Server) :
  (forall srv req, is_Some (snd (fst (gobgp.ListPath srv req)))) ->
  fst (fst (gobgp.pollRIB b srv))
  = {| oc.Bgp_Global := oc.Bgp_Global b;
       oc.Bgp_Neighbor := oc.Bgp_Neighbor b;
       oc.Bgp_Rib := Some (default gobgp.Rib_zero (oc.Bgp_Rib b)) |}.
Proof.
  intros Hfail. unfold gobgp.pollRIB.
  set (r0 := default gobgp.Rib_zero (oc.Bgp_Rib b)).
  assert (Hfold : forall neighs acc,
             fst (fst (fold_left (fun acc neigh => gobgp.pollNeighbor neigh acc) neighs acc))
             = fst (fst acc)).
  { induction neighs as [|neigh rest IH]; intros acc; cbn; [reflexivity|].
    rewrite IH. destruct acc as [[v s] l]. unfold gobgp.pollNeighbor.
    pose proof (queryTable_failed neigh "adj-rib-in" api.TableType_ADJ_IN
                  (gobgp.forRoutes gobgp.addAdjIn) s v (Hfail _ _)) as H1.
    destruct (gobgp.queryTable neigh "adj-rib-in" _ _ s v) as [[v1 s1] l1].
    pose proof (queryTable_failed neigh "adj-rib-out" api.TableType_ADJ_OUT
                  (gobgp.forRoutes (gobgp.addAdjOut neigh)) s1 v1 (Hfail _ _)) as H2.
    destruct (gobgp.queryTable neigh "adj-rib-out" _ _ s1 v1) as [[v2 s2] l2].
    cbn [fst] in *. congruence. }
  specialize (Hfold (map fst (map_to_list (oc.Bgp_Neighbor b)))
                (gobgp.queryTable "" "local" api.TableType_LOCAL gobgp.setLocRib srv r0)).
  rewrite (queryTable_failed "" "local" api.TableType_LOCAL gobgp.setLocRib srv r0
             (Hfail _ _)) in Hfold.
  destruct (fold_left _ _ _) as [[v s] l]. cbn [fst] in *. now rewrite Hfold.
Qed.

End AdjacencyTables.

Section AdjacencyKeys.
Context `{C : gobgp.Collaborators} `{!gobgp.PathLister C}.

(** What a round of the loops establishes, and every later round keeps,
    holds of every path after the loops. *)
Lemma forPaths_all {S : Type} (Q : Z -> api.Path -> S -> Prop)
    (f : Z -> api.Path -> S -> S) (paths : list api.Path) :
  (forall j path s, Q j path (f j path s)) ->
  (forall j path j' path' s, Q j path s -> Q j path (f j' path' s)) ->
  forall j0 s i path,
    paths !! i = Some path -> Q (j0 + Z.of_nat i) path (gobgp.forPaths f j0 paths s).
Proof.
  intros Hset Hkeep. induction paths as [|p rest IH]; intros j0 s i path Hi;
    [destruct i; discriminate|].
  destruct i as [|i]; cbn in Hi |- *.
  - injection Hi as <-. replace (j0 + Z.of_nat 0) with j0 by lia.
    apply (forPaths_inv (Q j0 p)); [intros; now apply Hkeep | apply Hset].
  - replace (j0 + Z.of_nat (Datatypes.S i)) with (j0 + 1 + Z.of_nat i) by lia.
    now apply IH.
Qed.

Lemma forRoutes_all {S : Type} (Q : string -> Z -> api.Path -> S -> Prop)
    (f : string -> Z -> api.Path -> S -> S) (routes : list api.Destination) :
  (forall prefix j path s, Q prefix j path (f prefix j path s)) ->
  (forall prefix j path prefix' j' path' s,
      Q prefix j path s -> Q prefix j path (f prefix' j' path' s)) ->
  forall s route i path,
    route ∈ routes -> api.Paths route !! i = Some path ->
    Q (api.Prefix route) (Z.of_nat i) path (gobgp.forRoutes f routes s).
Proof.
  intros Hset Hkeep. unfold gobgp.forRoutes.
  induction routes as [|r rest IH]; intros s route i path Hr Hi; [inversion Hr|].
  cbn [fold_left]. apply elem_of_cons in Hr as [->|Hr].
  - apply (forRoutes_inv (Q (api.Prefix r) (Z.of_nat i) path) f rest);
      [intros; now apply Hkeep|].
    apply (forPaths_all (Q (api.Prefix r)) (f (api.Prefix r)) (api.Paths r)
             (Hset (api.Prefix r)) (fun j p j' p' s => Hkeep _ j p _ j' p' s) 0 s i path Hi).
  - now apply IH.
Qed.

(** The route is recorded as received from the neighbour [addr]: in its
    pre-policy table, and in its post-policy table unless it is filtered. *)
Lemma recordedIn_grows (sel_pre sel_post : oc.AdjRib -> list (string * Z)) (r1 r2 : oc.Rib)
    (addr : string) (k : string * Z) (filtered : bool) :
  (forall a1 a2,
      oc.AdjRibInPre a1 ⊆ oc.AdjRibInPre a2 /\ oc.AdjRibInPost a1 ⊆ oc.AdjRibInPost a2 /\
      oc.AdjRibOutPre a1 ⊆ oc.AdjRibOutPre a2 /\ oc.AdjRibOutPost a1 ⊆ oc.AdjRibOutPost a2 ->
      sel_pre a1 ⊆ sel_pre a2 /\ sel_post a1 ⊆ sel_post a2) ->
  gobgp.adjRibWithin r1 r2 ->
  (exists a, oc.Rib_Neighbor r1 !! addr = Some a /\ k ∈ sel_pre a /\
             (filtered = false -> k ∈ sel_post a)) ->
  exists a, oc.Rib_Neighbor r2 !! addr = Some a /\ k ∈ sel_pre a /\
            (filtered = false -> k ∈ sel_post a).
Proof.
  intros Hsel Hw [a1 [Ha1 [Hpre Hpost]]].
  destruct (Hw addr a1 Ha1) as [a2 [Ha2 Hsub]].
  destruct (Hsel a1 a2 Hsub) as [S1 S2].
  exists a2. split; [exact Ha2|]. split; [now apply S1|]. intros Hf. now apply S2, Hpost.
Qed.

(** X24.  After a round of the poller for a neighbour, every path of the
    adj-rib-in answer is recorded under the neighbour that the path names,
    and every path of the adj-rib-out answer under the neighbour that was
    queried, whatever neighbour the path names: each in the pre-policy
    table, and in the post-policy table when the engine has not marked it
    filtered. *)
Theorem pollNeighbor_records_paths (neigh : string) (v4uni : oc.Rib)
    (srv srv1 srv2 : gobgp.Server) (l : list gobgp.RibLogEntry)
    (routesIn routesOut : list api.Destination) :
  gobgp.ListPath srv {| api.Name := neigh; api.TableType_ := api.TableType_ADJ_IN;
                        api.EnableFiltered := true |} = (routesIn, None, srv1) ->
  gobgp.ListPath srv1 {| api.Name := neigh; api.TableType_ := api.TableType_ADJ_OUT;
                         api.EnableFiltered := true |} = (routesOut, None, srv2) ->
  let v := fst (fst (gobgp.pollNeighbor neigh (v4uni, srv, l))) in
  (forall route i path,
      route ∈ routesIn -> api.Paths route !! i = Some path ->
      exists a, oc.Rib_Neighbor v !! api.NeighborIp path = Some a /\
        (api.Prefix route, gobgp.uint32 (Z.of_nat i)) ∈ oc.AdjRibInPre a /\
        (api.Filtered path = false ->
         (api.Prefix route, gobgp.uint32 (Z.of_nat i)) ∈ oc.AdjRibInPost a)) /\
  (forall route i path,
      route ∈ routesOut -> api.Paths route !! i = Some path ->
      exists a, oc.Rib_Neighbor v !! neigh = Some a /\
        (api.Prefix route, gobgp.uint32 (Z.of_nat i)) ∈ oc.AdjRibOutPre a /\
        (api.Filtered path = false ->
         (api.Prefix route, gobgp.uint32 (Z.of_nat i)) ∈ oc.AdjRibOutPost a)).
Proof.
  intros Hin Hout. cbv zeta. unfold gobgp.pollNeighbor, gobgp.queryTable.
  rewrite Hin, Hout. cbn [fst].
  set (v1 := gobgp.forRoutes gobgp.addAdjIn routesIn v4uni).
  assert (Hgrow : forall routes s,
             gobgp.adjRibWithin s (gobgp.forRoutes (gobgp.addAdjOut neigh) routes s)).
  { intros routes s.
    apply (forRoutes_inv (fun r => gobgp.adjRibWithin s r)); [|apply adjRibWithin_refl].
    intros prefix j path r Hr. eapply adjRibWithin_trans; [exact Hr | apply addAdjOut_grows]. }
  split.
  - intros route i path Hr Hi.
    apply (recordedIn_grows oc.AdjRibInPre oc.AdjRibInPost v1 _ _ _ _
             ltac:(intros a1 a2 [S1 [S2 _]]; now split) (Hgrow routesOut v1)).
    apply (forRoutes_all
             (fun prefix j p s =>
                exists a, oc.Rib_Neighbor s !! api.NeighborIp p = Some a /\
                  (prefix, gobgp.uint32 j) ∈ oc.AdjRibInPre a /\
                  (api.Filtered p = false -> (prefix, gobgp.uint32 j) ∈ oc.AdjRibInPost a))
             gobgp.addAdjIn routesIn); [| |exact Hr|exact Hi].
    + intros prefix j p s. unfold gobgp.addAdjIn, gobgp.updateRibNeighbor. cbn.
      rewrite lookup_insert_eq. eexists. split; [reflexivity|]. cbn. split.
      * apply elem_of_addRoute. now left.
      * intros ->. apply elem_of_addRoute. now left.
    + intros prefix j p prefix' j' p' s Hs.
      apply (recordedIn_grows oc.AdjRibInPre oc.AdjRibInPost s _ _ _ _
               ltac:(intros a1 a2 [S1 [S2 _]]; now split) (addAdjIn_grows prefix' j' p' s) Hs).
  - intros route i path Hr Hi.
    apply (forRoutes_all
             (fun prefix j p s =>
                exists a, oc.Rib_Neighbor s !! neigh = Some a /\
                  (prefix, gobgp.uint32 j) ∈ oc.AdjRibOutPre a /\
                  (api.Filtered p = false -> (prefix, gobgp.uint32 j) ∈ oc.AdjRibOutPost a))
             (gobgp.addAdjOut neigh) routesOut); [| |exact Hr|exact Hi].
    + intros prefix j p s. unfold gobgp.addAdjOut, gobgp.updateRibNeighbor. cbn.
      rewrite lookup_insert_eq. eexists. split; [reflexivity|]. cbn. split.
      * apply elem_of_addRoute. now left.
      * intros ->. apply elem_of_addRoute. now left.
    + intros prefix j p prefix' j' p' s Hs.
      apply (recordedIn_grows oc.AdjRibOutPre oc.AdjRibOutPost s _ _ _ _
               ltac:(intros a1 a2 [_ [_ [S3 S4]]]; now split)
               (addAdjOut_grows neigh prefix' j' p' s) Hs).
Qed.

End AdjacencyKeys.

Lemma pollRIB_local_table_witness :
  exists v4uni,
    oc.Bgp_Rib (fst (fst (@gobgp.pollRIB scripted.workingEngine scripted.answeringLister
                            scripted.appliedRunning tt))) = Some v4uni /\
    forall k,
      k ∈ oc.Rib_LocRib v4uni
      <-> @gobgp.locRibKeyOf (scripted.sampleTables
                                {| api.Name := ""; api.TableType_ := api.TableType_LOCAL;
                                   api.EnableFiltered := true |}) k.
Proof.
  destruct (@pollRIB_local_table scripted.workingEngine scripted.answeringLister
              scripted.appliedRunning tt _ _ _ eq_refl) as [v [Hv [_ Hkeys]]].
  exists v. split; [exact Hv|]. exact (proj2 (Hkeys eq_refl)).
Defined.

Lemma pollRIB_adjacency_tables_grow_witness :
  exists v4uni,
    oc.Bgp_Rib (fst (fst (@gobgp.pollRIB scripted.workingEngine scripted.answeringLister
                            scripted.appliedRunning tt))) = Some v4uni /\
    gobgp.postWithinPre v4uni.
Proof.
  destruct (@pollRIB_adjacency_tables_grow scripted.workingEngine scripted.answeringLister
              scripted.appliedRunning tt) as [v [Hv [_ Hpost]]].
  exists v. split; [exact Hv|]. apply Hpost.
  intros addr a Ha. cbn in Ha. rewrite lookup_empty in Ha. discriminate.
Defined.

Lemma pollRIB_all_queries_fail_witness :
  fst (fst (@gobgp.pollRIB scripted.workingEngine scripted.failingLister
              scripted.appliedRunning tt))
  = {| oc.Bgp_Global := oc.Bgp_Global scripted.appliedRunning;
       oc.Bgp_Neighbor := oc.Bgp_Neighbor scripted.appliedRunning;
       oc.Bgp_Rib := Some gobgp.Rib_zero |}.
Proof.
  apply (@pollRIB_all_queries_fail scripted.workingEngine scripted.failingLister
           scripted.appliedRunning tt).
  intros srv req. cbn. eauto.
Defined.

Lemma pollNeighbor_records_paths_witness :
  let v := fst (fst (@gobgp.pollNeighbor scripted.workingEngine scripted.answeringLister
                       "10.0.0.2" (gobgp.Rib_zero, tt, []))) in
  exists a, oc.Rib_Neighbor v !! "10.0.0.2" = Some a /\
    ("10.34.0.0/16", 0) ∈ oc.AdjRibOutPre a /\
    ("10.34.0.0/16", 0) ∈ oc.AdjRibOutPost a.
Proof.
  cbv zeta.
  destruct (proj2 (@pollNeighbor_records_paths scripted.workingEngine
                     scripted.answeringLister "10.0.0.2" gobgp.Rib_zero tt tt tt [] _ _
                     eq_refl eq_refl)
              {| api.Prefix := "10.34.0.0/16";
                 api.Paths := [scripted.samplePath "" "" false] |}
              0%nat (scripted.samplePath "" "" false)
              (list_elem_of_here _ _) eq_refl) as [a [Ha [Hpre Hpost]]].
  exists a. split; [exact Ha|]. split; [exact Hpre | exact (Hpost eq_refl)].
Defined.
